(** * NEOM data search: scanner, index builders and query service

    A shallow embedding of the Python sources

      - [scan_species_mentions.py]   (term matcher, per-file scan, batch loop)
      - [prepare_index.py]           (metadata index builder)
      - [neom_search_v2/build_index.py] (scan-artifact index builder)
      - [search_service.py]          (query engine)

    Text is modelled by Rocq strings: a character is one of the 256 code
    points of Latin-1 and is classified as Python classifies that code
    point.  Python dictionaries written to CSV or JSON are association
    lists in insertion order; Python sets are [gset]s.  Library calls whose
    code is outside the repository (file readers, the sentence embedder,
    numpy's matrix product and [numpy.argsort], [re.compile] on user
    patterns, [round]) are section variables. *)

From Stdlib Require Import Ascii String List ZArith Lia Bool Btauto.
From stdpp Require Import base decidable list strings gmap sorting pretty.

Import ListNotations.
Local Open Scope Z_scope.

(** ** Python built-ins used by the sources *)

Module Py.

(** Code point of a character. *)
Definition ord (c : ascii) : N := N_of_ascii c.

Definition in_range (lo hi : N) (c : ascii) : bool :=
  ((lo <=? ord c) && (ord c <=? hi))%N.

(** Characters with a lowercase partner: A-Z, and the Latin-1 capitals
    U+00C0..U+00DE without the multiplication sign U+00D7. *)
Definition has_lower (c : ascii) : bool :=
  in_range 65 90 c || in_range 192 214 c || in_range 216 222 c.

Definition lower_char (c : ascii) : ascii :=
  if has_lower c then ascii_of_N (ord c + 32) else c.

(** [str.lower()] *)
Fixpoint lower (s : string) : string :=
  match s with
  | EmptyString => EmptyString
  | String c s' => String (lower_char c) (lower s')
  end.

(** [str.isalnum()] of one character, or the underscore: the class [\w]. *)
Definition is_word (c : ascii) : bool :=
  in_range 48 57 c || in_range 65 90 c || in_range 97 122 c
  || (ord c =? 95)%N
  || (ord c =? 170)%N || in_range 178 179 c || (ord c =? 181)%N
  || in_range 185 186 c || in_range 188 190 c
  || in_range 192 214 c || in_range 216 246 c || in_range 248 255 c.

(** [str.isspace()] of one character (the characters [str.strip()] removes). *)
Definition is_space (c : ascii) : bool :=
  in_range 9 13 c || in_range 28 32 c || (ord c =? 133)%N || (ord c =? 160)%N.

(** [s.startswith(p)] *)
Fixpoint startswith (p s : string) : bool :=
  match p, s with
  | EmptyString, _ => true
  | String a p', String b s' => if Ascii.eqb a b then startswith p' s' else false
  | String _ _, EmptyString => false
  end.

(** [p in s] for strings *)
Fixpoint contains (p s : string) : bool :=
  startswith p s ||
  match s with
  | EmptyString => false
  | String _ s' => contains p s'
  end.

(** [c in s] for a single character *)
Fixpoint has_char (c : ascii) (s : string) : bool :=
  match s with
  | EmptyString => false
  | String d s' => Ascii.eqb c d || has_char c s'
  end.

(** [sep.join(parts)] *)
Fixpoint join (sep : string) (parts : list string) : string :=
  match parts with
  | [] => EmptyString
  | [p] => p
  | p :: rest => p +:+ sep +:+ join sep rest
  end.

(** [s.replace(a, b)] for single characters *)
Fixpoint replace_char (a b : ascii) (s : string) : string :=
  match s with
  | EmptyString => EmptyString
  | String c s' => String (if Ascii.eqb c a then b else c) (replace_char a b s')
  end.

(** [s.split(sep)] for a single-character separator: the pieces between
    separators, empty pieces included; [cur] is the piece being read,
    reversed. *)
Fixpoint split_go (sep : ascii) (cur : string) (s : string) : list string :=
  match s with
  | EmptyString => [String.rev cur]
  | String c s' =>
      if Ascii.eqb c sep then String.rev cur :: split_go sep EmptyString s'
      else split_go sep (String c cur) s'
  end.

Definition split (sep : ascii) (s : string) : list string :=
  split_go sep EmptyString s.

(** [s.lstrip()], [s.rstrip()] and [s.strip()] *)
Fixpoint lstrip (s : string) : string :=
  match s with
  | EmptyString => EmptyString
  | String c s' => if is_space c then lstrip s' else s
  end.

Definition rstrip (s : string) : string := String.rev (lstrip (String.rev s)).

Definition strip (s : string) : string := rstrip (lstrip s).

(** Truth value of a string: [if s:] *)
Definition truthy (s : string) : bool :=
  match s with EmptyString => false | _ => true end.

(** [l[-n:]] for a positive [n] *)
Definition last_n {A} (n : nat) (l : list A) : list A :=
  skipn (length l - n) l.

(** [l[:k]] for an arbitrary integer [k]: a negative bound counts from the
    end of the list, and the result is empty when it falls before the
    start. *)
Definition slice_to {A} (k : Z) (l : list A) : list A :=
  if 0 <=? k then firstn (Z.to_nat k) l
  else firstn (Z.to_nat (Z.of_nat (length l) + k)) l.

(** Dictionaries with string keys, in insertion order. *)
Definition dict (V : Type) := list (string * V).

Fixpoint dict_get {V} (k : string) (d : dict V) : option V :=
  match d with
  | [] => None
  | (k', v) :: d' => if String.eqb k k' then Some v else dict_get k d'
  end.

(** [d[k] = v]: an existing key keeps its position. *)
Fixpoint dict_set {V} (k : string) (v : V) (d : dict V) : dict V :=
  match d with
  | [] => [(k, v)]
  | (k', v') :: d' =>
      if String.eqb k k' then (k, v) :: d' else (k', v') :: dict_set k v d'
  end.

Definition dict_keys {V} (d : dict V) : list string := map fst d.

(** [sorted(s)] for a set of strings: ascending code-point order. *)
Definition sorted (s : gset string) : list string :=
  merge_sort String.le (elements s).

End Py.

(** ** The fragment of Python's [re] that the term matcher uses

    The scanner only compiles patterns of the shape
    [\b <escaped term> s? \b] with the flag [re.IGNORECASE]; the fragment
    below parses such pattern strings and matches them by backtracking,
    scanning the start positions from left to right as [Pattern.search]
    does. *)

Module Re.

Inductive node :=
| Boundary                  (* \b *)
| Literal (c : ascii)       (* one character *)
| OptLiteral (c : ascii).   (* one character followed by ? (greedy) *)

Record compiled := { nodes : list node; ignorecase : bool }.

(** The characters [re.escape] puts a backslash in front of. *)
Definition is_special (c : ascii) : bool :=
  Py.has_char c "()[]{}?*+-|^$\.&~# " || Py.in_range 9 13 c.

(** [re.escape(s)] *)
Fixpoint escape (s : string) : string :=
  match s with
  | EmptyString => EmptyString
  | String c s' =>
      if is_special c then String "\"%char (String c (escape s'))
      else String c (escape s')
  end.

(** Characters with a meaning of their own in a pattern. *)
Definition is_meta (c : ascii) : bool := Py.has_char c ".^$*+?{}[]\|()".

Definition is_ascii_alnum (c : ascii) : bool :=
  Py.in_range 48 57 c || Py.in_range 65 90 c || Py.in_range 97 122 c.

(** The parser: [\b] is the word boundary, a backslash followed by a
    character that is not alphanumeric is that character, any other
    non-meta character is itself, and a [?] after a literal makes it
    optional.  Everything else is outside the fragment ([None]). *)
Fixpoint parse (s : string) : option (list node) :=
  match s with
  | EmptyString => Some []
  | String "\"%char (String c rest) =>
      if Ascii.eqb c "b"%char then
        match rest with
        | String "?"%char _ => None
        | _ => option_map (cons Boundary) (parse rest)
        end
      else if is_ascii_alnum c || Ascii.eqb c "_"%char then None
      else
        match rest with
        | String "?"%char rest' => option_map (cons (OptLiteral c)) (parse rest')
        | _ => option_map (cons (Literal c)) (parse rest)
        end
  | String c rest =>
      if is_meta c then None
      else
        match rest with
        | String "?"%char rest' => option_map (cons (OptLiteral c)) (parse rest')
        | _ => option_map (cons (Literal c)) (parse rest)
        end
  end.

(** [re.compile(pattern, re.IGNORECASE)] on the fragment. *)
Definition compile_ignorecase (pat : string) : option compiled :=
  option_map (fun ns => {| nodes := ns; ignorecase := true |}) (parse pat).

Definition char_matches (ic : bool) (c d : ascii) : bool :=
  if ic then Ascii.eqb (Py.lower_char c) (Py.lower_char d) else Ascii.eqb c d.

Definition is_word_opt (o : option ascii) : bool :=
  match o with Some c => Py.is_word c | None => false end.

Definition next_char (s : string) : option ascii :=
  match s with EmptyString => None | String c _ => Some c end.

(** [\b]: exactly one of the two neighbouring positions holds a word
    character; the outside of the text counts as a non-word position. *)
Definition at_boundary (prev : option ascii) (s : string) : bool :=
  xorb (is_word_opt prev) (is_word_opt (next_char s)).

(** Matching the nodes [p] at the current position; [prev] is the character
    just before it. *)
Fixpoint match_here (ic : bool) (p : list node) (prev : option ascii)
    (s : string) : bool :=
  match p with
  | [] => true
  | Boundary :: p' => at_boundary prev s && match_here ic p' prev s
  | Literal c :: p' =>
      match s with
      | String d s' => char_matches ic c d && match_here ic p' (Some d) s'
      | EmptyString => false
      end
  | OptLiteral c :: p' =>
      match s with
      | String d s' => char_matches ic c d && match_here ic p' (Some d) s'
      | EmptyString => false
      end
      || match_here ic p' prev s
  end.

Fixpoint search_from (ic : bool) (p : list node) (prev : option ascii)
    (s : string) : bool :=
  match_here ic p prev s ||
  match s with
  | EmptyString => false
  | String d s' => search_from ic p (Some d) s'
  end.

(** [pattern.search(text)] as a truth value. *)
Definition search (r : compiled) (text : string) : bool :=
  search_from (ignorecase r) (nodes r) None text.

End Re.

(** ** scan_species_mentions.py *)

Module Scan.

Definition SEARCH_CATEGORIES : Py.dict (list string) :=
  [("marine_mammals",
       ["dugong"; "dolphin"; "whale"; "manatee"; "porpoise"; "cetacean";
        "bottlenose"; "spinner"; "humpback"; "brydes"; "bryde"; "minke";
        "orca"; "indo-pacific"; "pantropical"; "rissos"; "false killer"]);
    ("sharks_rays",
       ["shark"; "ray"; "manta"; "stingray"; "guitarfish"; "sawfish";
        "hammerhead"; "whale shark"; "tiger shark"; "reef shark"; "blacktip";
        "whitetip"; "eagle ray"; "mobula"; "leopard shark"; "nurse shark";
        "silky shark"; "thresher"; "oceanic whitetip"]);
    ("reptiles",
       ["turtle"; "hawksbill"; "loggerhead"; "green turtle"; "leatherback";
        "olive ridley"; "sea snake"; "sea turtle"]);
    ("fish",
       ["grouper"; "parrotfish"; "snapper"; "barracuda"; "tuna"; "trevally";
        "fusilier"; "anthias"; "clownfish"; "moray"; "napoleonfish";
        "napoleon"; "bumphead"; "sweetlips"; "emperor"; "rabbitfish";
        "surgeonfish"; "wrasse"; "damselfish"; "butterflyfish"; "angelfish";
        "goby"; "blenny"; "pufferfish"; "triggerfish"; "lionfish";
        "scorpionfish"]);
    ("birds",
       ["osprey"; "falcon"; "sooty falcon"; "eagle"; "tern"; "gull"; "heron";
        "cormorant"; "pelican"; "booby"; "frigatebird"; "flamingo"; "plover";
        "sandpiper"; "egret"; "shearwater"; "petrel"; "tropicbird"; "raptor";
        "sooty gull"; "white-eyed gull"; "crab plover"; "reef heron"]);
    ("invertebrates_habitat",
       ["coral"; "seagrass"; "sea grass"; "sponge"; "urchin"; "starfish";
        "sea cucumber"; "octopus"; "squid"; "cuttlefish"; "jellyfish"; "crab";
        "lobster"; "shrimp"; "giant clam"; "triton"; "nudibranch"; "anemone";
        "bryozoan"; "hydroid"; "tunicate"; "mangrove"; "algae"]);
    ("survey_types",
       ["survey"; "transect"; "quadrat"; "monitoring"; "assessment"; "census";
        "sighting"; "observation"; "encounter"; "stranding"; "nesting";
        "tagging"; "satellite tag"; "acoustic"; "photo-id"; "photo id";
        "biopsy"; "genetic"; "sample"; "capture"; "recapture"; "telemetry";
        "drone"; "aerial"; "boat survey"; "dive survey"; "snorkel"; "BRUV";
        "baited remote"; "camera trap"; "ROV"; "AUV"; "benthic"; "pelagic";
        "intertidal"; "subtidal"; "baseline"; "impact"; "EIA";
        "environmental impact"]);
    ("places",
       ["NEOM"; "Sharma"; "Gayal"; "Sindalah"; "Magna"; "Aqaba";
        "Gulf of Aqaba"; "Tiran"; "Sanafir"; "Red Sea"; "Farasan"; "Yanbu";
        "Jeddah"; "Thuwal"; "Rabigh"; "Al Wajh"; "Umluj"; "Duba"; "Haql";
        "Tabuk"; "island"; "reef"; "lagoon"; "bay"; "coast"; "offshore"]);
    ("data_types",
       ["GPS"; "coordinate"; "latitude"; "longitude"; "waypoint"; "track";
        "depth"; "temperature"; "salinity"; "chlorophyll"; "turbidity";
        "abundance"; "density"; "biomass"; "count"; "frequency"; "size";
        "length"; "weight"; "measurement"; "behaviour"; "behavior"; "feeding";
        "breeding"; "migration"; "habitat"; "substrate"; "bathymetry";
        "geomorphology"]);
    ("conservation",
       ["protected"; "MPA"; "marine protected"; "sanctuary"; "reserve";
        "endangered"; "threatened"; "vulnerable"; "IUCN"; "CITES";
        "conservation"; "restoration"; "rehabilitation"; "management";
        "impact"; "disturbance"; "pollution"; "debris"; "plastic"; "bycatch";
        "fishery"; "fishing"; "boat strike"; "collision"])].

(** The module-level loop that fills [CATEGORY_PATTERNS]. *)
Definition term_pattern (term : string) : string :=
  "\b" +:+ Re.escape term +:+ "s?\b".

Definition compile_terms (terms : list string) : Py.dict (option Re.compiled) :=
  fold_left
    (fun acc term => Py.dict_set term (Re.compile_ignorecase (term_pattern term)) acc)
    terms [].

Definition CATEGORY_PATTERNS : Py.dict (Py.dict (option Re.compiled)) :=
  fold_left
    (fun acc '(category, terms) => Py.dict_set category (compile_terms terms) acc)
    SEARCH_CATEGORIES [].

(** [{cat: set() for cat in SEARCH_CATEGORIES}] *)
Definition empty_matches : Py.dict (gset string) :=
  fold_left (fun acc '(cat, _) => Py.dict_set cat (∅ : gset string) acc)
    SEARCH_CATEGORIES [].

Definition pattern_search (p : option Re.compiled) (text : string) : bool :=
  match p with Some r => Re.search r text | None => false end.

(** The inner loop of [find_matches_in_text]: the terms of one category
    whose pattern is found in [text]. *)
Definition found_terms (patterns : Py.dict (option Re.compiled)) (text : string)
    : gset string :=
  fold_left
    (fun (found : gset string) '(term, pattern) =>
       if pattern_search pattern text then found ∪ {[ term ]} else found)
    patterns ∅.

Definition find_matches_in_text (text : string) : Py.dict (gset string) :=
  if negb (Py.truthy text) then empty_matches
  else
    fold_left
      (fun results '(category, patterns) =>
         Py.dict_set category (found_terms patterns text) results)
      CATEGORY_PATTERNS [].

(** A scan target, as [get_files_to_scan] lists it. *)
Record file_info := { path : string; type : string; name : string }.

Section Scanner.

(** The format readers.  Each returns the extracted text, or a text that
    starts with [ERROR:] when reading failed; [read_csv_file] can also
    return [None]. *)
Variables read_shapefile read_geodatabase read_excel read_pdf read_gpx
  : string -> string.
Variable read_csv_file : string -> option string.

Definition read_text (fi : file_info) : option string :=
  if String.eqb (type fi) "shapefile" then Some (read_shapefile (path fi))
  else if String.eqb (type fi) "geodatabase" then Some (read_geodatabase (path fi))
  else if String.eqb (type fi) "excel" then Some (read_excel (path fi))
  else if String.eqb (type fi) "csv" then read_csv_file (path fi)
  else if String.eqb (type fi) "pdf" then Some (read_pdf (path fi))
  else if String.eqb (type fi) "gpx" then Some (read_gpx (path fi))
  else None.

(** The test [text and isinstance(text, str) and text.startswith("ERROR:")] *)
Definition is_error_text (text : option string) : bool :=
  match text with
  | Some t => Py.truthy t && Py.startswith "ERROR:" t
  | None => false
  end.

Definition text_truthy (text : option string) : bool :=
  match text with Some t => Py.truthy t | None => false end.

Definition matches_of (m : Py.dict (gset string)) (category : string) : gset string :=
  default ∅ (Py.dict_get category m).

Definition scan_file (fi : file_info) : Py.dict string :=
  let filepath := path fi in
  let file_type := type fi in
  let text := read_text fi in
  if is_error_text text then
    let result :=
      [("file_path", filepath); ("file_name", name fi); ("file_type", file_type);
       ("status", "error"); ("error", default "" text)] in
    fold_left (fun result '(category, _) => Py.dict_set category "" result)
      SEARCH_CATEGORIES result
  else
    let matches_from_content :=
      if text_truthy text then find_matches_in_text (default "" text)
      else empty_matches in
    let matches_from_path := find_matches_in_text filepath in
    let result :=
      [("file_path", filepath); ("file_name", name fi); ("file_type", file_type);
       ("status", "success"); ("error", "")] in
    fold_left
      (fun result '(category, _) =>
         let combined :=
           matches_of matches_from_content category
           ∪ matches_of matches_from_path category in
         Py.dict_set category
           (if decide (combined = ∅) then "" else Py.join ", " (Py.sorted combined))
           result)
      SEARCH_CATEGORIES result.

(** The state of the scanning loop of [main]. *)
Record scan_state := {
  results : list (Py.dict string);
  errors : nat;
  files_with_matches : nat
}.

Definition has_match (result : Py.dict string) : bool :=
  existsb (fun '(cat, _) => Py.truthy (default "" (Py.dict_get cat result)))
    SEARCH_CATEGORIES.

Definition scan_step (st : scan_state) (fi : file_info) : scan_state :=
  let result := scan_file fi in
  {| results := results st ++ [result];
     errors :=
       if String.eqb (default "" (Py.dict_get "status" result)) "error"
       then S (errors st) else errors st;
     files_with_matches :=
       if has_match result then S (files_with_matches st)
       else files_with_matches st |}.

(** [for file_info in files: ...] starting from empty results. *)
Definition scan_all (files : list file_info) : scan_state :=
  fold_left scan_step files
    {| results := []; errors := 0; files_with_matches := 0 |}.

End Scanner.

(** *** The directory walk of [get_files_to_scan] *)

Definition SKIP_EXTENSIONS : list string :=
  [".jpg"; ".jpeg"; ".png"; ".gif"; ".tif"; ".tiff"; ".cr2"; ".nef"; ".bmp"; ".raw";
   ".avi"; ".mp4"; ".mov"; ".wav"; ".mp3"; ".wmv";
   ".shx"; ".prj"; ".cpg"; ".sbn"; ".sbx"; ".shp.xml"; ".qmd"; ".dbf";
   ".gdbtable"; ".gdbtablx"; ".gdbindexes"; ".atx"; ".freelist"; ".horizon"; ".spx";
   ".lock"; ".xml"; ".html"; ".htm"; ".pptx"; ".docx"].

Definition MAX_FILE_SIZE_MB : N := 500.

(** The part of [s] from its last dot on, when [s] has a dot. *)
Fixpoint from_last_dot (s : string) : option string :=
  match s with
  | EmptyString => None
  | String c s' =>
      match from_last_dot s' with
      | Some e => Some e
      | None => if Ascii.eqb c "."%char then Some s else None
      end
  end.

(** [os.path.splitext(filename)[1]] for a name without separators: the part
    from the last dot on, unless only dots stand before that dot;
    [seen] says whether a character other than a dot was passed. *)
Fixpoint splitext_go (seen : bool) (s : string) : string :=
  match s with
  | EmptyString => EmptyString
  | String c s' =>
      match from_last_dot s' with
      | Some _ => splitext_go (seen || negb (Ascii.eqb c "."%char)) s'
      | None => if Ascii.eqb c "."%char && seen then s else EmptyString
      end
  end.

Definition splitext (filename : string) : string := splitext_go false filename.

(** [Path(...).suffix] of a path whose last component is [name]: the part
    from the last dot on, when that dot is neither the first nor the last
    character of the name. *)
Definition suffix (name : string) : string :=
  match name with
  | EmptyString => EmptyString
  | String _ rest =>
      match from_last_dot rest with
      | Some e => if (1 <? String.length e)%nat then e else EmptyString
      | None => EmptyString
      end
  end.

Definition is_gdb (name : string) : bool :=
  String.eqb (Py.lower (suffix name)) ".gdb".

(** The chain that determines [file_type] from the extension. *)
Definition file_type_of (ext : string) : option string :=
  if String.eqb ext ".shp" then Some "shapefile"
  else if String.eqb ext ".xlsx" || String.eqb ext ".xls" then Some "excel"
  else if String.eqb ext ".csv" then Some "csv"
  else if String.eqb ext ".pdf" then Some "pdf"
  else if String.eqb ext ".gpx" then Some "gpx"
  else None.

(** A directory as [os.walk] meets it: its name, its sub-directories and
    its files, each file with the size [os.path.getsize] reports, or
    [None] when that call fails. *)
#[warnings="-register-all"]
Inductive tree :=
| Dir (dir_name : string) (dirnames : list tree) (filenames : list (string * option N)).

Definition tree_name (t : tree) : string :=
  match t with Dir n _ _ => n end.

Record walk_state := {
  files_to_scan : list file_info;
  gdb_folders_seen : gset string
}.

Section Walker.

(** [os.path.join] and [str(Path(dirpath))]. *)
Variable join : string -> string -> string.
Variable path_str : string -> string.

(** The body of the loop over [filenames] for one file. *)
Definition file_target (dirpath : string) (entry : string * option N)
    : option file_info :=
  let filename := fst entry in
  let filepath := join dirpath filename in
  let ext := Py.lower (splitext filename) in
  if existsb (String.eqb ext) SKIP_EXTENSIONS then None
  else
    match snd entry with
    | None => None
    | Some bytes =>
        if (MAX_FILE_SIZE_MB * 1024 * 1024 <? bytes)%N then None
        else
          match file_type_of ext with
          | Some file_type =>
              Some {| path := filepath; type := file_type; name := filename |}
          | None => None
          end
    end.

Definition add_files (dirpath : string) (filenames : list (string * option N))
    (st : walk_state) : walk_state :=
  fold_left
    (fun st entry =>
       match file_target dirpath entry with
       | Some target =>
           {| files_to_scan := files_to_scan st ++ [target];
              gdb_folders_seen := gdb_folders_seen st |}
       | None => st
       end)
    filenames st.

Definition add_gdb (dirpath name : string) (st : walk_state) : walk_state :=
  if bool_decide (path_str dirpath ∈ gdb_folders_seen st) then st
  else
    {| files_to_scan :=
         files_to_scan st
         ++ [{| path := path_str dirpath; type := "geodatabase"; name := name |}];
       gdb_folders_seen := gdb_folders_seen st ∪ {[ path_str dirpath ]} |}.

(** One directory of the walk and, unless it was pruned, the directories
    below it; [parents] are the names of the directories above it. *)
Fixpoint walk (dirpath : string) (parents : list string) (t : tree)
    (st : walk_state) : walk_state :=
  match t with
  | Dir name dirnames filenames =>
      if is_gdb name then add_gdb dirpath name st
      else
        let st' :=
          if existsb is_gdb parents then st
          else add_files dirpath filenames st in
        (fix walk_all (ts : list tree) (st : walk_state) : walk_state :=
           match ts with
           | [] => st
           | sub :: rest =>
               walk_all rest
                 (walk (join dirpath (tree_name sub)) (parents ++ [name]) sub st)
           end) dirnames st'
  end.

Definition get_files_to_scan (root_path : string) (root_parents : list string)
    (root : tree) : list file_info :=
  files_to_scan
    (walk root_path root_parents root
       {| files_to_scan := []; gdb_folders_seen := ∅ |}).

End Walker.

End Scan.

(** ** Cell values of pandas rows and of JSON records *)

Module Val.

Inductive value :=
| NaN                 (* an empty CSV cell, as pandas reads it *)
| PyNone              (* None *)
| Str (s : string)
| Num (x : Z)         (* numeric cells are kept as integers *)
| Flag (b : bool).

(** [pd.notna(v)] *)
Definition notna (v : value) : bool :=
  match v with NaN | PyNone => false | _ => true end.

(** Truth value of a cell: [if v:] *)
Definition truthy (v : value) : bool :=
  match v with
  | NaN => true
  | PyNone => false
  | Str s => Py.truthy s
  | Num x => negb (x =? 0)
  | Flag b => b
  end.

(** [str(v)] *)
Definition str (v : value) : string :=
  match v with
  | NaN => "nan"
  | PyNone => "None"
  | Str s => s
  | Num x => pretty x
  | Flag true => "True"
  | Flag false => "False"
  end.

(** The text of a cell that holds a string. *)
Definition text (v : value) : string :=
  match v with Str s => s | _ => "" end.

(** [row.get(k)]: a missing column gives [None]. *)
Definition get (k : string) (row : Py.dict value) : value :=
  default PyNone (Py.dict_get k row).

(** [row.get(k, '')] *)
Definition get_or_empty (k : string) (row : Py.dict value) : value :=
  default (Str "") (Py.dict_get k row).

End Val.

(** ** prepare_index.py *)

Module PrepareIndex.

Import Val.

Definition clean_text (val : value) : string :=
  if negb (notna val) then "" else Py.strip (str val).

(** [s.replace('.', '')] *)
Fixpoint remove_dots (s : string) : string :=
  match s with
  | EmptyString => EmptyString
  | String c s' => if Ascii.eqb c "."%char then remove_dots s' else String c (remove_dots s')
  end.

(** [record.get(k, '')] for the text fields; every [process_*] function
    fills them with the string [clean_text] returns. *)
Definition field (k : string) (record : Py.dict value) : string :=
  text (get_or_empty k record).

Definition meaningful_segment (p : string) : bool :=
  Py.truthy p && negb (Py.startswith "." p) && negb (Py.has_char ":"%char p).

(** The list [parts] at the end of [build_searchable_text]. *)
Definition searchable_parts (record : Py.dict value) : list string :=
  let name := field "name" record in
  let species := field "species" record in
  let activity := field "activity" record in
  let tokens := field "filename_tokens" record in
  let fields := field "fields" record in
  let path := field "path" record in
  (if Py.truthy name then [name; name; name] else [])
  ++ (if Py.truthy species then [species; species] else [])
  ++ (if Py.truthy activity then [activity] else [])
  ++ (if Py.truthy tokens then [tokens] else [])
  ++ (if Py.truthy fields then [fields] else [])
  ++ (if Py.truthy path then
        let path_parts := Py.split "/"%char (Py.replace_char "\"%char "/"%char path) in
        let meaningful := List.filter meaningful_segment path_parts in
        [Py.join " " (Py.last_n 4 meaningful)]
      else []).

Definition build_searchable_text (record : Py.dict value) : string :=
  Py.join " " (searchable_parts record).

(** [row.get(k) if pd.notna(row.get(k)) else None] *)
Definition number_or_none (k : string) (row : Py.dict value) : value :=
  if notna (get k row) then get k row else PyNone.

Definition text_of (k : string) (row : Py.dict value) : value :=
  Str (clean_text (get_or_empty k row)).

Definition with_searchable_text (record : Py.dict value) : Py.dict value :=
  Py.dict_set "searchable_text" (Str (build_searchable_text record)) record.

Definition csv_xlsx_record (row : Py.dict value) : Py.dict value :=
  with_searchable_text
    [("type", Str "table");
     ("subtype", Str (remove_dots (clean_text (get_or_empty "file_extension" row))));
     ("path", text_of "file_path" row);
     ("name", text_of "file_name" row);
     ("species", text_of "Species" row);
     ("activity", text_of "activity" row);
     ("filename_tokens", text_of "filename_tokens" row);
     ("fields", text_of "column_names" row);
     ("status", text_of "status" row);
     ("row_count", number_or_none "row_count" row);
     ("file_size_mb", number_or_none "file_size_mb" row);
     ("min_date", text_of "min_date" row);
     ("max_date", text_of "max_date" row)].

Definition gdb_record (row : Py.dict value) : Py.dict value :=
  with_searchable_text
    [("type", Str "geodatabase");
     ("subtype", Str "gdb_layer");
     ("path", text_of "geodatabase" row);
     ("name", text_of "layer" row);
     ("species", text_of "Species" row);
     ("activity", text_of "activity" row);
     ("filename_tokens", text_of "first_word" row);
     ("fields", text_of "field_names" row);
     ("status", text_of "status" row);
     ("feature_count", number_or_none "feature_count" row);
     ("geometry_types", text_of "geometry_types" row);
     ("crs", text_of "crs" row);
     ("min_date", text_of "min_date" row);
     ("max_date", text_of "max_date" row)].

Definition shp_record (row : Py.dict value) : Py.dict value :=
  with_searchable_text
    [("type", Str "shapefile");
     ("subtype", Str "shp");
     ("path", text_of "shapefile_path" row);
     ("name", text_of "layer_name" row);
     ("species", text_of "Species" row);
     ("activity", text_of "activity" row);
     ("filename_tokens", text_of "first_word" row);
     ("fields", text_of "field_names" row);
     ("status", text_of "status" row);
     ("feature_count", number_or_none "feature_count" row);
     ("geometry_types", text_of "geometry_types" row);
     ("crs", text_of "crs" row);
     ("min_date", text_of "min_date" row);
     ("max_date", text_of "max_date" row)].

(** [row.get('gps_info') == True or str(row.get('gps_info', '')).lower() == 'true'] *)
Definition has_gps (row : Py.dict value) : bool :=
  match get "gps_info" row with
  | Flag true | Num 1 => true
  | _ => false
  end
  || String.eqb (Py.lower (str (get_or_empty "gps_info" row))) "true".

Definition image_record (row : Py.dict value) : Py.dict value :=
  with_searchable_text
    [("type", Str "image");
     ("subtype", Str (remove_dots (clean_text (get_or_empty "file_extension" row))));
     ("path", text_of "image_path" row);
     ("name", text_of "file_name" row);
     ("species", text_of "Species" row);
     ("activity", text_of "activity" row);
     ("filename_tokens", text_of "filename_tokens" row);
     ("fields", Str "");
     ("status", text_of "status" row);
     ("file_size_mb", number_or_none "file_size_mb" row);
     ("width_px", number_or_none "width_px" row);
     ("height_px", number_or_none "height_px" row);
     ("camera_make", text_of "camera_make" row);
     ("camera_model", text_of "camera_model" row);
     ("has_gps", Flag (has_gps row))].

Definition process_csv_xlsx (rows : list (Py.dict value)) := map csv_xlsx_record rows.
Definition process_gdb (rows : list (Py.dict value)) := map gdb_record rows.
Definition process_shp (rows : list (Py.dict value)) := map shp_record rows.
Definition process_images (rows : list (Py.dict value)) := map image_record rows.

(** The five metadata files; [None] when the file does not exist. *)
Record inputs := {
  csv_xlsx_tables_metadata : option (list (Py.dict value));
  gdb_layer_metadata : option (list (Py.dict value));
  gdb_layer_metadata_2 : option (list (Py.dict value));
  shp_layer_metadata : option (list (Py.dict value));
  images_layer_metadata : option (list (Py.dict value))
}.

Definition if_exists (f : list (Py.dict value) -> list (Py.dict value))
    (file : option (list (Py.dict value))) : list (Py.dict value) :=
  match file with Some rows => f rows | None => [] end.

Definition all_records (i : inputs) : list (Py.dict value) :=
  if_exists process_csv_xlsx (csv_xlsx_tables_metadata i)
  ++ if_exists process_gdb (gdb_layer_metadata i)
  ++ if_exists process_gdb (gdb_layer_metadata_2 i)
  ++ if_exists process_shp (shp_layer_metadata i)
  ++ if_exists process_images (images_layer_metadata i).

(** The set of non-empty values of field [k] over all records. *)
Definition field_set (k : string) (records : list (Py.dict value)) : gset string :=
  fold_left
    (fun (acc : gset string) r =>
       if Py.truthy (field k r) then acc ∪ {[ field k r ]} else acc)
    records ∅.

(** [{k: v for k, v in r.items() if k != 'searchable_text'}] *)
Definition strip_searchable_text (r : Py.dict value) : Py.dict value :=
  List.filter (fun kv => negb (String.eqb (fst kv) "searchable_text")) r.

Section Main.

(** [model.encode(texts, normalize_embeddings=True)]: one vector per text. *)
Variable vec : Type.
Variable encode : list string -> list vec.

(** What [main] writes. *)
Record output := {
  embeddings_npy : list vec;
  records_json : list (Py.dict value);
  filters_json : Py.dict (list string);
  searchable_texts_txt : list string
}.

Definition main (i : inputs) : output :=
  let records := all_records i in
  let filters :=
    [("species", Py.sorted (field_set "species" records));
     ("activity", Py.sorted (field_set "activity" records));
     ("type", Py.sorted (field_set "type" records))] in
  let texts := map (fun r => text (get "searchable_text" r)) records in
  {| embeddings_npy := encode texts;
     records_json := map strip_searchable_text records;
     filters_json := filters;
     searchable_texts_txt := texts |}.

End Main.

End PrepareIndex.

(** ** neom_search_v2/build_index.py *)

Module BuildIndex.

Import Val.

Definition CATEGORIES : list string :=
  ["marine_mammals"; "sharks_rays"; "reptiles"; "fish"; "birds";
   "invertebrates_habitat"; "survey_types"; "places"; "data_types";
   "conservation"].

(** [len(p) > 2 and '.' not in p] *)
Definition is_folder (p : string) : bool :=
  (2 <? String.length p)%nat && negb (Py.has_char "."%char p).

(** [build_searchable_text(row)] on one row of the scan artifact. *)
Definition build_searchable_text (row : Py.dict value) : string :=
  let parts :=
    (if notna (get "file_name" row)
     then ["filename: " +:+ str (get "file_name" row)] else [])
    ++ (if notna (get "file_type" row)
        then ["type: " +:+ str (get "file_type" row)] else [])
    ++ flat_map
         (fun cat =>
            if notna (get cat row) && truthy (get cat row)
            then [cat +:+ ": " +:+ str (get cat row)] else [])
         CATEGORIES
    ++ (if notna (get "file_path" row) then
          let path := Py.replace_char "\"%char "/"%char (str (get "file_path" row)) in
          let folders := List.filter is_folder (Py.split "/"%char path) in
          match folders with
          | [] => []
          | _ => ["location: " +:+ Py.join " " (Py.last_n 4 folders)]
          end
        else []) in
  Py.join " | " parts.

(** [df[df['status'] == 'success']] *)
Definition is_success (row : Py.dict value) : bool :=
  match get "status" row with
  | Str s => String.eqb s "success"
  | _ => false
  end.

(** The new column [df_success['searchable_text']]. *)
Definition add_searchable_text (row : Py.dict value) : Py.dict value :=
  Py.dict_set "searchable_text" (Str (build_searchable_text row)) row.

Definition df_success (df : list (Py.dict value)) : list (Py.dict value) :=
  map add_searchable_text (List.filter is_success df).

(** [[v.strip() for v in str(val).split(',')]] *)
Definition split_values (val : value) : list string :=
  map Py.strip (Py.split ","%char (str val)).

(** The set [all_values] of one category after the loop over the column. *)
Definition all_values (cat : string) (rows : list (Py.dict value)) : gset string :=
  fold_left
    (fun (acc : gset string) row =>
       let val := get cat row in
       if notna val && truthy val then acc ∪ list_to_set (split_values val) else acc)
    rows ∅.

Definition filter_options (rows : list (Py.dict value)) : Py.dict (list string) :=
  fold_left
    (fun acc cat => Py.dict_set cat (Py.sorted (all_values cat rows)) acc)
    CATEGORIES [].

(** One record of [search_index.json]. *)
Definition make_record (row : Py.dict value) : Py.dict value :=
  fold_left
    (fun record cat =>
       Py.dict_set cat (if notna (get cat row) then get cat row else Str "") record)
    CATEGORIES
    [("file_path", get "file_path" row);
     ("file_name", get "file_name" row);
     ("file_type", get "file_type" row);
     ("searchable_text", get "searchable_text" row)].

Section Main.

Variable vec : Type.
Variable encode : list string -> list vec.

(** What [main] writes: the three entries of [search_index.json] and the
    rows of [search_embeddings.npy]. *)
Record output := {
  records : list (Py.dict value);
  categories : list string;
  filters : Py.dict (list string);
  embeddings : list vec
}.

Definition main (df : list (Py.dict value)) : output :=
  let rows := df_success df in
  let recs := map make_record rows in
  {| records := recs;
     categories := CATEGORIES;
     filters := filter_options rows;
     embeddings := encode (map (fun r => text (get "searchable_text" r)) recs) |}.

End Main.

End BuildIndex.

(** ** search_service.py *)

Module Service.

Import Val.

(** The loaded index: the module-level [records], [categories], [filters]
    and [embeddings].  A record holds a string under each of its keys;
    a float32 number (an embedding component, a similarity score) is
    represented by an integer through a numbering that keeps the order of
    the numbers and turns the sign change into [Z.opp]; the arithmetic on
    them, the matrix product of [search], is numpy's and a parameter. *)
Record index := {
  records : list (Py.dict string);
  categories : list string;
  filters : Py.dict (list string);
  embeddings : list (list Z)
}.

(** The parameters of [search]. *)
Record query := {
  q : string;
  marine_mammals : option string;
  sharks_rays : option string;
  reptiles : option string;
  fish : option string;
  birds : option string;
  invertebrates_habitat : option string;
  survey_types : option string;
  places : option string;
  data_types : option string;
  conservation : option string;
  file_type : option string;
  include : option string;
  exclude : option string;
  limit : Z
}.

(** What the handler hands back to the web layer. *)
Inductive payload :=
| Error (message : string)
| Results (total_matches showing : nat) (results : list (Py.dict value)).

Inductive exn :=
| ReError (msg : string)        (* re.error *)
| IndexError
| OtherError (name : string).

Inductive outcome (A : Type) :=
| Return (a : A)
| Raise (e : exn).
Arguments Return {A} a.
Arguments Raise {A} e.

(** Control inside the body of [search]: go on with a value, return a
    payload at once, or raise. *)
Inductive ctl (A : Type) :=
| Next (a : A)
| Returns (p : payload)
| Raises (e : exn).
Arguments Next {A} a.
Arguments Returns {A} p.
Arguments Raises {A} e.

Definition category_filters (qy : query) : Py.dict (option string) :=
  [("marine_mammals", marine_mammals qy);
   ("sharks_rays", sharks_rays qy);
   ("reptiles", reptiles qy);
   ("fish", fish qy);
   ("birds", birds qy);
   ("invertebrates_habitat", invertebrates_habitat qy);
   ("survey_types", survey_types qy);
   ("places", places qy);
   ("data_types", data_types qy);
   ("conservation", conservation qy)].

(** The query with the filter of one category replaced. *)
Definition set_category_filter (cat : string) (f : option string) (qy : query)
    : query :=
  let pick name old := if String.eqb cat name then f else old in
  {| q := q qy;
     marine_mammals := pick "marine_mammals" (marine_mammals qy);
     sharks_rays := pick "sharks_rays" (sharks_rays qy);
     reptiles := pick "reptiles" (reptiles qy);
     fish := pick "fish" (fish qy);
     birds := pick "birds" (birds qy);
     invertebrates_habitat := pick "invertebrates_habitat" (invertebrates_habitat qy);
     survey_types := pick "survey_types" (survey_types qy);
     places := pick "places" (places qy);
     data_types := pick "data_types" (data_types qy);
     conservation := pick "conservation" (conservation qy);
     file_type := file_type qy;
     include := include qy;
     exclude := exclude qy;
     limit := limit qy |}.

(** Truth value of an optional string parameter. *)
Definition supplied (o : option string) : option string :=
  match o with
  | Some s => if Py.truthy s then Some s else None
  | None => None
  end.

(** [rec[k]] and [rec.get(k, '')] on a record. *)
Definition item (k : string) (rec : Py.dict string) : string :=
  default "" (Py.dict_get k rec).

(** [records[i]] for a candidate index. *)
Definition record_at (idx : index) (i : nat) : Py.dict string :=
  nth i (records idx) [].

(** [filter_val.lower() in records[i].get(cat, '').lower()] *)
Definition passes_category (idx : index) (cat filter_val : string) (i : nat) : bool :=
  Py.contains (Py.lower filter_val) (Py.lower (item cat (record_at idx i))).

Definition apply_category_filters (idx : index) (qy : query)
    (candidate_indices : list nat) : list nat :=
  fold_left
    (fun cands '(cat, filter_val) =>
       match supplied filter_val with
       | Some f => List.filter (passes_category idx cat f) cands
       | None => cands
       end)
    (category_filters qy) candidate_indices.

Definition apply_file_type (idx : index) (qy : query)
    (candidate_indices : list nat) : list nat :=
  match supplied (file_type qy) with
  | Some ft =>
      List.filter (fun i => String.eqb (item "file_type" (record_at idx i)) ft)
        candidate_indices
  | None => candidate_indices
  end.

(** [l[i] for i in order], with Python's IndexError. *)
Fixpoint take_all {A} (l : list A) (order : list nat) : outcome (list A) :=
  match order with
  | [] => Return []
  | i :: rest =>
      match nth_error l i, take_all l rest with
      | Some x, Return xs => Return (x :: xs)
      | None, _ => Raise IndexError
      | _, Raise e => Raise e
      end
  end.

(** [sorted(l, key=...)]: a stable insertion sort on string keys. *)
Fixpoint insert_by_key (key : nat -> string) (x : nat) (l : list nat) : list nat :=
  match l with
  | [] => [x]
  | y :: l' =>
      if String.leb (key x) (key y) then x :: y :: l'
      else y :: insert_by_key key x l'
  end.

Definition sorted_by_key (key : nat -> string) (l : list nat) : list nat :=
  fold_right (insert_by_key key) [] l.

Section Search.

(** [re.compile(p, re.IGNORECASE)] and [Pattern.search] as a truth value. *)
Variable pattern : Type.
Variable re_compile : string -> outcome pattern.
Variable re_search : pattern -> string -> bool.
(** [embed(q)] of sentence_model.py. *)
Variable embed : string -> list Z.
(** One entry of [candidate_embeddings @ q_emb.T]: numpy's product of an
    embedding row and the query vector. *)
Variable dot : list Z -> list Z -> Z.
(** [np.argsort] with its default sort kind. *)
Variable argsort : list Z -> list nat.
(** [round(score, 4)] *)
Variable round4 : Z -> Z.

Definition regex_hit (idx : index) (r : pattern) (i : nat) : bool :=
  re_search r (item "searchable_text" (record_at idx i))
  || re_search r (item "file_path" (record_at idx i)).

Definition apply_include (idx : index) (qy : query)
    (candidate_indices : list nat) : ctl (list nat) :=
  match supplied (include qy) with
  | Some inc =>
      match re_compile inc with
      | Return r_inc => Next (List.filter (regex_hit idx r_inc) candidate_indices)
      | Raise (ReError e) => Returns (Error ("Include regex error: " +:+ e))
      | Raise other => Raises other
      end
  | None => Next candidate_indices
  end.

Definition apply_exclude (idx : index) (qy : query)
    (candidate_indices : list nat) : ctl (list nat) :=
  match supplied (exclude qy) with
  | Some exc =>
      match re_compile exc with
      | Return r_exc =>
          Next (List.filter (fun i => negb (regex_hit idx r_exc i)) candidate_indices)
      | Raise (ReError e) => Returns (Error ("Exclude regex error: " +:+ e))
      | Raise other => Raises other
      end
  | None => Next candidate_indices
  end.

(** [candidate_indices] when the ranking starts. *)
Definition candidates (idx : index) (qy : query) : ctl (list nat) :=
  let all := seq 0 (length (records idx)) in
  let by_category := apply_category_filters idx qy all in
  let by_type := apply_file_type idx qy by_category in
  match apply_include idx qy by_type with
  | Next included => apply_exclude idx qy included
  | Returns p => Returns p
  | Raises e => Raises e
  end.

(** [ranked_indices] and [ranked_scores]. *)
Definition rank (idx : index) (qy : query) (candidate_indices : list nat)
    : outcome (list nat * list (option Z)) :=
  if Py.truthy (Py.strip (q qy)) then
    let q_emb := embed (q qy) in
    match candidate_indices with
    | [] => Return ([], [])
    | _ =>
        match take_all (embeddings idx) candidate_indices with
        | Raise e => Raise e
        | Return candidate_embeddings =>
            let sims := map (fun row => dot row q_emb) candidate_embeddings in
            let sorted_order := argsort (map Z.opp sims) in
            match take_all candidate_indices sorted_order,
                  take_all sims sorted_order with
            | Return ranked_indices, Return ranked_scores =>
                Return (ranked_indices, map Some ranked_scores)
            | Raise e, _ => Raise e
            | _, Raise e => Raise e
            end
        end
    end
  else
    let sorted_candidates :=
      sorted_by_key (fun i => Py.lower (item "file_name" (record_at idx i)))
        candidate_indices in
    Return (sorted_candidates, map (fun _ => None) sorted_candidates).

(** One entry of [results]. *)
Definition result_row (idx : index) (i : nat) (score : option Z) : Py.dict value :=
  let rec := record_at idx i in
  let result :=
    [("file_name", Str (item "file_name" rec));
     ("file_path", Str (item "file_path" rec));
     ("file_type", Str (item "file_type" rec))] in
  let result :=
    match score with
    | Some s => Py.dict_set "score" (Num (round4 s)) result
    | None => result
    end in
  fold_left
    (fun result cat =>
       if Py.truthy (item cat rec) then Py.dict_set cat (Str (item cat rec)) result
       else result)
    (categories idx) result.

Definition build_results (idx : index) (qy : query)
    (ranked_indices : list nat) (ranked_scores : list (option Z)) : payload :=
  let results :=
    map (fun '(i, score) => result_row idx i score)
      (combine (Py.slice_to (limit qy) ranked_indices)
               (Py.slice_to (limit qy) ranked_scores)) in
  Results (length ranked_indices) (length results) results.

Definition search (idx : index) (qy : query) : outcome payload :=
  match candidates idx qy with
  | Returns p => Return p
  | Raises e => Raise e
  | Next candidate_indices =>
      match rank idx qy candidate_indices with
      | Raise e => Raise e
      | Return (ranked_indices, ranked_scores) =>
          Return (build_results idx qy ranked_indices ranked_scores)
      end
  end.

(** One request to [/api/search] against the loaded index: the handler
    reads the module-level index and assigns none of its parts, so the
    index after the request is the index before it. *)
Definition handle_search (idx : index) (qy : query) : index * outcome payload :=
  (idx, search idx qy).

End Search.

(** [get_stats]: the number of records, of records per file type and of
    records with a value per category. *)
Record stats := {
  total_files : nat;
  by_type : Py.dict nat;
  by_category : Py.dict nat
}.

Definition count_type (type_counts : Py.dict nat) (rec : Py.dict string)
    : Py.dict nat :=
  let ft := item "file_type" rec in
  Py.dict_set ft (default 0%nat (Py.dict_get ft type_counts) + 1)%nat type_counts.

Definition count_categories (cats : list string) (category_counts : Py.dict nat)
    (rec : Py.dict string) : Py.dict nat :=
  fold_left
    (fun counts cat =>
       if Py.truthy (item cat rec)
       then Py.dict_set cat (default 0%nat (Py.dict_get cat counts) + 1)%nat counts
       else counts)
    cats category_counts.

Definition get_stats (idx : index) : stats :=
  let zero :=
    fold_left (fun acc cat => Py.dict_set cat 0%nat acc) (categories idx) [] in
  {| total_files := length (records idx);
     by_type := fold_left count_type (records idx) [];
     by_category :=
       fold_left (count_categories (categories idx)) (records idx) zero |}.

End Service.

(** ** Vocabulary of the properties *)

Module Spec.

(** The last character of [s], or [prev] when [s] is empty. *)
Fixpoint last_char (prev : option ascii) (s : string) : option ascii :=
  match s with
  | EmptyString => prev
  | String c s' => last_char (Some c) s'
  end.

Definition ends_in_word (pre : string) : bool :=
  Re.is_word_opt (last_char None pre).

Definition starts_with_word (post : string) : bool :=
  Re.is_word_opt (Re.next_char post).

Definition same_ignoring_case (a b : string) : Prop := Py.lower a = Py.lower b.

(** [w] stands in [text] as a complete token: no word character touches
    it on either side. *)
Definition token_at (pre w post text : string) : Prop :=
  text = pre +:+ w +:+ post
  /\ ends_in_word pre = false /\ starts_with_word post = false.

(** [text] holds [term], or [term] followed by one [s], as a complete
    token, in any letter case. *)
Definition occurs_as_token (term text : string) : Prop :=
  exists pre w post,
    token_at pre w post text
    /\ (same_ignoring_case w term \/ same_ignoring_case w (term +:+ "s")).

(** The compiled form of [\b <term> s? \b] under [re.IGNORECASE]. *)
Fixpoint literals (s : string) : list Re.node :=
  match s with
  | EmptyString => []
  | String c s' => Re.Literal c :: literals s'
  end.

Definition term_nodes (term : string) : list Re.node :=
  Re.Boundary :: literals term ++ [Re.OptLiteral "s"%char; Re.Boundary].

Definition node_eqb (a b : Re.node) : bool :=
  match a, b with
  | Re.Boundary, Re.Boundary => true
  | Re.Literal c, Re.Literal d => Ascii.eqb c d
  | Re.OptLiteral c, Re.OptLiteral d => Ascii.eqb c d
  | _, _ => false
  end.

Fixpoint nodes_eqb (p1 p2 : list Re.node) : bool :=
  match p1, p2 with
  | [], [] => true
  | a :: p1', b :: p2' => node_eqb a b && nodes_eqb p1' p2'
  | _, _ => false
  end.

(** The pattern of [term] compiles to [term_nodes term], and [term] begins
    and ends with a word character. *)
Definition regular_term (term : string) : bool :=
  match Re.compile_ignorecase (Scan.term_pattern term) with
  | Some r => nodes_eqb (Re.nodes r) (term_nodes term) && Re.ignorecase r
  | None => false
  end
  && Re.is_word_opt (Re.next_char term)
  && Re.is_word_opt (last_char None term).

(** [term] is in the set that [find_matches_in_text] returns for [category]. *)
Definition reported (category term text : string) : Prop :=
  term ∈ Scan.matches_of (Scan.find_matches_in_text text) category.

(** [s.count(sub)] for a non-empty [sub]: occurrences that do not overlap,
    counted from the left; [skip] characters are still covered by the last
    occurrence found. *)
Fixpoint count_go (sub : string) (skip : nat) (s : string) : nat :=
  match s with
  | EmptyString => 0
  | String _ s' =>
      match skip with
      | S k => count_go sub k s'
      | O =>
          if Py.startswith sub s
          then S (count_go sub (String.length sub - 1) s')
          else count_go sub 0 s'
      end
  end.

Definition count (sub s : string) : nat := count_go sub 0 s.

(** The searchable text in the words of the specification: the name three
    times, the species twice, then the activity, the filename tokens and
    the field list, each once when it is not empty, then, for a record with
    a path, the last four meaningful path segments; single spaces between
    all of them. *)
Definition path_keywords (record : Py.dict Val.value) : list string :=
  let path := PrepareIndex.field "path" record in
  if Py.truthy path then
    [Py.join " "
       (Py.last_n 4
          (List.filter PrepareIndex.meaningful_segment
             (Py.split "/"%char (Py.replace_char "\"%char "/"%char path))))]
  else [].

Definition weighted_text (record : Py.dict Val.value) : string :=
  let name := PrepareIndex.field "name" record in
  let species := PrepareIndex.field "species" record in
  Py.join " "
    (replicate 3 name ++ replicate 2 species
     ++ List.filter Py.truthy
          [PrepareIndex.field "activity" record;
           PrepareIndex.field "filename_tokens" record;
           PrepareIndex.field "fields" record]
     ++ path_keywords record).

(** Ascending in code-point order, no string twice. *)
Definition strictly_ascending (l : list string) : Prop :=
  StronglySorted (fun a b => String.ltb a b = true) l.

(** What numpy documents of [argsort]: the result lists every position of
    the array once, and reading the array in that order is ascending. *)
Definition argsort_spec (argsort : list Z -> list nat) : Prop :=
  forall a : list Z,
    Permutation (argsort a) (seq 0 (length a))
    /\ Sorted Z.le (map (fun i => nth i a 0) (argsort a)).

(** What a stable sort adds: positions with equal values come out in
    ascending order.  [numpy.argsort] promises this for [kind='stable']
    only; [search] calls it with the default kind. *)
Definition keeps_ties (argsort : list Z -> list nat) : Prop :=
  forall (a : list Z) i j x y,
    (i < j)%nat ->
    nth_error (argsort a) i = Some x -> nth_error (argsort a) j = Some y ->
    nth x a 0 = nth y a 0 -> (x < y)%nat.

(** Pairs of a position and its value, compared by value and, at equal
    values, by position. *)
Definition by_value_then_position (p q : nat * Z) : Prop :=
  snd p < snd q \/ (snd p = snd q /\ (fst p < fst q)%nat).

(** A regular expression parameter that is supplied and that [re.compile]
    refuses with [re.error]. *)
Definition raises_re_error {pattern : Type}
    (re_compile : string -> Service.outcome pattern) (param : option string)
    : Prop :=
  exists p msg,
    Service.supplied param = Some p
    /\ re_compile p = Service.Raise (Service.ReError msg).

(** A regular expression parameter that is supplied and on which
    [re.compile] raises the exception [e], which is not [re.error]. *)
Definition raises_other {pattern : Type}
    (re_compile : string -> Service.outcome pattern) (param : option string)
    (e : Service.exn) : Prop :=
  exists p,
    Service.supplied param = Some p
    /\ re_compile p = Service.Raise e
    /\ forall msg, e <> Service.ReError msg.

(** A regular expression parameter that is left out or compiles. *)
Definition usable {pattern : Type}
    (re_compile : string -> Service.outcome pattern) (param : option string)
    : Prop :=
  Service.supplied param = None
  \/ exists p r, Service.supplied param = Some p /\ re_compile p = Service.Return r.

(** [value] holds [f] as a substring when letter case is ignored. *)
Definition holds_ignoring_case (value f : string) : Prop :=
  exists pre post, Py.lower value = pre +:+ Py.lower f +:+ post.

(** The test of one category filter, and of all of them, on record [i]. *)
Definition passes (idx : Service.index) (cat : string) (fv : option string)
    (i : nat) : bool :=
  match Service.supplied fv with
  | Some f => Service.passes_category idx cat f i
  | None => true
  end.

Definition passes_all (idx : Service.index) (qy : Service.query) (i : nat) : bool :=
  forallb (fun '(cat, fv) => passes idx cat fv i) (Service.category_filters qy).

(** The similarity score of record [i] for an embedded query. *)
Definition score_of (dot : list Z -> list Z -> Z) (idx : Service.index)
    (q_emb : list Z) (i : nat) : Z :=
  dot (nth i (Service.embeddings idx) []) q_emb.

(** Pairs of a position and its value, compared by value. *)
Definition by_value (p q : nat * Z) : Prop := snd p <= snd q.

(** How many elements [l[:k]] keeps of a list of length [len]. *)
Definition slice_length (k : Z) (len : nat) : nat :=
  if 0 <=? k then Z.to_nat k else Z.to_nat (Z.of_nat len + k).

(** [round] never swaps the order of two numbers. *)
Definition monotone (round4 : Z -> Z) : Prop :=
  forall x y : Z, x <= y -> round4 x <= round4 y.

(** The [score] entries of the result rows, in result order. *)
Definition scores_of (rows : list (Py.dict Val.value)) : list Z :=
  flat_map
    (fun row =>
       match Py.dict_get "score" row with
       | Some (Val.Num s) => [s]
       | _ => []
       end)
    rows.

(** Candidates with equal scores stand in ascending index order. *)
Definition ties_in_index_order (score : nat -> Z) (ranked : list nat) : Prop :=
  forall i j a b,
    (i < j)%nat -> nth_error ranked i = Some a -> nth_error ranked j = Some b ->
    score a = score b -> (a < b)%nat.

(** *** Vocabulary of the further properties *)

(** The file types that have a reader in [scan_file]. *)
Definition known_types : list string :=
  ["geodatabase"; "shapefile"; "excel"; "csv"; "pdf"; "gpx"].

(** The extensions that lead to a scan target, with their file type. *)
Definition readable_extensions : list (string * string) :=
  [(".shp", "shapefile"); (".xlsx", "excel"); (".xls", "excel");
   (".csv", "csv"); (".pdf", "pdf"); (".gpx", "gpx")].

(** The tree without the content of its geodatabase directories. *)
Fixpoint prune (t : Scan.tree) : Scan.tree :=
  match t with
  | Scan.Dir name dirnames filenames =>
      if Scan.is_gdb name then Scan.Dir name [] []
      else Scan.Dir name (map prune dirnames) filenames
  end.

Definition is_geodatabase (fi : Scan.file_info) : bool :=
  String.eqb (Scan.type fi) "geodatabase".

(** The keys a loop of assignments leaves in a dictionary that had the
    keys [ks]. *)
Definition keys_after (ks : list string) (assigned : list string) : list string :=
  fold_left
    (fun ks k => if existsb (String.eqb k) ks then ks else ks ++ [k])
    assigned ks.

(** The columns of the scan artifact. *)
Definition scan_columns : list string :=
  ["file_path"; "file_name"; "file_type"; "status"; "error"]
  ++ map fst Scan.SEARCH_CATEGORIES.

(** A term that a comma-separated cell gives back unchanged: no comma in
    it and no white space around it. *)
Definition clean_term (t : string) : bool :=
  negb (Py.has_char ","%char t) && String.eqb (Py.strip t) t.

(** The text with the code points [codes], when all of them are below 256:
    the Python strings that the strings of this development stand for. *)
Fixpoint latin1_text (codes : list N) : option string :=
  match codes with
  | [] => Some EmptyString
  | c :: rest =>
      if (c <? 256)%N
      then option_map (String (ascii_of_N c)) (latin1_text rest)
      else None
  end.

(** The sort key of the alphabetical ranking. *)
Definition name_key (idx : Service.index) (i : nat) : string :=
  Py.lower (Service.item "file_name" (Service.record_at idx i)).

(** The query with every parameter that is the empty string left out. *)
Definition drop_empty (qy : Service.query) : Service.query :=
  {| Service.q := Service.q qy;
     Service.marine_mammals := Service.supplied (Service.marine_mammals qy);
     Service.sharks_rays := Service.supplied (Service.sharks_rays qy);
     Service.reptiles := Service.supplied (Service.reptiles qy);
     Service.fish := Service.supplied (Service.fish qy);
     Service.birds := Service.supplied (Service.birds qy);
     Service.invertebrates_habitat := Service.supplied (Service.invertebrates_habitat qy);
     Service.survey_types := Service.supplied (Service.survey_types qy);
     Service.places := Service.supplied (Service.places qy);
     Service.data_types := Service.supplied (Service.data_types qy);
     Service.conservation := Service.supplied (Service.conservation qy);
     Service.file_type := Service.supplied (Service.file_type qy);
     Service.include := Service.supplied (Service.include qy);
     Service.exclude := Service.supplied (Service.exclude qy);
     Service.limit := Service.limit qy |}.

(** The query with other include and exclude patterns, and with another
    limit. *)
Definition with_patterns (inc exc : option string) (qy : Service.query)
    : Service.query :=
  {| Service.q := Service.q qy;
     Service.marine_mammals := Service.marine_mammals qy;
     Service.sharks_rays := Service.sharks_rays qy;
     Service.reptiles := Service.reptiles qy;
     Service.fish := Service.fish qy;
     Service.birds := Service.birds qy;
     Service.invertebrates_habitat := Service.invertebrates_habitat qy;
     Service.survey_types := Service.survey_types qy;
     Service.places := Service.places qy;
     Service.data_types := Service.data_types qy;
     Service.conservation := Service.conservation qy;
     Service.file_type := Service.file_type qy;
     Service.include := inc;
     Service.exclude := exc;
     Service.limit := Service.limit qy |}.

Definition with_limit (lim : Z) (qy : Service.query) : Service.query :=
  {| Service.q := Service.q qy;
     Service.marine_mammals := Service.marine_mammals qy;
     Service.sharks_rays := Service.sharks_rays qy;
     Service.reptiles := Service.reptiles qy;
     Service.fish := Service.fish qy;
     Service.birds := Service.birds qy;
     Service.invertebrates_habitat := Service.invertebrates_habitat qy;
     Service.survey_types := Service.survey_types qy;
     Service.places := Service.places qy;
     Service.data_types := Service.data_types qy;
     Service.conservation := Service.conservation qy;
     Service.file_type := Service.file_type qy;
     Service.include := Service.include qy;
     Service.exclude := Service.exclude qy;
     Service.limit := lim |}.

End Spec.

(** ** Stand-ins for the library calls, to run the service on examples *)

Module Demo.

Import Service.

(** A pattern compiler that knows two patterns that [re.compile] refuses,
    the lone opening parenthesis with [re.error] and a repetition count
    beyond [MAXREPEAT] with [OverflowError], and reads every other pattern
    as literal text. *)
Definition re_compile (p : string) : outcome string :=
  if String.eqb p "(" then
    Raise (ReError "missing ), unterminated subpattern at position 0")
  else if String.eqb p "a{99999999999}" then
    Raise (OtherError "OverflowError")
  else Return p.

Definition re_search (p text : string) : bool :=
  Py.contains (Py.lower p) (Py.lower text).

Definition embed (_ : string) : list Z := [1; 0].

(** The product of a row and a vector on numbers that are exact. *)
Fixpoint dot (a b : list Z) : Z :=
  match a, b with
  | x :: a', y :: b' => x * y + dot a' b'
  | _, _ => 0
  end.

Definition round4 (x : Z) : Z := x.

(** Argsort by insertion; [before x y] says whether a new value [x] goes in
    front of a value [y] already placed. *)
Fixpoint insert_pair (before : Z -> Z -> bool) (p : nat * Z)
    (l : list (nat * Z)) : list (nat * Z) :=
  match l with
  | [] => [p]
  | p' :: l' =>
      if before (snd p) (snd p') then p :: p' :: l'
      else p' :: insert_pair before p l'
  end.

Definition argsort_with (before : Z -> Z -> bool) (a : list Z) : list nat :=
  map fst (fold_right (insert_pair before) [] (combine (seq 0 (length a)) a)).

(** Equal values keep their order. *)
Definition argsort_stable : list Z -> list nat := argsort_with Z.leb.


Definition no_filters (text : string) (lim : Z) : query :=
  {| q := text;
     marine_mammals := None; sharks_rays := None; reptiles := None;
     fish := None; birds := None; invertebrates_habitat := None;
     survey_types := None; places := None; data_types := None;
     conservation := None;
     file_type := None; include := None; exclude := None;
     limit := lim |}.

Definition record_a : Py.dict string :=
  [("file_path", "E:\surveys\dugong_2023.csv"); ("file_name", "dugong_2023.csv");
   ("file_type", "csv"); ("searchable_text", "filename: dugong_2023.csv | type: csv");
   ("marine_mammals", "dugong"); ("places", "NEOM, reef")].

Definition record_b : Py.dict string :=
  [("file_path", "E:\surveys\Turtles.gdb"); ("file_name", "Turtles.gdb");
   ("file_type", "geodatabase"); ("searchable_text", "filename: Turtles.gdb | type: geodatabase");
   ("reptiles", "turtle"); ("places", "reef")].

(** Two records with the same embedding row. *)
Definition two_records : index :=
  {| records := [record_a; record_b];
     categories := BuildIndex.CATEGORIES;
     filters := [];
     embeddings := [[3; 4]; [3; 4]] |}.

(** One row of the table metadata file and one row of the scan artifact. *)
Definition metadata_row : Py.dict Val.value :=
  [("file_path", Val.Str "E:/surveys/dugong_2023.csv");
   ("file_name", Val.Str "dugong_2023.csv");
   ("file_extension", Val.Str ".csv");
   ("Species", Val.Str "dugong");
   ("activity", Val.NaN);
   ("row_count", Val.Num 120)].

Definition scan_row (status : string) : Py.dict Val.value :=
  [("file_path", Val.Str "E:\surveys\dugong_2023.csv");
   ("file_name", Val.Str "dugong_2023.csv");
   ("file_type", Val.Str "csv");
   ("status", Val.Str status);
   ("error", Val.NaN);
   ("marine_mammals", Val.Str "dugong");
   ("places", Val.Str "NEOM, reef")].

Definition no_vectors (texts : list string) : list unit := map (fun _ => tt) texts.

(** The metadata files of a run that only has the table metadata. *)
Definition tables_only : PrepareIndex.inputs :=
  {| PrepareIndex.csv_xlsx_tables_metadata := Some [metadata_row];
     PrepareIndex.gdb_layer_metadata := None;
     PrepareIndex.gdb_layer_metadata_2 := None;
     PrepareIndex.shp_layer_metadata := None;
     PrepareIndex.images_layer_metadata := None |}.

(** The service with the stand-ins, and the rows it returns. *)
Definition search (sort : list Z -> list nat) (idx : index) (qy : query)
    : outcome payload :=
  Service.search string re_compile re_search embed dot sort round4 idx qy.

Definition rows_of (o : outcome payload) : list (Py.dict Val.value) :=
  match o with
  | Return (Results _ _ rows) => rows
  | _ => []
  end.

(** A query whose include pattern has a repetition count that is too
    large. *)
Definition overflow_include : query :=
  {| q := "dugong";
     marine_mammals := None; sharks_rays := None; reptiles := None;
     fish := None; birds := None; invertebrates_habitat := None;
     survey_types := None; places := None; data_types := None;
     conservation := None;
     file_type := None; include := Some "a{99999999999}"; exclude := None;
     limit := 100 |}.

(** A query whose include pattern does not compile. *)
Definition bad_include : query :=
  {| q := "dugong";
     marine_mammals := None; sharks_rays := None; reptiles := None;
     fish := None; birds := None; invertebrates_habitat := None;
     survey_types := None; places := None; data_types := None;
     conservation := None;
     file_type := None; include := Some "("; exclude := None;
     limit := 100 |}.

(** A geodatabase whose reader fails, and one that is read. *)
Definition gdb_target : Scan.file_info :=
  {| Scan.path := "E:\SHAPES DUGONG\83242_KBD_NEOM_Dugong_IR_Rev01.gdb";
     Scan.type := "geodatabase";
     Scan.name := "83242_KBD_NEOM_Dugong_IR_Rev01.gdb" |}.

Definition scan_with (gdb_text : string) (fi : Scan.file_info) : Py.dict string :=
  Scan.scan_file (fun _ => "") (fun _ => gdb_text) (fun _ => "") (fun _ => "")
    (fun _ => "") (fun _ => None) fi.

(** A CSV file that no encoding can read. *)
Definition csv_target : Scan.file_info :=
  {| Scan.path := "E:/surveys/dugong_2023.csv";
     Scan.type := "csv";
     Scan.name := "dugong_2023.csv" |}.

(** A directory with a table, a note and a geodatabase, and the walk over
    it with [/] as the path separator. *)
Definition join (dirpath name : string) : string := dirpath +:+ "/" +:+ name.

Definition survey_tree : Scan.tree :=
  Scan.Dir "surveys"
    [Scan.Dir "Turtles.gdb" [] [("a00000001.gdbtable", Some 2048%N)]]
    [("dugong_2023.csv", Some 1024%N); ("notes.txt", Some 10%N)].

Definition survey_targets : list Scan.file_info :=
  Scan.get_files_to_scan join (fun p => p) "E:/surveys" [] survey_tree.

Definition turtles_gdb : Scan.file_info :=
  {| Scan.path := "E:/surveys/Turtles.gdb";
     Scan.type := "geodatabase";
     Scan.name := "Turtles.gdb" |}.

(** Three files whose names ascend with their index, with the embedding
    rows [rows], and the rows that [search] returns for them when it
    attaches no score. *)
Definition named_file (name path : string) : Py.dict string :=
  [("file_path", path); ("file_name", name); ("file_type", "csv");
   ("searchable_text", "type: csv")].

Definition files_by_name (rows : list (list Z)) : index :=
  {| records := [named_file "a.csv" "E:/data/a.csv";
                 named_file "b.csv" "E:/data/b.csv";
                 named_file "c.csv" "E:/data/c.csv"];
     categories := BuildIndex.CATEGORIES;
     filters := [];
     embeddings := rows |}.

Definition name_row (name path : string) : Py.dict Val.value :=
  [("file_name", Val.Str name); ("file_path", Val.Str path);
   ("file_type", Val.Str "csv")].

(** A query whose text is one space. *)
Definition blank_query : query := no_filters " " 100.

(** The two records with one embedding row only. *)
Definition one_vector : index :=
  {| records := [record_a; record_b];
     categories := BuildIndex.CATEGORIES;
     filters := [];
     embeddings := [[3; 4]] |}.

End Demo.

(** * Properties *)

(** ** Dictionaries *)

Section DictFacts.

Context {V : Type}.
Implicit Types (d : Py.dict V) (k : string) (v : V).

Lemma dict_get_set_eq k v d : Py.dict_get k (Py.dict_set k v d) = Some v.
Proof.
  induction d as [|[k' v'] d IH]; simpl.
  - by rewrite String.eqb_refl.
  - destruct (String.eqb k k') eqn:E; simpl.
    + by rewrite String.eqb_refl.
    + by rewrite E.
Qed.

Lemma dict_get_set_ne k k' v d :
  k <> k' -> Py.dict_get k (Py.dict_set k' v d) = Py.dict_get k d.
Proof.
  intros Hne. induction d as [|[k2 v2] d IH]; simpl.
  - by apply String.eqb_neq in Hne as ->.
  - destruct (String.eqb k' k2) eqn:E; simpl.
    + apply String.eqb_eq in E as <-.
      by apply String.eqb_neq in Hne as ->.
    + by rewrite IH.
Qed.

Lemma dict_get_In k v d : Py.dict_get k d = Some v -> In (k, v) d.
Proof.
  induction d as [|[k' v'] d IH]; simpl; [done|].
  destruct (String.eqb k k') eqn:E.
  - apply String.eqb_eq in E as <-. intros [= <-]. by left.
  - intros H. right. by apply IH.
Qed.

Lemma dict_get_None_keys k d :
  Py.dict_get k d = None <-> ~ In k (Py.dict_keys d).
Proof.
  induction d as [|[k' v'] d IH]; simpl; [tauto|].
  destruct (String.eqb k k') eqn:E.
  - apply String.eqb_eq in E as <-. split; [done|]. intros H. destruct H. by left.
  - apply String.eqb_neq in E. rewrite IH. split.
    + intros H [->|H']; [done|tauto].
    + tauto.
Qed.

(** A loop of assignments [acc[key e] = val e] over [es]. *)
Context {E : Type} (key : E -> string) (val : E -> V).
Context (f : Py.dict V -> E -> Py.dict V).
Hypothesis f_sets : forall acc e, f acc e = Py.dict_set (key e) (val e) acc.

Lemma dict_get_loop_other k es acc :
  (forall e, In e es -> key e <> k) ->
  Py.dict_get k (fold_left f es acc) = Py.dict_get k acc.
Proof.
  revert acc. induction es as [|e0 es IH]; intros acc Hk; simpl; [done|].
  rewrite IH.
  - rewrite f_sets. apply dict_get_set_ne. intros ->. by apply (Hk e0); [left|].
  - intros e He. apply Hk. by right.
Qed.

Lemma dict_get_loop_In e es acc :
  In e es ->
  (forall e', In e' es -> key e' = key e -> val e' = val e) ->
  Py.dict_get (key e) (fold_left f es acc) = Some (val e).
Proof.
  revert e acc. induction es as [|e0 es IH]; intros e acc Hin Hval; [done|].
  simpl.
  destruct (existsb (fun e' => String.eqb (key e') (key e)) es) eqn:Hex.
  - apply existsb_exists in Hex as (e' & He' & Hk).
    apply String.eqb_eq in Hk.
    rewrite <- Hk, <- (Hval e' (or_intror He') Hk).
    apply IH; [done|]. intros e2 He2 Hk2.
    rewrite (Hval e2 (or_intror He2)), (Hval e' (or_intror He')); congruence.
  - assert (forall e', In e' es -> key e' <> key e) as Hno.
    { intros e' He' Hk.
      assert (existsb (fun e' => String.eqb (key e') (key e)) es = true) as Ht.
      { apply existsb_exists. exists e'. split; [done|]. by apply String.eqb_eq. }
      congruence. }
    rewrite dict_get_loop_other by done.
    destruct Hin as [->|Hin].
    + rewrite f_sets. apply dict_get_set_eq.
    + by destruct (Hno e Hin).
Qed.

End DictFacts.

Lemma nodup_keys_same_entry {V} (es : list (string * V)) k v v' :
  NoDup (map fst es) -> In (k, v) es -> In (k, v') es -> v = v'.
Proof.
  induction es as [|[k0 v0] es IH]; simpl; [done|].
  intros Hnd [H1|H1] [H2|H2]; inversion Hnd as [|? ? Hnotin Hnd']; subst.
  - congruence.
  - inversion H1; subst. destruct Hnotin.
    apply list_elem_of_In, in_map_iff. by exists (k, v').
  - inversion H2; subst. destruct Hnotin.
    apply list_elem_of_In, in_map_iff. by exists (k, v).
  - by apply IH.
Qed.

(** ** The scanner: one file and the batch *)

Lemma categories_nodup : NoDup (map fst Scan.SEARCH_CATEGORIES).
Proof. apply (bool_decide_unpack _). by vm_compute. Qed.

Lemma category_not_base_key category terms :
  In (category, terms) Scan.SEARCH_CATEGORIES ->
  ~ In category ["file_path"; "file_name"; "file_type"; "status"; "error"].
Proof.
  intros Hin Hbase.
  assert (Forall (fun e : string * list string =>
            ~ In (fst e) ["file_path"; "file_name"; "file_type"; "status"; "error"])
            Scan.SEARCH_CATEGORIES) as Hall.
  { apply (bool_decide_unpack _). by vm_compute. }
  rewrite Forall_forall in Hall.
  apply (Hall (category, terms)); [by apply list_elem_of_In|done].
Qed.

Lemma find_matches_empty_text :
  Scan.find_matches_in_text "" = Scan.empty_matches.
Proof. reflexivity. Qed.

Lemma sorted_elem (s : gset string) t : In t (Py.sorted s) <-> t ∈ s.
Proof.
  unfold Py.sorted. rewrite <- list_elem_of_In.
  rewrite (merge_sort_Permutation String.le (elements s)).
  apply elem_of_elements.
Qed.

Lemma sorted_empty : Py.sorted ∅ = [].
Proof. unfold Py.sorted. by rewrite elements_empty. Qed.

Lemma le_ne_ltb (a b : string) : String.le a b -> a <> b -> String.ltb a b = true.
Proof.
  unfold String.le, String.leb, String.ltb. intros Hle Hne.
  destruct (String.compare a b) eqn:Hc; [|done|done].
  by apply String.compare_eq_iff in Hc.
Qed.

Lemma sorted_strictly_ascending (s : gset string) :
  Spec.strictly_ascending (Py.sorted s).
Proof.
  unfold Spec.strictly_ascending, Py.sorted.
  assert (NoDup (merge_sort String.le (elements s))) as Hnd.
  { rewrite (merge_sort_Permutation String.le (elements s)). apply NoDup_elements. }
  pose proof (StronglySorted_merge_sort String.le (elements s)) as Hs.
  induction Hs as [|a l Hs IH Hall]; [constructor|].
  apply NoDup_cons in Hnd as [Hnotin Hnd].
  constructor; [by apply IH|].
  rewrite Forall_forall in Hall |- *.
  intros b Hb. apply le_ne_ltb; [by apply Hall|].
  intros ->. by apply Hnotin, list_elem_of_In.
Qed.

Section ScannerFacts.

Variables read_shapefile read_geodatabase read_excel read_pdf read_gpx
  : string -> string.
Variable read_csv_file : string -> option string.

Local Abbreviation read_text :=
  (Scan.read_text read_shapefile read_geodatabase read_excel read_pdf read_gpx
     read_csv_file).
Local Abbreviation scan_file :=
  (Scan.scan_file read_shapefile read_geodatabase read_excel read_pdf read_gpx
     read_csv_file).
Local Abbreviation scan_all :=
  (Scan.scan_all read_shapefile read_geodatabase read_excel read_pdf read_gpx
     read_csv_file).
Local Abbreviation scan_step :=
  (Scan.scan_step read_shapefile read_geodatabase read_excel read_pdf read_gpx
     read_csv_file).

Lemma scan_loop_results files st :
  Scan.results (fold_left scan_step files st)
  = Scan.results st ++ map scan_file files.
Proof.
  revert st. induction files as [|fi files IH]; intros st; simpl.
  - by rewrite app_nil_r.
  - rewrite IH. simpl. by rewrite <- app_assoc.
Qed.

Lemma scan_all_results files :
  Scan.results (scan_all files) = map scan_file files.
Proof. unfold Scan.scan_all. by rewrite scan_loop_results. Qed.

Lemma error_text_is_error t :
  Py.startswith "ERROR:" t = true -> Scan.is_error_text (Some t) = true.
Proof.
  intros H. unfold Scan.is_error_text. rewrite H.
  destruct t; [discriminate H|reflexivity].
Qed.

(** C7: when the reader of a scan target hands back an [ERROR:] text,
    [scan_file] returns a record with status [error] that carries the
    reader's text and an empty string under every category, and the batch
    loop still produces one record per target, in order, for the targets
    before and after the unreadable one. *)
Theorem scan_file_reader_error (fi : Scan.file_info) (t : string) :
  read_text fi = Some t ->
  Py.startswith "ERROR:" t = true ->
  Py.dict_get "status" (scan_file fi) = Some "error"
  /\ Py.dict_get "error" (scan_file fi) = Some t
  /\ (forall category terms,
        In (category, terms) Scan.SEARCH_CATEGORIES ->
        Py.dict_get category (scan_file fi) = Some "")
  /\ (forall before after,
        Scan.results (scan_all (before ++ fi :: after))
        = map scan_file before ++ scan_file fi :: map scan_file after).
Proof.
  intros Hread Herr.
  set (f := fun (result : Py.dict string) '((category, _) : string * list string) =>
              Py.dict_set category "" result).
  assert (forall acc e, f acc e = Py.dict_set (fst e) ((fun _ => "") e) acc) as Hf
    by (by intros acc [c ts]).
  assert (forall k, In k ["file_path"; "file_name"; "file_type"; "status"; "error"] ->
            forall e, In e Scan.SEARCH_CATEGORIES -> fst e <> k) as Hbase.
  { intros k Hk [c ts] Hin Heq. simpl in Heq. subst.
    by apply (category_not_base_key _ _ Hin). }
  assert (scan_file fi
          = fold_left f Scan.SEARCH_CATEGORIES
              [("file_path", Scan.path fi); ("file_name", Scan.name fi);
               ("file_type", Scan.type fi); ("status", "error"); ("error", t)])
    as Hscan.
  { unfold Scan.scan_file. by rewrite Hread, (error_text_is_error _ Herr). }
  repeat split.
  - rewrite Hscan, (dict_get_loop_other fst (fun _ => "") f Hf)
      by (apply Hbase; simpl; tauto).
    reflexivity.
  - rewrite Hscan, (dict_get_loop_other fst (fun _ => "") f Hf)
      by (apply Hbase; simpl; tauto).
    reflexivity.
  - intros category terms Hin. rewrite Hscan.
    by apply (dict_get_loop_In fst (fun _ => "") f Hf (category, terms)).
  - intros before after. by rewrite scan_all_results, map_app.
Qed.


End ScannerFacts.

(** ** The term matcher *)

Lemma string_app_cons (x : ascii) (a b : string) :
  String x a +:+ b = String x (a +:+ b).
Proof. reflexivity. Qed.

Lemma string_app_nil_l (a : string) : "" +:+ a = a.
Proof. reflexivity. Qed.

Lemma string_app_assoc (a b c : string) : (a +:+ b) +:+ c = a +:+ (b +:+ c).
Proof.
  induction a as [|x a IH]; [done|]. by rewrite !string_app_cons, IH.
Qed.

Lemma string_app_nil_r (a : string) : a +:+ "" = a.
Proof. induction a as [|x a IH]; [done|]. by rewrite string_app_cons, IH. Qed.

Lemma lower_app (a b : string) : Py.lower (a +:+ b) = Py.lower a +:+ Py.lower b.
Proof.
  induction a as [|x a IH]; [done|].
  rewrite string_app_cons. simpl. by rewrite IH.
Qed.

Lemma is_word_lower_char c : Py.is_word (Py.lower_char c) = Py.is_word c.
Proof. by destruct c as [[] [] [] [] [] [] [] []]. Qed.

Lemma same_lower_same_word c d :
  Py.lower_char c = Py.lower_char d -> Py.is_word c = Py.is_word d.
Proof.
  intros H. by rewrite <- (is_word_lower_char c), H, is_word_lower_char.
Qed.

Lemma last_char_app p a b :
  Spec.last_char p (a +:+ b) = Spec.last_char (Spec.last_char p a) b.
Proof.
  revert p. induction a as [|x a IH]; intros p; [done|].
  rewrite string_app_cons. simpl. apply IH.
Qed.

Lemma node_eqb_eq a b : Spec.node_eqb a b = true -> a = b.
Proof.
  destruct a, b; simpl; try done; intros H; f_equal; by apply Ascii.eqb_eq.
Qed.

Lemma nodes_eqb_eq p1 p2 : Spec.nodes_eqb p1 p2 = true -> p1 = p2.
Proof.
  revert p2. induction p1 as [|a p1 IH]; intros [|b p2]; simpl; try done.
  intros [Ha Hp]%andb_prop. f_equal; [by apply node_eqb_eq|by apply IH].
Qed.

Lemma configured_terms_regular category terms term :
  In (category, terms) Scan.SEARCH_CATEGORIES -> In term terms ->
  Spec.regular_term term = true.
Proof.
  assert (forallb (fun e : string * list string => forallb Spec.regular_term (snd e))
            Scan.SEARCH_CATEGORIES = true) as Hall by (by vm_compute).
  intros Hc Ht. rewrite forallb_forall in Hall.
  specialize (Hall _ Hc). simpl in Hall. rewrite forallb_forall in Hall.
  by apply Hall.
Qed.

Section Matching.

Implicit Types (p : list Re.node) (prev : option ascii) (s t w : string).

Lemma match_here_literals t p prev s :
  Re.match_here true (Spec.literals t ++ p) prev s = true <->
  exists w s', s = w +:+ s' /\ Py.lower w = Py.lower t
               /\ Re.match_here true p (Spec.last_char prev w) s' = true.
Proof.
  revert prev s. induction t as [|c t IH]; intros prev s; simpl.
  - split.
    + intros H. by exists "", s.
    + intros (w & s' & -> & Hw & H). by destruct w.
  - destruct s as [|d s]; simpl.
    + split; [done|]. intros (w & s' & Hs & Hw & _). by destruct w.
    + rewrite andb_true_iff, IH. unfold Re.char_matches. rewrite Ascii.eqb_eq.
      split.
      * intros (Hcd & w & s' & -> & Hw & H).
        exists (String d w), s'. simpl. by rewrite Hw, Hcd.
      * intros (w & s' & Hs & Hw & H). destruct w as [|d' w]; [done|].
        rewrite string_app_cons in Hs. simpl in Hw, H.
        injection Hs as -> ->. injection Hw as Hcd Hw.
        split; [done|]. by exists w, s'.
Qed.

Lemma search_from_split p prev s :
  Re.search_from true p prev s = true <->
  exists pre rest, s = pre +:+ rest
                   /\ Re.match_here true p (Spec.last_char prev pre) rest = true.
Proof.
  revert prev. induction s as [|d s IH]; intros prev; simpl.
  - rewrite orb_false_r. split.
    + intros H. by exists "", "".
    + intros (pre & rest & Hs & H). destruct pre; [|done].
      rewrite string_app_nil_l in Hs. by subst rest.
  - rewrite orb_true_iff, IH. split.
    + intros [H|(pre & rest & -> & H)].
      * by exists "", (String d s).
      * by exists (String d pre), rest.
    + intros (pre & rest & Hs & H). destruct pre as [|d' pre].
      * left. rewrite string_app_nil_l in Hs. simpl in H. by subst rest.
      * right. rewrite string_app_cons in Hs. simpl in H.
        injection Hs as -> ->. by exists pre, rest.
Qed.

Lemma lower_same_first w t :
  Py.lower w = Py.lower t ->
  Re.is_word_opt (Re.next_char w) = Re.is_word_opt (Re.next_char t).
Proof.
  destruct w as [|d w], t as [|c t]; simpl; try done.
  intros [= Hcd _]. by apply same_lower_same_word.
Qed.

Lemma lower_same_last w t prev prev' :
  Py.lower w = Py.lower t ->
  Re.is_word_opt prev = Re.is_word_opt prev' ->
  Re.is_word_opt (Spec.last_char prev w) = Re.is_word_opt (Spec.last_char prev' t).
Proof.
  revert t prev prev'. induction w as [|d w IH]; intros [|c t] prev prev'; simpl;
    try done.
  intros [= Hcd Hw] _. apply IH; [done|]. simpl. by apply same_lower_same_word.
Qed.

Lemma last_char_nonempty prev prev' c t :
  Spec.last_char prev (String c t) = Spec.last_char prev' (String c t).
Proof. reflexivity. Qed.

Lemma next_char_app c w x :
  Re.next_char (String c w +:+ x) = Some c.
Proof. reflexivity. Qed.

Lemma lower_plural_split w t :
  Py.lower w = Py.lower (t +:+ "s") ->
  exists w0 d, w = w0 +:+ String d "" /\ Py.lower w0 = Py.lower t
               /\ Py.lower_char d = "s"%char.
Proof.
  revert w. induction t as [|c t IH]; intros w.
  - rewrite string_app_nil_l. destruct w as [|d [|d' w]]; simpl; try done.
    intros [= Hd]. by exists "", d.
  - rewrite string_app_cons. destruct w as [|d w]; simpl; [done|].
    intros [= Hd Hw]. destruct (IH _ Hw) as (w0 & d0 & -> & Hw0 & Hd0).
    exists (String d w0), d0. rewrite string_app_cons. simpl.
    by rewrite Hd, Hw0.
Qed.

Lemma match_here_boundary p prev s :
  Re.match_here true (Re.Boundary :: p) prev s
  = Re.at_boundary prev s && Re.match_here true p prev s.
Proof. reflexivity. Qed.

Lemma match_here_optional c prev s :
  Re.match_here true [Re.OptLiteral c; Re.Boundary] prev s
  = match s with
    | String d s' => Re.char_matches true c d && Re.at_boundary (Some d) s'
    | EmptyString => false
    end
    || Re.at_boundary prev s.
Proof. destruct s; cbn [Re.match_here]; by rewrite !andb_true_r. Qed.

(** The pattern of a term that begins and ends with a word character is
    found in a text exactly when the term, or the term and one more [s],
    stands there as a complete token. *)
Lemma search_term_nodes term text :
  Re.is_word_opt (Re.next_char term) = true ->
  Re.is_word_opt (Spec.last_char None term) = true ->
  Re.search_from true (Spec.term_nodes term) None text = true
  <-> Spec.occurs_as_token term text.
Proof.
  intros Hfirst Hlast.
  destruct term as [|c0 term0] eqn:Hterm; [done|]. rewrite <- Hterm in *.
  assert (forall w prev, Py.lower w = Py.lower term ->
            Re.is_word_opt (Spec.last_char prev w) = true) as Hlastw.
  { intros w prev Hw. destruct w as [|d w]; [by subst term|].
    rewrite (last_char_nonempty prev None), <- Hlast.
    by apply lower_same_last. }
  assert (forall w x, Py.lower w = Py.lower term ->
            Re.is_word_opt (Re.next_char (w +:+ x)) = true) as Hfirstw.
  { intros w x Hw. destruct w as [|d w]; [by subst term|].
    rewrite next_char_app, <- Hfirst.
    by apply (lower_same_first (String d w)). }
  rewrite search_from_split. unfold Spec.term_nodes, Spec.occurs_as_token.
  split.
  - intros (pre & rest & -> & Hm). rewrite match_here_boundary in Hm.
    apply andb_prop in Hm as [Hleft Hm].
    apply match_here_literals in Hm as (w & s' & -> & Hw & Htail).
    unfold Re.at_boundary in Hleft. rewrite (Hfirstw w s' Hw) in Hleft.
    assert (Spec.ends_in_word pre = false) as Hpre.
    { unfold Spec.ends_in_word. by destruct (Re.is_word_opt (Spec.last_char None pre)). }
    rewrite match_here_optional in Htail.
    apply orb_prop in Htail as [Hplural|Hsingle].
    + destruct s' as [|d s'']; [done|].
      apply andb_prop in Hplural as [Hd Hright].
      unfold Re.char_matches in Hd. apply Ascii.eqb_eq in Hd.
      assert (Py.is_word d = true) as Hwd.
      { by rewrite <- (same_lower_same_word _ _ Hd). }
      exists pre, (w +:+ String d ""), s''. split; [split; [|split]|].
      * by rewrite string_app_assoc.
      * done.
      * unfold Re.at_boundary in Hright. cbn [Re.is_word_opt] in Hright.
        rewrite Hwd in Hright.
        unfold Spec.starts_with_word. by destruct (Re.is_word_opt (Re.next_char s'')).
      * right. unfold Spec.same_ignoring_case. rewrite !lower_app, Hw.
        cbn [Py.lower]. by rewrite <- Hd.
    + exists pre, w, s'. split; [split; [|split]|]; [done|done| |by left].
      unfold Re.at_boundary in Hsingle. rewrite (Hlastw w _ Hw) in Hsingle.
      unfold Spec.starts_with_word. by destruct (Re.is_word_opt (Re.next_char s')).
  - intros (pre & w & post & (-> & Hpre & Hpost) & [Hw|Hw]).
    + exists pre, (w +:+ post). split; [done|]. rewrite match_here_boundary.
      apply andb_true_intro. split.
      * unfold Re.at_boundary. rewrite (Hfirstw w post Hw).
        unfold Spec.ends_in_word in Hpre. by rewrite Hpre.
      * apply match_here_literals. exists w, post. split; [done|]. split; [done|].
        rewrite match_here_optional. apply orb_true_intro. right.
        unfold Re.at_boundary. rewrite (Hlastw w _ Hw).
        unfold Spec.starts_with_word in Hpost. by rewrite Hpost.
    + apply lower_plural_split in Hw as (w0 & d & -> & Hw0 & Hd).
      exists pre, (w0 +:+ String d post). split.
      { by rewrite string_app_assoc. }
      rewrite match_here_boundary. apply andb_true_intro. split.
      * unfold Re.at_boundary. rewrite (Hfirstw w0 _ Hw0).
        unfold Spec.ends_in_word in Hpre. by rewrite Hpre.
      * apply match_here_literals. exists w0, (String d post).
        split; [done|]. split; [done|].
        rewrite match_here_optional. apply orb_true_intro. left.
        apply andb_true_intro. split.
        { unfold Re.char_matches. apply Ascii.eqb_eq. by rewrite Hd. }
        unfold Re.at_boundary. cbn [Re.is_word_opt].
        assert (Py.is_word d = true) as ->.
        { by rewrite <- (is_word_lower_char d), Hd. }
        unfold Spec.starts_with_word in Hpost. by rewrite Hpost.
Qed.

End Matching.

Lemma dict_set_In {V} (k k' : string) (v v' : V) (d : Py.dict V) :
  In (k, v) (Py.dict_set k' v' d) -> (k = k' /\ v = v') \/ In (k, v) d.
Proof.
  induction d as [|[k2 v2] d IH]; simpl.
  - intros [[= -> ->]|[]]. by left.
  - destruct (String.eqb k' k2) eqn:E; simpl.
    + intros [[= -> ->]|H]; [by left|right; by right].
    + intros [H|H]; [right; by left|].
      destruct (IH H) as [?|?]; [by left|right; by right].
Qed.

Lemma loop_In {V E} (key : E -> string) (val : E -> V)
    (f : Py.dict V -> E -> Py.dict V) :
  (forall acc e, f acc e = Py.dict_set (key e) (val e) acc) ->
  forall es acc k v,
    In (k, v) (fold_left f es acc) ->
    (exists e, In e es /\ k = key e /\ v = val e) \/ In (k, v) acc.
Proof.
  intros Hf es. induction es as [|e es IH]; intros acc k v; simpl; [by right|].
  intros H. destruct (IH _ _ _ H) as [(e' & He' & Hk & Hv)|Hacc].
  - left. exists e'. split; [by right|done].
  - rewrite Hf in Hacc. destruct (dict_set_In _ _ _ _ _ Hacc) as [[-> ->]|Hin].
    + left. exists e. split; [by left|done].
    + by right.
Qed.

Lemma found_terms_elem patterns text term :
  term ∈ Scan.found_terms patterns text <->
  exists p, In (term, p) patterns /\ Scan.pattern_search p text = true.
Proof.
  unfold Scan.found_terms.
  assert (forall acc : gset string,
    term ∈ fold_left
      (fun (found : gset string) '((t, pattern) : string * option Re.compiled) =>
         if Scan.pattern_search pattern text then found ∪ {[ t ]} else found)
      patterns acc
    <-> term ∈ acc
        \/ exists p, In (term, p) patterns /\ Scan.pattern_search p text = true) as H.
  { induction patterns as [|[t p] patterns IH]; intros acc; simpl.
    - split; [by left|]. intros [?|(p & [] & _)]. done.
    - rewrite IH. split.
      + intros [Hacc|(p' & Hin & Hs)].
        * destruct (Scan.pattern_search p text) eqn:Hp; [|by left].
          apply elem_of_union in Hacc as [?|Ht]; [by left|].
          apply elem_of_singleton in Ht as ->. right. exists p. split; [by left|done].
        * right. exists p'. split; [by right|done].
      + intros [Hacc|(p' & [[= -> ->]|Hin] & Hs)].
        * left. destruct (Scan.pattern_search p text); [|done].
          apply elem_of_union. by left.
        * left. rewrite Hs. apply elem_of_union. right. by apply elem_of_singleton.
        * right. by exists p'. }
  rewrite H. split; [|by right]. intros [Hempty|?]; [|done].
  by apply not_elem_of_empty in Hempty.
Qed.

Lemma compile_terms_get terms term :
  In term terms ->
  Py.dict_get term (Scan.compile_terms terms)
  = Some (Re.compile_ignorecase (Scan.term_pattern term)).
Proof.
  intros Hin. unfold Scan.compile_terms.
  by apply (dict_get_loop_In (fun t => t)
              (fun t => Re.compile_ignorecase (Scan.term_pattern t)) _
              (fun _ _ => eq_refl) term);
    [|intros ? _ ->].
Qed.

Lemma compile_terms_In terms term p :
  In (term, p) (Scan.compile_terms terms) ->
  In term terms /\ p = Re.compile_ignorecase (Scan.term_pattern term).
Proof.
  intros H. unfold Scan.compile_terms in H.
  apply (loop_In (fun t => t)
           (fun t => Re.compile_ignorecase (Scan.term_pattern t)) _
           (fun _ _ => eq_refl)) in H as [(t & Ht & -> & ->)|[]].
  done.
Qed.

Lemma regular_term_compiles term :
  Spec.regular_term term = true ->
  exists r, Re.compile_ignorecase (Scan.term_pattern term) = Some r
            /\ Re.nodes r = Spec.term_nodes term /\ Re.ignorecase r = true
            /\ Re.is_word_opt (Re.next_char term) = true
            /\ Re.is_word_opt (Spec.last_char None term) = true.
Proof.
  unfold Spec.regular_term. intros [[H1 H2]%andb_prop H3]%andb_prop.
  destruct (Re.compile_ignorecase (Scan.term_pattern term)) as [r|]; [|done].
  apply andb_prop in H1 as [Hn Hic]. apply nodes_eqb_eq in Hn.
  by exists r.
Qed.

Lemma category_patterns_get category terms :
  In (category, terms) Scan.SEARCH_CATEGORIES ->
  Py.dict_get category Scan.CATEGORY_PATTERNS = Some (Scan.compile_terms terms).
Proof.
  intros Hin. unfold Scan.CATEGORY_PATTERNS.
  set (f := fun (acc : Py.dict (Py.dict (option Re.compiled)))
              '((category, terms) : string * list string) =>
              Py.dict_set category (Scan.compile_terms terms) acc).
  assert (forall acc e, f acc e
            = Py.dict_set (fst e) (Scan.compile_terms (snd e)) acc) as Hf
    by (by intros acc [c ts]).
  apply (dict_get_loop_In fst (fun e => Scan.compile_terms (snd e)) f Hf
           (category, terms)); [done|].
  intros [c ts] Hin' Hk. simpl in *. subst c. f_equal.
  by apply (nodup_keys_same_entry _ _ _ _ categories_nodup Hin' Hin).
Qed.

Lemma category_patterns_nodup : NoDup (map fst Scan.CATEGORY_PATTERNS).
Proof. apply (bool_decide_unpack _). by vm_compute. Qed.

Lemma matches_of_empty category :
  Scan.matches_of Scan.empty_matches category = ∅.
Proof.
  assert (Forall (fun e : string * gset string => snd e = ∅) Scan.empty_matches)
    as Hall.
  { apply (bool_decide_unpack _). by vm_compute. }
  unfold Scan.matches_of.
  destruct (Py.dict_get category Scan.empty_matches) as [s|] eqn:Hget; [|done].
  apply dict_get_In in Hget. rewrite Forall_forall in Hall.
  by apply (Hall (category, s)), list_elem_of_In.
Qed.

Lemma find_matches_get category terms text :
  In (category, terms) Scan.SEARCH_CATEGORIES ->
  Py.truthy text = true ->
  Scan.matches_of (Scan.find_matches_in_text text) category
  = Scan.found_terms (Scan.compile_terms terms) text.
Proof.
  intros Hin Htext. unfold Scan.find_matches_in_text, Scan.matches_of.
  rewrite Htext. cbn [negb].
  set (f := fun (results : Py.dict (gset string))
              '((category, patterns) : string * Py.dict (option Re.compiled)) =>
              Py.dict_set category (Scan.found_terms patterns text) results).
  assert (forall acc e, f acc e
            = Py.dict_set (fst e) (Scan.found_terms (snd e) text) acc) as Hf
    by (by intros acc [c ps]).
  pose proof (dict_get_In _ _ _ (category_patterns_get _ _ Hin)) as Hin'.
  assert (Py.dict_get category (fold_left f Scan.CATEGORY_PATTERNS [])
          = Some (Scan.found_terms (Scan.compile_terms terms) text)) as ->; [|done].
  apply (dict_get_loop_In fst (fun e => Scan.found_terms (snd e) text) f Hf
           (category, Scan.compile_terms terms)); [done|].
  intros [c ps] Hin2 Hk. simpl in *. subst c. f_equal.
  by apply (nodup_keys_same_entry _ _ _ _ category_patterns_nodup Hin2 Hin').
Qed.

Lemma reported_iff_search category terms term text :
  In (category, terms) Scan.SEARCH_CATEGORIES -> In term terms ->
  Spec.reported category term text
  <-> Re.search_from true (Spec.term_nodes term) None text = true.
Proof.
  intros Hc Ht. unfold Spec.reported.
  destruct (regular_term_compiles _ (configured_terms_regular _ _ _ Hc Ht))
    as (r & Hr & Hn & Hic & _).
  destruct text as [|c text].
  - rewrite find_matches_empty_text, matches_of_empty. split; [|done].
    intros H. by apply not_elem_of_empty in H.
  - rewrite (find_matches_get _ _ _ Hc) by done.
    rewrite found_terms_elem. split.
    + intros (p & Hin & Hs). apply compile_terms_In in Hin as [_ ->].
      rewrite Hr in Hs. unfold Scan.pattern_search, Re.search in Hs.
      by rewrite Hn, Hic in Hs.
    + intros Hs. exists (Some r). split.
      * rewrite <- Hr. apply dict_get_In. by apply compile_terms_get.
      * unfold Scan.pattern_search, Re.search. by rewrite Hn, Hic.
Qed.

(** C1: for every term of every configured category and every text, the
    matcher reports the term when the text holds the term, or the term
    followed by one [s], as a complete token in any letter case, and does
    not report it when the text holds no such token, as for the term "ray"
    in "array"; "rays" and "Ray" are reported. *)
Theorem term_matcher_whole_word :
  (forall category terms term text,
     In (category, terms) Scan.SEARCH_CATEGORIES -> In term terms ->
     (Spec.occurs_as_token term text -> Spec.reported category term text)
     /\ (~ Spec.occurs_as_token term text -> ~ Spec.reported category term text))
  /\ ~ Spec.reported "sharks_rays" "ray" "an array of cells"
  /\ ~ Spec.reported "sharks_rays" "ray" "stingray"
  /\ Spec.reported "sharks_rays" "stingray" "stingray"
  /\ Spec.reported "sharks_rays" "ray" "two rays"
  /\ Spec.reported "sharks_rays" "ray" "Ray".
Proof.
  split.
  - intros category terms term text Hc Ht.
    destruct (regular_term_compiles _ (configured_terms_regular _ _ _ Hc Ht))
      as (_ & _ & _ & _ & Hfirst & Hlast).
    rewrite (reported_iff_search _ _ _ _ Hc Ht).
    rewrite (search_term_nodes _ _ Hfirst Hlast). tauto.
  - repeat split; apply (bool_decide_unpack _); by vm_compute.
Qed.

(** ** The index builders *)

Lemma join_cons sep p q rest :
  Py.join sep (p :: q :: rest) = p +:+ sep +:+ Py.join sep (q :: rest).
Proof. reflexivity. Qed.

Lemma truthy_nonempty s : s <> "" -> Py.truthy s = true.
Proof. by destruct s. Qed.

(** Two records that agree on the six text fields have the same text. *)
Lemma searchable_parts_ext r r' :
  (forall k, In k ["name"; "species"; "activity"; "filename_tokens"; "fields"; "path"] ->
             Py.dict_get k r = Py.dict_get k r') ->
  PrepareIndex.searchable_parts r = PrepareIndex.searchable_parts r'.
Proof.
  intros H. unfold PrepareIndex.searchable_parts, PrepareIndex.field, Val.get_or_empty.
  rewrite !(H "name"), !(H "species"), !(H "activity"), !(H "filename_tokens"),
    !(H "fields"), !(H "path") by (simpl; tauto).
  reflexivity.
Qed.

Lemma strip_searchable_text_get r k :
  Py.dict_get k (PrepareIndex.strip_searchable_text r)
  = if String.eqb k "searchable_text" then None else Py.dict_get k r.
Proof.
  unfold PrepareIndex.strip_searchable_text.
  induction r as [|[k' v] r IH]; simpl.
  - by destruct (String.eqb k "searchable_text").
  - destruct (String.eqb k' "searchable_text") eqn:Ek'; simpl.
    + rewrite IH. apply String.eqb_eq in Ek' as ->.
      by destruct (String.eqb k "searchable_text").
    + rewrite IH. destruct (String.eqb k k') eqn:Ek; [|done].
      apply String.eqb_eq in Ek as ->. by rewrite Ek'.
Qed.

Lemma all_records_shape i r0 :
  In r0 (PrepareIndex.all_records i) ->
  exists base, r0 = PrepareIndex.with_searchable_text base.
Proof.
  unfold PrepareIndex.all_records, PrepareIndex.if_exists.
  rewrite !in_app_iff.
  destruct i as [[a|] [b|] [c|] [d|] [e|]]; simpl;
    unfold PrepareIndex.process_csv_xlsx, PrepareIndex.process_gdb,
      PrepareIndex.process_shp, PrepareIndex.process_images;
    rewrite ?in_map_iff;
    intros H; repeat destruct H as [H|H]; try done;
    destruct H as (row & <- & _); eexists; reflexivity.
Qed.

(** C4 (amended): for a record with a non-empty name and a non-empty
    species, [build_searchable_text] of prepare_index.py is the text the
    specification words describe -- the name three times, the species
    twice, then the activity, the filename tokens and the field list, each
    once when it is not empty, then for a record with a path the last four
    meaningful path segments, all joined by single spaces -- so it begins
    with three copies of the name and two of the species; how often the
    name or the species occurs after them is not fixed. *)
Theorem searchable_text_layout (record : Py.dict Val.value) :
  let name := PrepareIndex.field "name" record in
  let species := PrepareIndex.field "species" record in
  name <> "" -> species <> "" ->
  PrepareIndex.build_searchable_text record = Spec.weighted_text record
  /\ exists rest,
       PrepareIndex.build_searchable_text record
       = name +:+ " " +:+ name +:+ " " +:+ name +:+ " "
         +:+ species +:+ " " +:+ species +:+ rest
       /\ (rest = "" \/ Py.startswith " " rest = true).
Proof.
  intros name species Hname Hspecies.
  assert (PrepareIndex.searchable_parts record
          = [name; name; name; species; species]
            ++ (List.filter Py.truthy
                  [PrepareIndex.field "activity" record;
                   PrepareIndex.field "filename_tokens" record;
                   PrepareIndex.field "fields" record]
                ++ Spec.path_keywords record)) as Hparts.
  { unfold PrepareIndex.searchable_parts, Spec.path_keywords.
    fold name species.
    rewrite (truthy_nonempty _ Hname), (truthy_nonempty _ Hspecies).
    simpl.
    destruct (Py.truthy (PrepareIndex.field "activity" record));
      destruct (Py.truthy (PrepareIndex.field "filename_tokens" record));
      destruct (Py.truthy (PrepareIndex.field "fields" record)); reflexivity. }
  split.
  - unfold PrepareIndex.build_searchable_text, Spec.weighted_text.
    by rewrite Hparts.
  - unfold PrepareIndex.build_searchable_text. rewrite Hparts.
    destruct (List.filter Py.truthy _ ++ Spec.path_keywords record) as [|p rest].
    + exists "". split; [|by left]. simpl. by rewrite string_app_nil_r.
    + exists (" " +:+ Py.join " " (p :: rest)). split; [reflexivity|by right].
Qed.

(** C9 (amended): a record that prepare_index.py writes to records.json
    has no [searchable_text] key, keeps every other key of the record it
    comes from, and the dropped text can be computed again from it; a
    record that build_index.py writes to search_index.json does carry its
    [searchable_text]. *)
Theorem persisted_searchable_text :
  (forall (vec : Type) (encode : list string -> list vec) i r,
     In r (PrepareIndex.records_json vec (PrepareIndex.main vec encode i)) ->
     Py.dict_get "searchable_text" r = None
     /\ exists r0,
          In r0 (PrepareIndex.all_records i)
          /\ r = PrepareIndex.strip_searchable_text r0
          /\ (forall k, k <> "searchable_text" ->
                        Py.dict_get k r = Py.dict_get k r0)
          /\ Py.dict_get "searchable_text" r0
             = Some (Val.Str (PrepareIndex.build_searchable_text r)))
  /\ (forall (vec : Type) (encode : list string -> list vec) df r,
        In r (BuildIndex.records vec (BuildIndex.main vec encode df)) ->
        exists row,
          In row df
          /\ Py.dict_get "searchable_text" r
             = Some (Val.Str (BuildIndex.build_searchable_text row))).
Proof.
  split.
  - intros vec encode i r Hin. simpl in Hin.
    apply in_map_iff in Hin as (r0 & <- & Hr0).
    split; [by rewrite strip_searchable_text_get|].
    exists r0. split; [done|]. split; [done|].
    assert (forall k, k <> "searchable_text" ->
              Py.dict_get k (PrepareIndex.strip_searchable_text r0)
              = Py.dict_get k r0) as Hkeep.
    { intros k Hk. rewrite strip_searchable_text_get.
      by apply String.eqb_neq in Hk as ->. }
    split; [done|].
    destruct (all_records_shape _ _ Hr0) as (base & ->).
    unfold PrepareIndex.with_searchable_text at 1. rewrite dict_get_set_eq.
    do 2 f_equal. unfold PrepareIndex.build_searchable_text. f_equal.
    apply searchable_parts_ext. intros k Hk.
    rewrite Hkeep.
    + unfold PrepareIndex.with_searchable_text.
      rewrite dict_get_set_ne; [done|].
      intros ->. simpl in Hk. intuition discriminate.
    + intros ->. simpl in Hk. intuition discriminate.
  - intros vec encode df r Hin. simpl in Hin.
    apply in_map_iff in Hin as (row' & <- & Hrow').
    unfold BuildIndex.df_success in Hrow'.
    apply in_map_iff in Hrow' as (row & <- & Hrow).
    apply filter_In in Hrow as [Hrow _].
    exists row. split; [done|].
    unfold BuildIndex.make_record.
    rewrite (dict_get_loop_other (fun cat => cat)
               (fun cat =>
                  if Val.notna (Val.get cat (BuildIndex.add_searchable_text row))
                  then Val.get cat (BuildIndex.add_searchable_text row)
                  else Val.Str "") _ (fun _ _ => eq_refl)).
    + simpl. unfold Val.get, BuildIndex.add_searchable_text.
      by rewrite dict_get_set_eq.
    + intros cat Hcat ->. simpl in Hcat. intuition discriminate.
Qed.

Lemma all_values_elem cat rows v :
  v ∈ BuildIndex.all_values cat rows ->
  exists row, In row rows /\ In v (BuildIndex.split_values (Val.get cat row)).
Proof.
  unfold BuildIndex.all_values.
  assert (forall acc : gset string,
    v ∈ fold_left
      (fun (acc : gset string) row =>
         let val := Val.get cat row in
         if Val.notna val && Val.truthy val
         then acc ∪ list_to_set (BuildIndex.split_values val) else acc)
      rows acc ->
    v ∈ acc
    \/ exists row, In row rows /\ In v (BuildIndex.split_values (Val.get cat row)))
    as H.
  { induction rows as [|row rows IH]; intros acc; simpl; [by left|].
    intros Hv. destruct (IH _ Hv) as [Hacc|(row' & Hin & Hv')].
    - destruct (Val.notna (Val.get cat row) && Val.truthy (Val.get cat row));
        [|by left].
      apply elem_of_union in Hacc as [?|Hnew]; [by left|].
      right. exists row. split; [by left|].
      apply list_elem_of_In. by apply elem_of_list_to_set in Hnew.
    - right. exists row'. split; [by right|done]. }
  intros Hv. destruct (H _ Hv) as [Hempty|?]; [|done].
  by apply not_elem_of_empty in Hempty.
Qed.

Lemma add_searchable_text_get cat row :
  cat <> "searchable_text" ->
  Val.get cat (BuildIndex.add_searchable_text row) = Val.get cat row.
Proof.
  intros Hne. unfold Val.get, BuildIndex.add_searchable_text.
  by rewrite dict_get_set_ne.
Qed.

Lemma make_record_text row :
  Val.text (Val.get "searchable_text"
              (BuildIndex.make_record (BuildIndex.add_searchable_text row)))
  = BuildIndex.build_searchable_text row.
Proof.
  unfold BuildIndex.make_record, Val.get at 1.
  rewrite (dict_get_loop_other (fun cat => cat)
             (fun cat =>
                if Val.notna (Val.get cat (BuildIndex.add_searchable_text row))
                then Val.get cat (BuildIndex.add_searchable_text row)
                else Val.Str "") _ (fun _ _ => eq_refl)).
  - simpl. unfold Val.get, BuildIndex.add_searchable_text.
    by rewrite dict_get_set_eq.
  - intros cat Hcat ->. simpl in Hcat. intuition discriminate.
Qed.

Lemma filter_success_skip pre row post :
  BuildIndex.is_success row = false ->
  List.filter BuildIndex.is_success (pre ++ row :: post)
  = List.filter BuildIndex.is_success (pre ++ post).
Proof.
  intros H. induction pre as [|x pre IH]; simpl.
  - by rewrite H.
  - by rewrite IH.
Qed.

(** C10: the index that build_index.py builds holds rows of the scan
    artifact with status [success] only: every record comes from such a
    row, every filter option is a piece of a category cell of such a row,
    the embedded texts are the searchable texts of exactly these rows in
    order, and a row with status [error] can be taken out of the artifact
    without any change to what is built. *)
Theorem index_from_success_rows (vec : Type) (encode : list string -> list vec)
    (df : list (Py.dict Val.value)) :
  let out := BuildIndex.main vec encode df in
  (forall r, In r (BuildIndex.records vec out) ->
     exists row, In row df /\ Val.get "status" row = Val.Str "success"
                 /\ r = BuildIndex.make_record (BuildIndex.add_searchable_text row))
  /\ (forall cat options v,
        Py.dict_get cat (BuildIndex.filters vec out) = Some options -> In v options ->
        exists row, In row df /\ Val.get "status" row = Val.Str "success"
                    /\ In v (BuildIndex.split_values (Val.get cat row)))
  /\ BuildIndex.embeddings vec out
     = encode (map BuildIndex.build_searchable_text
                 (List.filter BuildIndex.is_success df))
  /\ length (BuildIndex.records vec out)
     = length (List.filter BuildIndex.is_success df)
  /\ (forall pre row post,
        df = pre ++ row :: post -> Val.get "status" row = Val.Str "error" ->
        out = BuildIndex.main vec encode (pre ++ post)).
Proof.
  assert (forall row, BuildIndex.is_success row = true ->
            Val.get "status" row = Val.Str "success") as Hstatus.
  { intros row. unfold BuildIndex.is_success.
    destruct (Val.get "status" row) as [| |s| |]; try done.
    by intros ->%String.eqb_eq. }
  cbv zeta. unfold BuildIndex.main.
  cbn [BuildIndex.records BuildIndex.filters BuildIndex.embeddings].
  split; [|split; [|split; [|split]]].
  - intros r Hin. apply in_map_iff in Hin as (row' & <- & Hrow').
    apply in_map_iff in Hrow' as (row & <- & Hrow).
    apply filter_In in Hrow as [Hrow Hok].
    exists row. auto.
  - intros cat options v Hget Hv.
    apply dict_get_In in Hget. unfold BuildIndex.filter_options in Hget.
    apply (loop_In (fun cat => cat)
             (fun cat => Py.sorted
                (BuildIndex.all_values cat (BuildIndex.df_success df))) _
             (fun _ _ => eq_refl)) in Hget as [(c & Hc & -> & ->)|[]].
    apply sorted_elem, all_values_elem in Hv as (row' & Hrow' & Hv).
    apply in_map_iff in Hrow' as (row & <- & Hrow).
    apply filter_In in Hrow as [Hrow Hok].
    exists row. split; [done|]. split; [auto|].
    rewrite add_searchable_text_get in Hv; [done|].
    intros ->. simpl in Hc. intuition discriminate.
  - f_equal. unfold BuildIndex.df_success. rewrite !map_map.
    apply map_ext. intros row. apply make_record_text.
  - unfold BuildIndex.df_success. by rewrite !length_map.
  - intros pre row post -> Herr.
    unfold BuildIndex.df_success. rewrite filter_success_skip; [done|].
    unfold BuildIndex.is_success. by rewrite Herr.
Qed.

(** C4, as stated, fails: for the record of a table named dugong_2023.csv
    with the species dugong, the text holds the name four times (the path
    ends in it) and the species six times; the text that build_index.py
    builds for the same file holds the name once. *)
Lemma searchable_text_count_counterexample :
  let record := PrepareIndex.csv_xlsx_record Demo.metadata_row in
  let text := PrepareIndex.build_searchable_text record in
  PrepareIndex.field "name" record = "dugong_2023.csv"
  /\ PrepareIndex.field "species" record = "dugong"
  /\ text = "dugong_2023.csv dugong_2023.csv dugong_2023.csv dugong dugong surveys dugong_2023.csv"
  /\ Spec.count "dugong_2023.csv" text = 4%nat
  /\ Spec.count "dugong" text = 6%nat
  /\ ~ (Spec.count "dugong_2023.csv" text = 3%nat /\ Spec.count "dugong" text = 2%nat)
  /\ Spec.count "dugong_2023.csv"
       (BuildIndex.build_searchable_text (Demo.scan_row "success")) = 1%nat.
Proof. repeat split; try (by vm_compute). intros [H _]. by vm_compute in H. Qed.

(** C9, as stated, fails for build_index.py: the one record it writes for
    a successful scan row carries the searchable text. *)
Lemma persisted_text_counterexample :
  map (Py.dict_get "searchable_text")
    (BuildIndex.records unit
       (BuildIndex.main unit Demo.no_vectors [Demo.scan_row "success"]))
  = [Some (Val.Str "filename: dugong_2023.csv | type: csv | marine_mammals: dugong | places: NEOM, reef | location: surveys")].
Proof. by vm_compute. Qed.

(** ** The query service: lists, slices and sorting *)

Lemma take_all_map {A} (l : list A) (order : list nat) (d : A) :
  (forall i, In i order -> (i < length l)%nat) ->
  Service.take_all l order = Service.Return (map (fun i => nth i l d) order).
Proof.
  induction order as [|i order IH]; intros Hlt; simpl; [done|].
  assert (i < length l)%nat as Hi by (apply Hlt; by left).
  destruct (nth_error l i) as [x|] eqn:Hx.
  - rewrite IH by (intros j Hj; apply Hlt; by right).
    f_equal. f_equal. symmetry. by apply nth_error_nth.
  - apply nth_error_None in Hx. lia.
Qed.

Lemma take_all_return {A} (l : list A) (order : list nat) (xs : list A) (d : A) :
  Service.take_all l order = Service.Return xs ->
  xs = map (fun i => nth i l d) order
  /\ forall i, In i order -> (i < length l)%nat.
Proof.
  revert xs. induction order as [|i order IH]; intros xs; simpl.
  - intros [= <-]. split; [done|]. intros i [].
  - destruct (nth_error l i) as [x|] eqn:Hx; [|done].
    destruct (Service.take_all l order) as [ys|e]; [|done].
    intros [= <-]. destruct (IH ys eq_refl) as [-> Hlt]. split.
    + simpl. f_equal. symmetry. by apply nth_error_nth.
    + intros j [<-|Hj]; [|by apply Hlt].
      apply nth_error_Some. by rewrite Hx.
Qed.

Lemma map_nth_seq {A} (l : list A) (d : A) :
  map (fun i => nth i l d) (seq 0 (length l)) = l.
Proof.
  induction l as [|x l IH]; simpl; [done|].
  f_equal. rewrite <- seq_shift, map_map. apply IH.
Qed.

Lemma insert_by_key_perm key x l :
  Permutation (Service.insert_by_key key x l) (x :: l).
Proof.
  induction l as [|y l IH]; simpl; [done|].
  destruct (String.leb (key x) (key y)); [done|].
  rewrite IH. apply perm_swap.
Qed.

Lemma sorted_by_key_perm key l : Permutation (Service.sorted_by_key key l) l.
Proof.
  induction l as [|x l IH]; simpl; [done|].
  rewrite insert_by_key_perm. by constructor.
Qed.

Lemma slice_to_firstn {A} (k : Z) (l : list A) :
  Py.slice_to k l = firstn (Spec.slice_length k (length l)) l.
Proof. unfold Py.slice_to, Spec.slice_length. by destruct (0 <=? k). Qed.

Lemma sorted_ge_firstn n (l : list Z) : Sorted Z.ge l -> Sorted Z.ge (firstn n l).
Proof.
  revert n. induction l as [|x l IH]; intros [|n] Hs; simpl; try constructor.
  - apply IH. by inversion Hs.
  - inversion Hs as [|? ? _ Hhd]; subst.
    destruct l as [|y l]; destruct n; simpl; constructor.
    by inversion Hhd.
Qed.

Lemma sorted_ge_map (g : Z -> Z) (l : list Z) :
  Spec.monotone g -> Sorted Z.ge l -> Sorted Z.ge (map g l).
Proof.
  intros Hg. induction l as [|x l IH]; intros Hs; simpl; constructor.
  - apply IH. by inversion Hs.
  - inversion Hs as [|? ? _ Hhd]; subst.
    destruct l as [|y l]; simpl; constructor.
    inversion Hhd; subst. apply Z.le_ge, Hg. lia.
Qed.

Lemma sorted_le_opp (l : list Z) :
  Sorted Z.le (map Z.opp l) -> Sorted Z.ge l.
Proof.
  induction l as [|x l IH]; simpl; intros Hs; constructor.
  - apply IH. by inversion Hs.
  - inversion Hs as [|? ? _ Hhd]; subst.
    destruct l as [|y l]; simpl in *; constructor.
    inversion Hhd; subst. lia.
Qed.

(** The insertion argsorts meet the contract of [argsort]. *)
Section InsertionArgsort.

Variable before : Z -> Z -> bool.
Hypothesis before_le : forall x y, before x y = true -> x <= y.
Hypothesis not_before_ge : forall x y, before x y = false -> y <= x.

Lemma insert_pair_perm p l : Permutation (Demo.insert_pair before p l) (p :: l).
Proof.
  induction l as [|p' l IH]; simpl; [done|].
  destruct (before (snd p) (snd p')); [done|].
  rewrite IH. apply perm_swap.
Qed.

Lemma insert_pair_sorted p l :
  Sorted Spec.by_value l -> Sorted Spec.by_value (Demo.insert_pair before p l).
Proof.
  induction l as [|p' l IH]; intros Hs; simpl.
  - by repeat constructor.
  - destruct (before (snd p) (snd p')) eqn:Hb.
    + constructor; [done|]. constructor. by apply before_le.
    + inversion Hs as [|? ? Hs' Hhd]; subst.
      constructor; [by apply IH|].
      destruct l as [|p2 l]; simpl.
      * constructor. by apply not_before_ge.
      * destruct (before (snd p) (snd p2)); constructor.
        -- by apply not_before_ge.
        -- by inversion Hhd.
Qed.

Lemma sort_pairs_perm l :
  Permutation (fold_right (Demo.insert_pair before) [] l) l.
Proof.
  induction l as [|p l IH]; simpl; [done|].
  rewrite insert_pair_perm. by constructor.
Qed.

Lemma sort_pairs_sorted l :
  Sorted Spec.by_value (fold_right (Demo.insert_pair before) [] l).
Proof.
  induction l as [|p l IH]; simpl; [constructor|]. by apply insert_pair_sorted.
Qed.

Lemma combine_seq_fst (a : list Z) start :
  map fst (combine (seq start (length a)) a) = seq start (length a).
Proof.
  revert start. induction a as [|x a IH]; intros start; simpl; [done|].
  by rewrite IH.
Qed.

Lemma combine_seq_nth (a : list Z) :
  Forall (fun p : nat * Z => nth (fst p) a 0 = snd p)
    (combine (seq 0 (length a)) a).
Proof.
  assert (forall pre start, start = length pre ->
            Forall (fun p : nat * Z => nth (fst p) (pre ++ a) 0 = snd p)
              (combine (seq start (length a)) a)) as H.
  { induction a as [|x a IH]; intros pre start Hstart; simpl; constructor.
    - simpl. subst start. rewrite app_nth2 by lia.
      by rewrite Nat.sub_diag.
    - replace (pre ++ x :: a) with ((pre ++ [x]) ++ a) by (by rewrite <- app_assoc).
      apply IH. rewrite length_app. simpl. lia. }
  apply (H [] 0%nat eq_refl).
Qed.

Lemma sorted_map_snd (l : list (nat * Z)) :
  Sorted Spec.by_value l -> Sorted Z.le (map snd l).
Proof.
  induction l as [|p l IH]; intros Hs; simpl; constructor.
  - apply IH. by inversion Hs.
  - inversion Hs as [|? ? _ Hhd]; subst.
    destruct l; simpl; constructor. by inversion Hhd.
Qed.

Lemma argsort_with_spec : Spec.argsort_spec (Demo.argsort_with before).
Proof.
  intros a. unfold Demo.argsort_with. split.
  - rewrite (sort_pairs_perm (combine (seq 0 (length a)) a)).
    by rewrite combine_seq_fst.
  - rewrite map_map.
    set (sorted := fold_right (Demo.insert_pair before) []
                     (combine (seq 0 (length a)) a)).
    assert (Forall (fun p : nat * Z => nth (fst p) a 0 = snd p) sorted) as Hall.
    { unfold sorted. rewrite sort_pairs_perm. apply combine_seq_nth. }
    rewrite (map_ext_Forall _ _ Hall).
    apply sorted_map_snd, sort_pairs_sorted.
Qed.

End InsertionArgsort.

Lemma argsort_stable_spec : Spec.argsort_spec Demo.argsort_stable.
Proof. apply argsort_with_spec; intros x y; lia. Qed.

(** *** The insertion argsort with [<=] is a stable sort *)

Lemma strongly_sorted_nth_error {A} (R : A -> A -> Prop) l i j a b :
  StronglySorted R l -> (i < j)%nat ->
  nth_error l i = Some a -> nth_error l j = Some b -> R a b.
Proof.
  intros Hs. revert i j. induction Hs as [|x l Hs IH Hall]; intros i j Hij Ha Hb.
  - by destruct i.
  - destruct j as [|j]; [lia|]. destruct i as [|i]; simpl in Ha, Hb.
    + injection Ha as <-. rewrite Forall_forall in Hall.
      apply Hall, list_elem_of_In. by apply nth_error_In in Hb.
    + apply (IH i j); [lia|done..].
Qed.

Lemma insert_pair_stable p l :
  StronglySorted Spec.by_value_then_position l ->
  Forall (fun q => (fst p < fst q)%nat) l ->
  StronglySorted Spec.by_value_then_position (Demo.insert_pair Z.leb p l).
Proof.
  intros Hs Hlt. induction Hs as [|p' l Hs IH Hall]; simpl.
  - by repeat constructor.
  - apply Forall_cons in Hlt as [Hp' Hlt].
    destruct (snd p <=? snd p') eqn:Hle.
    + apply Z.leb_le in Hle. constructor; [by constructor|].
      constructor; [unfold Spec.by_value_then_position; lia|].
      rewrite Forall_forall in Hall, Hlt |- *. intros q Hq.
      specialize (Hall q Hq). specialize (Hlt q Hq).
      unfold Spec.by_value_then_position in *. lia.
    + apply Z.leb_gt in Hle. constructor; [by apply IH|].
      rewrite (insert_pair_perm Z.leb p l). constructor; [|done].
      unfold Spec.by_value_then_position. lia.
Qed.

Lemma sort_pairs_stable start n (a : list Z) :
  let sorted :=
    fold_right (Demo.insert_pair Z.leb) [] (combine (seq start n) a) in
  StronglySorted Spec.by_value_then_position sorted
  /\ Forall (fun q => (start <= fst q)%nat) sorted.
Proof.
  revert start a. induction n as [|n IH]; intros start a; simpl.
  - split; constructor.
  - destruct a as [|x a]; simpl; [split; constructor|].
    destruct (IH (S start) a) as [Hs Hge]. split.
    + apply insert_pair_stable; [done|].
      eapply Forall_impl; [exact Hge|]. intros q Hq. simpl in *. lia.
    + rewrite (insert_pair_perm Z.leb (start, x)). constructor; [simpl; lia|].
      eapply Forall_impl; [exact Hge|]. intros q Hq. simpl in *. lia.
Qed.

Lemma argsort_stable_keeps_ties : Spec.keeps_ties Demo.argsort_stable.
Proof.
  intros a i j x y Hij Hx Hy Heq.
  unfold Demo.argsort_stable, Demo.argsort_with in Hx, Hy.
  set (sorted := fold_right (Demo.insert_pair Z.leb) []
                   (combine (seq 0 (length a)) a)) in *.
  destruct (sort_pairs_stable 0 (length a) a) as [Hs _]. fold sorted in Hs.
  assert (Forall (fun p : nat * Z => nth (fst p) a 0 = snd p) sorted) as Hall.
  { unfold sorted. rewrite (sort_pairs_perm Z.leb). apply combine_seq_nth. }
  rewrite nth_error_map in Hx, Hy.
  destruct (nth_error sorted i) as [p|] eqn:Hp; [|done].
  destruct (nth_error sorted j) as [q|] eqn:Hq; [|done].
  simpl in Hx, Hy. injection Hx as <-. injection Hy as <-.
  pose proof (strongly_sorted_nth_error _ _ _ _ _ _ Hs Hij Hp Hq) as Hpq.
  rewrite Forall_forall in Hall.
  pose proof (Hall p (proj2 (list_elem_of_In _ _) (nth_error_In _ _ Hp))) as Hvp.
  pose proof (Hall q (proj2 (list_elem_of_In _ _) (nth_error_In _ _ Hq))) as Hvq.
  cbv beta in Hvp, Hvq. unfold Spec.by_value_then_position in Hpq. lia.
Qed.


(** ** The query service: candidates *)

Lemma filter_twice {A} (f g : A -> bool) (l : list A) :
  List.filter f (List.filter g l) = List.filter (fun x => g x && f x) l.
Proof.
  induction l as [|x l IH]; simpl; [done|].
  destruct (g x); simpl; [|done]. destruct (f x); by rewrite IH.
Qed.

Lemma filter_all {A} (l : list A) : List.filter (fun _ => true) l = l.
Proof. induction l as [|x l IH]; simpl; [done|]. by rewrite IH. Qed.

Lemma apply_category_filters_filter idx qy l :
  Service.apply_category_filters idx qy l = List.filter (Spec.passes_all idx qy) l.
Proof.
  unfold Service.apply_category_filters, Spec.passes_all.
  generalize (Service.category_filters qy). intros fs. revert l.
  induction fs as [|[cat fv] fs IH]; intros l; simpl.
  - by rewrite filter_all.
  - rewrite IH. unfold Spec.passes at 2.
    destruct (Service.supplied fv) as [f|].
    + by rewrite filter_twice.
    + done.
Qed.

Lemma startswith_prefix p s :
  Py.startswith p s = true <-> exists post, s = p +:+ post.
Proof.
  revert s. induction p as [|a p IH]; intros s; simpl.
  - split; [|done]. intros _. by exists s.
  - destruct s as [|b s].
    + split; [done|]. by intros (post & ?).
    + destruct (Ascii.eqb a b) eqn:E.
      * apply Ascii.eqb_eq in E as <-. rewrite IH. split.
        -- intros (post & ->). by exists post.
        -- intros (post & Hs). rewrite string_app_cons in Hs.
           injection Hs as ->. by exists post.
      * apply Ascii.eqb_neq in E. split; [done|].
        intros (post & Hs). rewrite string_app_cons in Hs. congruence.
Qed.

Lemma contains_substring p s :
  Py.contains p s = true <-> exists pre post, s = pre +:+ p +:+ post.
Proof.
  induction s as [|c s IH].
  - simpl. rewrite orb_false_r, startswith_prefix. split.
    + intros (post & Hs). by exists "", post.
    + intros (pre & post & Hs). destruct pre; [by exists post|done].
  - cbn [Py.contains]. rewrite orb_true_iff, startswith_prefix, IH. split.
    + intros [(post & Hs)|(pre & post & ->)].
      * by exists "", post.
      * by exists (String c pre), post.
    + intros (pre & post & Hs). destruct pre as [|c' pre].
      * left. by exists post.
      * right. rewrite string_app_cons in Hs. injection Hs as -> ->.
        by exists pre, post.
Qed.

(** A record that passes all filters of a query that filters category [c]
    by [f] holds [f] in its value of [c], whatever the letter case. *)
Lemma passes_all_holds idx qy c f i :
  In c (Py.dict_keys (Service.category_filters qy)) -> f <> "" ->
  Spec.passes_all idx (Service.set_category_filter c (Some f) qy) i = true ->
  Spec.holds_ignoring_case (Service.item c (Service.record_at idx i)) f.
Proof.
  intros Hc Hf Hpass.
  assert (Spec.passes idx c (Some f) i = true) as Hone.
  { unfold Spec.passes_all, Service.category_filters,
      Service.set_category_filter in Hpass.
    cbn [forallb Service.marine_mammals Service.sharks_rays Service.reptiles
         Service.fish Service.birds Service.invertebrates_habitat
         Service.survey_types Service.places Service.data_types
         Service.conservation] in Hpass.
    simpl in Hc.
    repeat (apply andb_prop in Hpass as [? Hpass]).
    repeat destruct Hc as [<-|Hc]; try done. }
  unfold Spec.passes, Service.supplied in Hone.
  rewrite (truthy_nonempty _ Hf) in Hone.
  by apply contains_substring in Hone.
Qed.

Lemma passes_pick idx i n c1 c2 f1 f2 old :
  c1 <> c2 ->
  Spec.passes idx n
    (if String.eqb c1 n then Some f1 else if String.eqb c2 n then Some f2 else old) i
  = Spec.passes idx n
      (if String.eqb c1 n then Some f1 else if String.eqb c2 n then None else old) i
    && Spec.passes idx n
         (if String.eqb c2 n then Some f2 else if String.eqb c1 n then None else old) i.
Proof.
  intros Hne.
  destruct (String.eqb c1 n) eqn:E1; destruct (String.eqb c2 n) eqn:E2.
  - apply String.eqb_eq in E1, E2. congruence.
  - by rewrite andb_true_r.
  - done.
  - by destruct (Spec.passes idx n old i).
Qed.

Lemma passes_all_both idx qy c1 c2 f1 f2 i :
  c1 <> c2 ->
  Spec.passes_all idx
    (Service.set_category_filter c1 (Some f1)
       (Service.set_category_filter c2 (Some f2) qy)) i
  = Spec.passes_all idx
      (Service.set_category_filter c1 (Some f1)
         (Service.set_category_filter c2 None qy)) i
    && Spec.passes_all idx
         (Service.set_category_filter c2 (Some f2)
            (Service.set_category_filter c1 None qy)) i.
Proof.
  intros Hne. unfold Spec.passes_all, Service.category_filters,
    Service.set_category_filter.
  cbn [forallb Service.marine_mammals Service.sharks_rays Service.reptiles
       Service.fish Service.birds Service.invertebrates_habitat
       Service.survey_types Service.places Service.data_types
       Service.conservation].
  rewrite !(passes_pick idx i _ c1 c2 f1 f2) by done.
  btauto.
Qed.

Section ServiceFacts.

Variable pattern : Type.
Variable re_compile : string -> Service.outcome pattern.
Variable re_search : pattern -> string -> bool.
Variable embed : string -> list Z.
Variable dot : list Z -> list Z -> Z.
Variable argsort : list Z -> list nat.
Variable round4 : Z -> Z.

Local Abbreviation candidates := (Service.candidates pattern re_compile re_search).
Local Abbreviation apply_include := (Service.apply_include pattern re_compile re_search).
Local Abbreviation apply_exclude := (Service.apply_exclude pattern re_compile re_search).
Local Abbreviation rank := (Service.rank embed dot argsort).
Local Abbreviation search :=
  (Service.search pattern re_compile re_search embed dot argsort round4).
Local Abbreviation handle_search :=
  (Service.handle_search pattern re_compile re_search embed dot argsort round4).
Local Abbreviation raises_re_error := (Spec.raises_re_error re_compile).
Local Abbreviation raises_other := (Spec.raises_other re_compile).
Local Abbreviation usable := (Spec.usable re_compile).

Lemma apply_include_usable idx qy :
  usable (Service.include qy) ->
  exists keep, forall l, apply_include idx qy l = Service.Next (List.filter keep l).
Proof.
  unfold Service.apply_include. intros [->|(p & r & -> & ->)].
  - exists (fun _ => true). intros l. by rewrite filter_all.
  - by eexists.
Qed.

Lemma apply_exclude_usable idx qy :
  usable (Service.exclude qy) ->
  exists keep, forall l, apply_exclude idx qy l = Service.Next (List.filter keep l).
Proof.
  unfold Service.apply_exclude. intros [->|(p & r & -> & ->)].
  - exists (fun _ => true). intros l. by rewrite filter_all.
  - by eexists.
Qed.

(** With usable patterns the candidates are the records that pass the
    category filters and a test that does not look at those filters. *)
Lemma candidates_usable idx qy :
  usable (Service.include qy) -> usable (Service.exclude qy) ->
  exists keep,
    forall qy',
      Service.file_type qy' = Service.file_type qy ->
      Service.include qy' = Service.include qy ->
      Service.exclude qy' = Service.exclude qy ->
      candidates idx qy'
      = Service.Next
          (List.filter (fun i => Spec.passes_all idx qy' i && keep i)
             (seq 0 (length (Service.records idx)))).
Proof.
  intros Hinc Hexc.
  destruct (apply_include_usable idx qy Hinc) as (ki & Hki).
  destruct (apply_exclude_usable idx qy Hexc) as (ke & Hke).
  set (kt := fun i =>
         match Service.supplied (Service.file_type qy) with
         | Some ft => String.eqb (Service.item "file_type" (Service.record_at idx i)) ft
         | None => true
         end).
  exists (fun i => (kt i && ki i) && ke i).
  intros qy' Ht Hi He. unfold Service.candidates.
  assert (forall l, apply_include idx qy' l = apply_include idx qy l) as ->.
  { intros l. unfold Service.apply_include. by rewrite Hi. }
  rewrite Hki.
  assert (forall l, apply_exclude idx qy' l = apply_exclude idx qy l) as ->.
  { intros l. unfold Service.apply_exclude. by rewrite He. }
  rewrite Hke. f_equal.
  rewrite apply_category_filters_filter.
  assert (forall l, Service.apply_file_type idx qy' l = List.filter kt l) as ->.
  { intros l. unfold Service.apply_file_type, kt. rewrite Ht.
    destruct (Service.supplied (Service.file_type qy)); [done|].
    by rewrite filter_all. }
  rewrite !filter_twice. apply filter_ext. intros i.
  by rewrite !andb_assoc.
Qed.

(** C2: for two different categories, the candidates of a query that
    carries a filter value for each of them are exactly the records that
    are candidates of the query with the first filter only and of the
    query with the second filter only, everything else in the three
    queries being equal; a candidate of a query with a filter holds the
    filter value as a substring of its stored category value when letter
    case is ignored. *)
Theorem category_filters_intersect idx qy c1 c2 f1 f2 :
  c1 <> c2 ->
  usable (Service.include qy) -> usable (Service.exclude qy) ->
  let q_both :=
    Service.set_category_filter c1 (Some f1)
      (Service.set_category_filter c2 (Some f2) qy) in
  let q_first :=
    Service.set_category_filter c1 (Some f1)
      (Service.set_category_filter c2 None qy) in
  let q_second :=
    Service.set_category_filter c2 (Some f2)
      (Service.set_category_filter c1 None qy) in
  exists both first second,
    candidates idx q_both = Service.Next both
    /\ candidates idx q_first = Service.Next first
    /\ candidates idx q_second = Service.Next second
    /\ (forall i, In i both <-> In i first /\ In i second)
    /\ (forall i, In c1 BuildIndex.CATEGORIES -> f1 <> "" -> In i first ->
          Spec.holds_ignoring_case (Service.item c1 (Service.record_at idx i)) f1)
    /\ (forall i, In c2 BuildIndex.CATEGORIES -> f2 <> "" -> In i second ->
          Spec.holds_ignoring_case (Service.item c2 (Service.record_at idx i)) f2)
    /\ both = List.filter (fun i => bool_decide (i ∈ second)) first.
Proof using pattern re_compile re_search.
  clear embed dot argsort round4.
  intros Hne Hinc Hexc q_both q_first q_second.
  destruct (candidates_usable idx qy Hinc Hexc) as (keep & Hkeep).
  set (all := seq 0 (length (Service.records idx))) in Hkeep |- *.
  exists (List.filter (fun i => Spec.passes_all idx q_both i && keep i) all),
         (List.filter (fun i => Spec.passes_all idx q_first i && keep i) all),
         (List.filter (fun i => Spec.passes_all idx q_second i && keep i) all).
  split; [by apply Hkeep|]. split; [by apply Hkeep|]. split; [by apply Hkeep|].
  assert (forall i, Spec.passes_all idx q_both i
                    = Spec.passes_all idx q_first i && Spec.passes_all idx q_second i)
    as Hboth by (intros i; by apply passes_all_both).
  split; [|split; [|split]].
  - intros i. rewrite !filter_In, Hboth, !andb_true_iff. tauto.
  - intros i Hc Hf [_ [Hpass _]%andb_prop]%filter_In.
    exact (passes_all_holds idx (Service.set_category_filter c2 None qy)
             c1 f1 i Hc Hf Hpass).
  - intros i Hc Hf [_ [Hpass _]%andb_prop]%filter_In.
    exact (passes_all_holds idx (Service.set_category_filter c1 None qy)
             c2 f2 i Hc Hf Hpass).
  - rewrite filter_twice. apply filter_ext_in. intros i Hi.
    rewrite Hboth.
    destruct (Spec.passes_all idx q_first i) eqn:H1; [|done].
    destruct (keep i) eqn:Hk; [|by rewrite !andb_false_r].
    destruct (Spec.passes_all idx q_second i) eqn:H2; simpl; symmetry.
    + apply bool_decide_eq_true, list_elem_of_In, filter_In.
      by rewrite H2, Hk.
    + apply bool_decide_eq_false. rewrite list_elem_of_In, filter_In, H2.
      by intros [_ ?].
Qed.


(** C6 (code bug): [search] catches [re.error] and nothing else.  When
    [re.compile] raises another exception for the include pattern, or for
    the exclude pattern after a usable include pattern, that exception
    leaves [search]: the handler returns no error payload. *)
Theorem compile_exception_escapes idx qy e :
  raises_other (Service.include qy) e
  \/ (usable (Service.include qy) /\ raises_other (Service.exclude qy) e) ->
  handle_search idx qy = (idx, Service.Raise e)
  /\ forall message,
       Service.search pattern re_compile re_search embed dot argsort round4 idx qy
       <> Service.Return (Service.Error message).
Proof.
  intros H.
  assert (handle_search idx qy = (idx, Service.Raise e)) as Hraise.
  { unfold Service.handle_search, Service.search, Service.candidates.
    destruct H as [(p & Hp & Hc & He)|[Hinc (p & Hp & Hc & He)]].
    - unfold Service.apply_include. rewrite Hp, Hc.
      destruct e as [msg| |name]; [by destruct (He msg)|done..].
    - destruct (apply_include_usable idx qy Hinc) as (keep & ->).
      unfold Service.apply_exclude. rewrite Hp, Hc.
      destruct e as [msg| |name]; [by destruct (He msg)|done..]. }
  split; [done|]. intros message Hpayload.
  unfold Service.handle_search in Hraise. injection Hraise as Hraise.
  rewrite Hraise in Hpayload. discriminate.
Qed.

(** *** Ranking and the result payload *)

Lemma candidates_returns idx qy p :
  candidates idx qy = Service.Returns p -> exists message, p = Service.Error message.
Proof.
  unfold Service.candidates, Service.apply_include, Service.apply_exclude.
  destruct (Service.supplied (Service.include qy)) as [inc|].
  - destruct (re_compile inc) as [r|[msg| |name]]; try done.
    + destruct (Service.supplied (Service.exclude qy)) as [exc|]; [|done].
      destruct (re_compile exc) as [r'|[msg| |name]]; try done.
      intros [= <-]. by eexists.
    + intros [= <-]. by eexists.
  - destruct (Service.supplied (Service.exclude qy)) as [exc|]; [|done].
    destruct (re_compile exc) as [r'|[msg| |name]]; try done.
    intros [= <-]. by eexists.
Qed.

Lemma combine_maps {A B C} (f : A -> B) (g : A -> C) (l : list A) :
  combine (map f l) (map g l) = map (fun x => (f x, g x)) l.
Proof. induction l as [|x l IH]; simpl; [done|]. by rewrite IH. Qed.

(** What [rank] returns for a query with text: the candidates in the
    order [argsort] gives for the negated scores, each with its score. *)
Lemma rank_semantic idx qy cands ri rs :
  Py.truthy (Py.strip (Service.q qy)) = true ->
  rank idx qy cands = Service.Return (ri, rs) ->
  let score := Spec.score_of dot idx (embed (Service.q qy)) in
  let sims := map score cands in
  let order := argsort (map Z.opp sims) in
  (cands = [] /\ ri = [] /\ rs = [])
  \/ (ri = map (fun i => nth i cands 0%nat) order
      /\ rs = map (fun i => Some (nth i sims 0)) order
      /\ (forall i, In i order -> (i < length cands)%nat)).
Proof.
  intros Hq Hrank. cbv zeta. unfold Service.rank in Hrank. rewrite Hq in Hrank.
  destruct cands as [|c cands']; [injection Hrank as <- <-; by left|].
  set (cands := c :: cands') in *. right.
  set (score := Spec.score_of dot idx (embed (Service.q qy))).
  set (sims := map score cands). set (order := argsort (map Z.opp sims)).
  destruct (Service.take_all (Service.embeddings idx) cands) as [ce|e] eqn:Hce;
    [|done].
  apply (take_all_return _ _ _ []) in Hce as [-> _].
  assert (map (fun row => dot row (embed (Service.q qy)))
            (map (fun i => nth i (Service.embeddings idx) []) cands) = sims)
    as Hsims by (unfold sims, score; by rewrite map_map).
  rewrite Hsims in Hrank. fold order in Hrank.
  destruct (Service.take_all cands order) as [ri'|e] eqn:Hri; [|done].
  destruct (Service.take_all sims order) as [rs'|e] eqn:Hrs; [|done].
  injection Hrank as <- <-.
  apply (take_all_return _ _ _ 0%nat) in Hri as [-> Hlt].
  apply (take_all_return _ _ _ 0) in Hrs as [-> _].
  by rewrite map_map.
Qed.

Lemma rank_alphabetical idx qy cands ri rs :
  Py.truthy (Py.strip (Service.q qy)) = false ->
  rank idx qy cands = Service.Return (ri, rs) ->
  Permutation ri cands /\ rs = map (fun _ => None) ri.
Proof.
  intros Hq. unfold Service.rank. rewrite Hq. intros [= <- <-].
  split; [apply sorted_by_key_perm|done].
Qed.

Lemma argsort_length a : Spec.argsort_spec argsort -> length (argsort a) = length a.
Proof.
  intros Hsort. destruct (Hsort a) as [Hperm _].
  by rewrite (Permutation_length Hperm), length_seq.
Qed.

Lemma rank_lengths idx qy cands ri rs :
  Spec.argsort_spec argsort ->
  rank idx qy cands = Service.Return (ri, rs) ->
  length ri = length cands /\ length rs = length cands.
Proof.
  intros Hsort Hrank.
  destruct (Py.truthy (Py.strip (Service.q qy))) eqn:Hq.
  - destruct (rank_semantic _ _ _ _ _ Hq Hrank) as [(-> & -> & ->)|(-> & -> & _)];
      [done|].
    by rewrite !length_map, argsort_length, !length_map.
  - destruct (rank_alphabetical _ _ _ _ _ Hq Hrank) as [Hperm ->].
    by rewrite length_map, (Permutation_length Hperm).
Qed.

(** C5 (amended): for a query whose limit is not negative and that gets a
    result payload, [showing] is the smaller of the limit and
    [total_matches], it is the number of result rows, and [total_matches]
    is the number of candidates that passed all filters. *)
Theorem showing_is_min_of_limit_and_total idx qy total showing rows :
  Spec.argsort_spec argsort ->
  0 <= Service.limit qy ->
  search idx qy = Service.Return (Service.Results total showing rows) ->
  Z.of_nat showing = Z.min (Service.limit qy) (Z.of_nat total)
  /\ length rows = showing
  /\ exists cands,
       candidates idx qy = Service.Next cands /\ total = length cands.
Proof.
  intros Hsort Hlimit. unfold Service.search.
  destruct (candidates idx qy) as [cands|p|e] eqn:Hc; [| |done].
  - destruct (rank idx qy cands) as [[ri rs]|e] eqn:Hrank; [|done].
    destruct (rank_lengths _ _ _ _ _ Hsort Hrank) as [Hri Hrs].
    unfold Service.build_results. intros [= <- <- <-].
    rewrite length_map, length_combine, !slice_to_firstn, !length_firstn.
    unfold Spec.slice_length. rewrite Hri, Hrs.
    rewrite (proj2 (Z.leb_le 0 (Service.limit qy)) Hlimit).
    split; [lia|]. split; [done|]. by exists cands.
  - destruct (candidates_returns _ _ _ Hc) as (message & ->). done.
Qed.

Lemma result_row_score idx i s :
  ~ In "score" (Service.categories idx) ->
  Py.dict_get "score" (Service.result_row round4 idx i (Some s))
  = Some (Val.Num (round4 s)).
Proof.
  intros Hnot. unfold Service.result_row.
  generalize (Service.record_at idx i). intros rec.
  assert (forall cats acc,
            ~ In "score" cats ->
            Py.dict_get "score"
              (fold_left
                 (fun result cat =>
                    if Py.truthy (Service.item cat rec)
                    then Py.dict_set cat (Val.Str (Service.item cat rec)) result
                    else result) cats acc)
            = Py.dict_get "score" acc) as Hloop.
  { induction cats as [|cat cats IH]; intros acc Hcats; simpl; [done|].
    rewrite IH by (intros ?; apply Hcats; by right).
    destruct (Py.truthy (Service.item cat rec)); [|done].
    apply dict_get_set_ne. intros <-. apply Hcats. by left. }
  by rewrite Hloop.
Qed.

Lemma scores_of_rows idx (score : nat -> Z) (l : list nat) :
  ~ In "score" (Service.categories idx) ->
  Spec.scores_of
    (map (fun i => Service.result_row round4 idx i (Some (score i))) l)
  = map (fun i => round4 (score i)) l.
Proof.
  intros Hnot. induction l as [|i l IH]; simpl; [done|].
  rewrite (result_row_score idx i (score i) Hnot). simpl. by rewrite IH.
Qed.


(** With usable patterns, an embedding row for every record and an
    [argsort] that meets its contract, [search] returns a result payload. *)
Lemma search_returns_results idx qy :
  Spec.argsort_spec argsort ->
  usable (Service.include qy) -> usable (Service.exclude qy) ->
  (length (Service.records idx) <= length (Service.embeddings idx))%nat ->
  exists total showing rows,
    search idx qy = Service.Return (Service.Results total showing rows).
Proof.
  intros Hsort Hinc Hexc Hrows.
  destruct (candidates_usable idx qy Hinc Hexc) as (keep & Hkeep).
  unfold Service.search. rewrite (Hkeep qy) by done.
  set (cands := List.filter _ _).
  assert (forall i, In i cands -> (i < length (Service.embeddings idx))%nat) as Hlt.
  { intros i Hi. apply filter_In in Hi as [Hi _]. apply in_seq in Hi. lia. }
  assert (exists ri rs, rank idx qy cands = Service.Return (ri, rs))
    as (ri & rs & ->); [|by eexists _, _, _].
  unfold Service.rank.
  destruct (Py.truthy (Py.strip (Service.q qy))); [|by eexists _, _].
  destruct cands as [|c cands'] eqn:Hcands; [by eexists _, _|].
  rewrite <- Hcands in *.
  rewrite (take_all_map _ _ [] Hlt).
  set (sims := map _ (map _ cands)).
  destruct (Hsort (map Z.opp sims)) as [Hp _].
  assert (forall i, In i (argsort (map Z.opp sims)) -> (i < length cands)%nat)
    as Horder.
  { intros i Hi. apply (Permutation_in _ Hp), in_seq in Hi.
    unfold sims in Hi. rewrite !length_map in Hi. lia. }
  rewrite (take_all_map _ _ 0%nat Horder).
  rewrite (take_all_map sims _ 0).
  - by eexists _, _.
  - intros i Hi. unfold sims. rewrite !length_map. by apply Horder.
Qed.

End ServiceFacts.

(** ** Counterexamples to the claims that the code does not meet *)



(** C5, as stated, fails: with the limit -1 and two matching records the
    payload shows one row, and one is not the smaller of -1 and 2. *)
Lemma negative_limit_counterexample :
  match Demo.search Demo.argsort_stable Demo.two_records (Demo.no_filters "" (-1)) with
  | Service.Return (Service.Results total showing rows) =>
      total = 2%nat /\ showing = 1%nat /\ length rows = 1%nat
      /\ Z.of_nat showing <> Z.min (-1) (Z.of_nat total)
  | _ => False
  end.
Proof. vm_compute. repeat split; discriminate. Qed.

(** ** The theorems at concrete inputs *)

Lemma term_matcher_whole_word_witness :
  Spec.occurs_as_token "dugong" "Dugongs near the reef"
  /\ Spec.reported "marine_mammals" "dugong" "Dugongs near the reef".
Proof.
  assert (Spec.occurs_as_token "dugong" "Dugongs near the reef") as Htoken.
  { exists "", "Dugongs", " near the reef".
    split; [by repeat split|]. right. reflexivity. }
  split; [exact Htoken|].
  refine (proj1 (proj1 term_matcher_whole_word "marine_mammals" _ "dugong"
                   "Dugongs near the reef" _ _) Htoken).
  - left. reflexivity.
  - left. reflexivity.
Defined.

Lemma scan_file_reader_error_witness :
  Py.dict_get "status" (Demo.scan_with "ERROR: cannot open" Demo.gdb_target)
  = Some "error"
  /\ Py.dict_get "marine_mammals"
       (Demo.scan_with "ERROR: cannot open" Demo.gdb_target) = Some "".
Proof.
  destruct (scan_file_reader_error (fun _ => "") (fun _ => "ERROR: cannot open")
              (fun _ => "") (fun _ => "") (fun _ => "") (fun _ => None)
              Demo.gdb_target "ERROR: cannot open" eq_refl eq_refl)
    as (Hstatus & _ & Hcats & _).
  split; [exact Hstatus|].
  apply (Hcats "marine_mammals"
           ["dugong"; "dolphin"; "whale"; "manatee"; "porpoise"; "cetacean";
            "bottlenose"; "spinner"; "humpback"; "brydes"; "bryde"; "minke";
            "orca"; "indo-pacific"; "pantropical"; "rissos"; "false killer"]).
  left. reflexivity.
Defined.


Lemma searchable_text_layout_witness :
  PrepareIndex.build_searchable_text (PrepareIndex.csv_xlsx_record Demo.metadata_row)
  = Spec.weighted_text (PrepareIndex.csv_xlsx_record Demo.metadata_row).
Proof.
  refine (proj1 (searchable_text_layout
                   (PrepareIndex.csv_xlsx_record Demo.metadata_row) _ _)).
  - intros H. vm_compute in H. discriminate H.
  - intros H. vm_compute in H. discriminate H.
Defined.

Lemma persisted_searchable_text_witness :
  Py.dict_get "searchable_text"
    (PrepareIndex.strip_searchable_text
       (PrepareIndex.csv_xlsx_record Demo.metadata_row)) = None.
Proof.
  refine (proj1 (proj1 persisted_searchable_text unit Demo.no_vectors
                   Demo.tables_only _ _)).
  left. reflexivity.
Defined.

Lemma index_from_success_rows_witness :
  BuildIndex.main unit Demo.no_vectors
    [Demo.scan_row "success"; Demo.scan_row "error"]
  = BuildIndex.main unit Demo.no_vectors [Demo.scan_row "success"].
Proof.
  destruct (index_from_success_rows unit Demo.no_vectors
              [Demo.scan_row "success"; Demo.scan_row "error"])
    as (_ & _ & _ & _ & Hskip).
  exact (Hskip [Demo.scan_row "success"] (Demo.scan_row "error") [] eq_refl eq_refl).
Defined.

Lemma category_filters_intersect_witness :
  exists both first second,
    Service.candidates string Demo.re_compile Demo.re_search Demo.two_records
      (Service.set_category_filter "marine_mammals" (Some "dugong")
         (Service.set_category_filter "places" (Some "REEF")
            (Demo.no_filters "" 100)))
    = Service.Next both
    /\ (forall i, In i both <-> In i first /\ In i second).
Proof.
  assert (Spec.usable Demo.re_compile None) as Hnone by (left; reflexivity).
  destruct (category_filters_intersect string Demo.re_compile Demo.re_search
              Demo.two_records (Demo.no_filters "" 100)
              "marine_mammals" "places" "dugong" "REEF"
              ltac:(discriminate) Hnone Hnone)
    as (both & first & second & Hboth & _ & _ & Hiff & _).
  exists both, first, second. split; [exact Hboth|exact Hiff].
Defined.


Lemma showing_is_min_of_limit_and_total_witness :
  Z.of_nat 1 = Z.min 1 (Z.of_nat 2).
Proof.
  refine (proj1 (showing_is_min_of_limit_and_total string Demo.re_compile
                   Demo.re_search Demo.embed Demo.dot Demo.argsort_stable Demo.round4
                   Demo.two_records (Demo.no_filters "" 1) 2%nat 1%nat
                   (Demo.rows_of
                      (Demo.search Demo.argsort_stable Demo.two_records
                         (Demo.no_filters "" 1)))
                   argsort_stable_spec _ eq_refl)).
  discriminate.
Defined.


Lemma compile_exception_escapes_witness :
  Demo.re_compile "a{99999999999}"
  = Service.Raise (Service.OtherError "OverflowError")
  /\ Service.handle_search string Demo.re_compile Demo.re_search Demo.embed
       Demo.dot Demo.argsort_stable Demo.round4 Demo.two_records
       Demo.overflow_include
     = (Demo.two_records, Service.Raise (Service.OtherError "OverflowError")).
Proof.
  split; [reflexivity|].
  assert (Spec.raises_other Demo.re_compile
            (Service.include Demo.overflow_include)
            (Service.OtherError "OverflowError")) as Hbad.
  { exists "a{99999999999}". split; [reflexivity|]. split; [reflexivity|].
    intros msg H. discriminate H. }
  exact (proj1 (compile_exception_escapes string Demo.re_compile Demo.re_search
                  Demo.embed Demo.dot Demo.argsort_stable Demo.round4
                  Demo.two_records Demo.overflow_include
                  (Service.OtherError "OverflowError") (or_introl Hbad))).
Defined.

(** * Further properties *)

(** ** The directory walk *)

Lemma tree_ind_all (P : Scan.tree -> Prop) :
  (forall name dirnames filenames,
     Forall P dirnames -> P (Scan.Dir name dirnames filenames)) ->
  forall t, P t.
Proof.
  intros H. fix IH 1. intros [name dirnames filenames]. apply H.
  induction dirnames as [|d ds IHds]; constructor; [apply IH|apply IHds].
Qed.

Lemma file_type_readable ext t :
  Scan.file_type_of ext = Some t <-> In (ext, t) Spec.readable_extensions.
Proof.
  unfold Scan.file_type_of, Spec.readable_extensions. split.
  - destruct (String.eqb ext ".shp") eqn:E1;
      [apply String.eqb_eq in E1 as ->; intros [= <-]; simpl; tauto|].
    destruct (String.eqb ext ".xlsx") eqn:E2;
      [apply String.eqb_eq in E2 as ->; intros [= <-]; simpl; tauto|].
    destruct (String.eqb ext ".xls") eqn:E3;
      [apply String.eqb_eq in E3 as ->; intros [= <-]; simpl; tauto|].
    destruct (String.eqb ext ".csv") eqn:E4;
      [apply String.eqb_eq in E4 as ->; intros [= <-]; simpl; tauto|].
    destruct (String.eqb ext ".pdf") eqn:E5;
      [apply String.eqb_eq in E5 as ->; intros [= <-]; simpl; tauto|].
    destruct (String.eqb ext ".gpx") eqn:E6;
      [apply String.eqb_eq in E6 as ->; intros [= <-]; simpl; tauto|].
    done.
  - intros H. simpl in H.
    repeat destruct H as [H|H]; try done; by injection H as <- <-.
Qed.

Lemma readable_not_skipped ext t :
  In (ext, t) Spec.readable_extensions ->
  existsb (String.eqb ext) Scan.SKIP_EXTENSIONS = false.
Proof.
  intros H. simpl in H.
  repeat destruct H as [H|H]; try done; by injection H as <- <-.
Qed.

Lemma readable_type_known ext t :
  In (ext, t) Spec.readable_extensions ->
  In t Spec.known_types /\ t <> "geodatabase".
Proof.
  intros H. simpl in H.
  repeat destruct H as [H|H]; try done; injection H as <- <-;
    (split; [simpl; tauto|done]).
Qed.

Section WalkerFacts.

Variable join : string -> string -> string.
Variable path_str : string -> string.

Local Abbreviation file_target := (Scan.file_target join).
Local Abbreviation add_files := (Scan.add_files join).
Local Abbreviation add_gdb := (Scan.add_gdb path_str).
Local Abbreviation walk := (Scan.walk join path_str).
Local Abbreviation get_files_to_scan := (Scan.get_files_to_scan join path_str).

(** X1: a file of a scanned directory becomes a scan target exactly when
    its size can be read and is at most 500 MB and its extension, in lower
    case, is one of .shp, .xlsx, .xls, .csv, .pdf and .gpx; the target then
    carries the joined path, the type of that extension and the file name.
    The skip list never changes the outcome. *)
Theorem file_target_iff dirpath filename size fi :
  file_target dirpath (filename, size) = Some fi <->
  exists bytes t,
    size = Some bytes
    /\ (bytes <= 524288000)%N
    /\ In (Py.lower (Scan.splitext filename), t) Spec.readable_extensions
    /\ fi = {| Scan.path := join dirpath filename;
               Scan.type := t;
               Scan.name := filename |}.
Proof.
  unfold Scan.file_target. cbn [fst snd].
  set (ext := Py.lower (Scan.splitext filename)).
  split.
  - destruct (existsb (String.eqb ext) Scan.SKIP_EXTENSIONS); [done|].
    destruct size as [bytes|]; [|done].
    destruct (Scan.MAX_FILE_SIZE_MB * 1024 * 1024 <? bytes)%N eqn:Hsize; [done|].
    destruct (Scan.file_type_of ext) as [t|] eqn:Ht; [|done].
    intros [= <-]. exists bytes, t. split; [done|]. split.
    + apply N.ltb_ge in Hsize. unfold Scan.MAX_FILE_SIZE_MB in Hsize. lia.
    + split; [by apply file_type_readable|done].
  - intros (bytes & t & -> & Hsize & Hext & ->).
    rewrite (readable_not_skipped _ _ Hext).
    assert ((Scan.MAX_FILE_SIZE_MB * 1024 * 1024 <? bytes)%N = false) as ->.
    { apply N.ltb_ge. unfold Scan.MAX_FILE_SIZE_MB. lia. }
    by apply file_type_readable in Hext as ->.
Qed.

Lemma walk_dir dirpath parents name dirnames filenames st :
  walk dirpath parents (Scan.Dir name dirnames filenames) st
  = if Scan.is_gdb name then add_gdb dirpath name st
    else
      fold_left
        (fun st sub =>
           walk (join dirpath (Scan.tree_name sub)) (parents ++ [name]) sub st)
        dirnames
        (if existsb Scan.is_gdb parents then st
         else add_files dirpath filenames st).
Proof.
  cbn [Scan.walk]. destruct (Scan.is_gdb name); [done|].
  generalize (if existsb Scan.is_gdb parents then st
              else add_files dirpath filenames st).
  induction dirnames as [|sub rest IH]; intros st'; [done|].
  cbn [fold_left]. apply IH.
Qed.

(** A property of the walk state that adding a geodatabase and adding the
    files of a directory keep is kept by the whole walk. *)
Lemma walk_keeps (Q : Scan.walk_state -> Prop) :
  (forall dirpath name st,
     Scan.is_gdb name = true -> Q st -> Q (add_gdb dirpath name st)) ->
  (forall dirpath filenames st, Q st -> Q (add_files dirpath filenames st)) ->
  forall t dirpath parents st, Q st -> Q (walk dirpath parents t st).
Proof.
  intros Hgdb Hfiles t. induction t as [name dirnames filenames IH] using tree_ind_all.
  intros dirpath parents st Hst. rewrite walk_dir.
  destruct (Scan.is_gdb name) eqn:Hname; [by apply Hgdb|].
  assert (Q (if existsb Scan.is_gdb parents then st
             else add_files dirpath filenames st)) as Hst'.
  { destruct (existsb Scan.is_gdb parents); [done|by apply Hfiles]. }
  revert Hst'.
  generalize (if existsb Scan.is_gdb parents then st
              else add_files dirpath filenames st).
  induction IH as [|sub rest Hsub _ IHrest]; intros st' Hst'; [done|].
  cbn [fold_left]. apply IHrest. by apply Hsub.
Qed.

Lemma add_files_targets dirpath filenames st :
  Scan.gdb_folders_seen (add_files dirpath filenames st) = Scan.gdb_folders_seen st
  /\ exists new,
       Scan.files_to_scan (add_files dirpath filenames st)
       = Scan.files_to_scan st ++ new
       /\ forall fi, In fi new ->
            In (Scan.type fi) Spec.known_types
            /\ Scan.type fi <> "geodatabase".
Proof.
  unfold Scan.add_files. revert st.
  induction filenames as [|[filename size] rest IH]; intros st; cbn [fold_left].
  - split; [done|]. exists []. by rewrite app_nil_r.
  - destruct (file_target dirpath (filename, size)) as [target|] eqn:Ht;
      [|apply IH].
    destruct (IH {| Scan.files_to_scan := Scan.files_to_scan st ++ [target];
                    Scan.gdb_folders_seen := Scan.gdb_folders_seen st |})
      as (Hseen & new & Hfiles & Hnew).
    apply file_target_iff in Ht as (bytes & t & _ & _ & Hext & Htarget).
    split; [exact Hseen|].
    exists (target :: new). split.
    + rewrite Hfiles. cbn [Scan.files_to_scan]. by rewrite <- app_assoc.
    + intros fi [<-|Hfi]; [|by apply Hnew].
      rewrite Htarget. cbn [Scan.type]. by apply (readable_type_known _ _ Hext).
Qed.

(** X2: every target that [get_files_to_scan] lists has one of the six
    file types that [scan_file] has a reader for, so for a listed target
    that is not a CSV file [scan_file] always gets a text from a reader. *)
Theorem listed_targets_have_readers root_path root_parents root fi :
  In fi (get_files_to_scan root_path root_parents root) ->
  In (Scan.type fi) Spec.known_types
  /\ forall read_shapefile read_geodatabase read_excel read_pdf read_gpx
       read_csv_file,
       Scan.type fi <> "csv" ->
       exists text,
         Scan.read_text read_shapefile read_geodatabase read_excel read_pdf
           read_gpx read_csv_file fi = Some text.
Proof.
  intros Hin.
  assert (In (Scan.type fi) Spec.known_types) as Hknown.
  { revert fi Hin. unfold Scan.get_files_to_scan.
    apply (walk_keeps (fun st => forall fi, In fi (Scan.files_to_scan st) ->
                                   In (Scan.type fi) Spec.known_types)).
    - intros dirpath name st _ Hst fi. unfold Scan.add_gdb.
      case_bool_decide; [apply Hst|]. cbn [Scan.files_to_scan].
      rewrite in_app_iff. intros [?|[<-|[]]]; [by apply Hst|]. simpl. tauto.
    - intros dirpath filenames st Hst fi.
      destruct (add_files_targets dirpath filenames st) as (_ & new & -> & Hnew).
      rewrite in_app_iff. intros [?|?]; [by apply Hst|by apply Hnew].
    - intros fi []. }
  split; [exact Hknown|].
  intros rs rg re rp rx rc Hcsv. unfold Scan.read_text.
  simpl in Hknown.
  repeat destruct Hknown as [Hknown|Hknown]; try done;
    rewrite <- Hknown; cbn; by eexists.
Qed.

(** X3: no geodatabase is listed twice: the paths of the geodatabase
    targets are pairwise different. *)
Theorem geodatabases_listed_once root_path root_parents root :
  NoDup (map Scan.path
           (List.filter Spec.is_geodatabase
              (get_files_to_scan root_path root_parents root))).
Proof.
  unfold Scan.get_files_to_scan.
  apply (walk_keeps
           (fun st =>
              NoDup (map Scan.path
                       (List.filter Spec.is_geodatabase (Scan.files_to_scan st)))
              /\ forall fi, In fi (Scan.files_to_scan st) ->
                   Spec.is_geodatabase fi = true ->
                   Scan.path fi ∈ Scan.gdb_folders_seen st)).
  - intros dirpath name st _ [Hnd Hseen]. unfold Scan.add_gdb.
    case_bool_decide as Hnew; [done|]. cbn [Scan.files_to_scan Scan.gdb_folders_seen].
    split.
    + rewrite List.filter_app, map_app. cbn.
      apply NoDup_app. split; [done|]. split; [|apply NoDup_singleton].
      intros p Hp [<-|[]]%list_elem_of_In. apply Hnew.
      apply list_elem_of_In, in_map_iff in Hp as (fi & <- & Hfi).
      apply filter_In in Hfi as [Hfi Hgdb]. by apply Hseen.
    + intros fi. rewrite in_app_iff. intros [Hfi|[<-|[]]] Hgdb.
      * apply elem_of_union. left. by apply Hseen.
      * apply elem_of_union. right. by apply elem_of_singleton.
  - intros dirpath filenames st [Hnd Hseen].
    destruct (add_files_targets dirpath filenames st) as (-> & new & -> & Hnew).
    assert (List.filter Spec.is_geodatabase new = []) as Hnone.
    { clear -Hnew. induction new as [|fi new IH]; [done|]. cbn [List.filter].
      destruct (Spec.is_geodatabase fi) eqn:Hgdb.
      - apply String.eqb_eq in Hgdb. destruct (Hnew fi (or_introl eq_refl)). done.
      - apply IH. intros fi' Hfi'. apply Hnew. by right. }
    split.
    + by rewrite List.filter_app, Hnone, app_nil_r.
    + intros fi. rewrite in_app_iff. intros [Hfi|Hfi] Hgdb; [by apply Hseen|].
      apply String.eqb_eq in Hgdb. by destruct (Hnew fi Hfi).
  - split; [constructor|]. intros fi [].
Qed.

Lemma prune_name t : Scan.tree_name (Spec.prune t) = Scan.tree_name t.
Proof. destruct t as [name ds fs]. simpl. by destruct (Scan.is_gdb name). Qed.

(** X4: what lies inside a geodatabase directory never reaches the list:
    the walk of a tree gives the same targets as the walk of the tree with
    every geodatabase directory emptied. *)
Theorem geodatabase_content_is_pruned root_path root_parents root :
  get_files_to_scan root_path root_parents root
  = get_files_to_scan root_path root_parents (Spec.prune root).
Proof.
  unfold Scan.get_files_to_scan. f_equal.
  generalize ({| Scan.files_to_scan := []; Scan.gdb_folders_seen := ∅ |}).
  revert root_path root_parents.
  induction root as [name dirnames filenames IH] using tree_ind_all.
  intros dirpath parents st. cbn [Spec.prune].
  destruct (Scan.is_gdb name) eqn:Hname.
  - rewrite !walk_dir. by rewrite Hname.
  - rewrite !walk_dir, Hname.
    generalize (if existsb Scan.is_gdb parents then st
                else add_files dirpath filenames st).
    induction IH as [|sub rest Hsub _ IHrest]; intros st'; [done|].
    cbn [map fold_left]. rewrite prune_name, <- Hsub. apply IHrest.
Qed.

End WalkerFacts.

(** ** The scan record and the counters of the batch *)

Lemma dict_keys_set {V} (k : string) (v : V) (d : Py.dict V) :
  Py.dict_keys (Py.dict_set k v d)
  = if existsb (String.eqb k) (Py.dict_keys d) then Py.dict_keys d
    else Py.dict_keys d ++ [k].
Proof.
  induction d as [|[k' v'] d IH]; simpl; [done|].
  destruct (String.eqb k k') eqn:E; simpl.
  - by apply String.eqb_eq in E as ->.
  - rewrite IH. by destruct (existsb (String.eqb k) (Py.dict_keys d)).
Qed.

Lemma dict_keys_loop {V E} (key : E -> string) (val : E -> V)
    (f : Py.dict V -> E -> Py.dict V) :
  (forall acc e, f acc e = Py.dict_set (key e) (val e) acc) ->
  forall es acc,
    Py.dict_keys (fold_left f es acc)
    = Spec.keys_after (Py.dict_keys acc) (map key es).
Proof.
  intros Hf es. unfold Spec.keys_after.
  induction es as [|e es IH]; intros acc; simpl; [done|].
  by rewrite IH, Hf, dict_keys_set.
Qed.

Lemma fold_left_ext {A B} (f g : A -> B -> A) (l : list B) (a : A) :
  (forall acc e, f acc e = g acc e) -> fold_left f l a = fold_left g l a.
Proof.
  intros H. revert a. induction l as [|e l IH]; intros a; simpl; [done|].
  by rewrite H, IH.
Qed.

Section RecordFacts.

Variables read_shapefile read_geodatabase read_excel read_pdf read_gpx
  : string -> string.
Variable read_csv_file : string -> option string.

Local Abbreviation read_text :=
  (Scan.read_text read_shapefile read_geodatabase read_excel read_pdf read_gpx
     read_csv_file).
Local Abbreviation scan_file :=
  (Scan.scan_file read_shapefile read_geodatabase read_excel read_pdf read_gpx
     read_csv_file).
Local Abbreviation scan_all :=
  (Scan.scan_all read_shapefile read_geodatabase read_excel read_pdf read_gpx
     read_csv_file).
Local Abbreviation scan_step :=
  (Scan.scan_step read_shapefile read_geodatabase read_excel read_pdf read_gpx
     read_csv_file).

(** The two shapes of the record: the five leading entries, then one
    assignment per category whose value depends on the category only. *)
Lemma scan_file_shape fi :
  exists (status error : string) (val : string -> string),
    scan_file fi
    = fold_left
        (fun (result : Py.dict string) (e : string * list string) =>
           Py.dict_set (fst e) (val (fst e)) result)
        Scan.SEARCH_CATEGORIES
        [("file_path", Scan.path fi); ("file_name", Scan.name fi);
         ("file_type", Scan.type fi); ("status", status); ("error", error)]
    /\ ((Scan.is_error_text (read_text fi) = true
         /\ status = "error" /\ error = default "" (read_text fi)
         /\ val = fun _ => "")
        \/ (Scan.is_error_text (read_text fi) = false
            /\ status = "success" /\ error = ""
            /\ val = fun category =>
                 Py.join ", "
                   (Py.sorted
                      (Scan.matches_of
                         (Scan.find_matches_in_text (default "" (read_text fi)))
                         category
                       ∪ Scan.matches_of
                           (Scan.find_matches_in_text (Scan.path fi)) category)))).
Proof.
  unfold Scan.scan_file.
  destruct (Scan.is_error_text (read_text fi)) eqn:Herr.
  - exists "error", (default "" (read_text fi)), (fun _ => "").
    split; [|left; done].
    apply fold_left_ext. by intros acc [c ts].
  - eexists "success", "", _. split; [|right; done].
    assert ((if Scan.text_truthy (read_text fi)
             then Scan.find_matches_in_text (default "" (read_text fi))
             else Scan.empty_matches)
            = Scan.find_matches_in_text (default "" (read_text fi))) as ->.
    { destruct (read_text fi) as [[|c t]|]; reflexivity. }
    apply fold_left_ext. intros acc [c ts]. cbn [fst]. f_equal.
    case_decide as Hempty; [|done]. by rewrite Hempty, sorted_empty.
Qed.

Lemma scan_file_base_key fi k v status error val :
  In k ["file_path"; "file_name"; "file_type"; "status"; "error"] ->
  Py.dict_get k
    [("file_path", Scan.path fi); ("file_name", Scan.name fi);
     ("file_type", Scan.type fi); ("status", status); ("error", error)] = Some v ->
  Py.dict_get k
    (fold_left
       (fun (result : Py.dict string) (e : string * list string) =>
          Py.dict_set (fst e) (val (fst e)) result)
       Scan.SEARCH_CATEGORIES
       [("file_path", Scan.path fi); ("file_name", Scan.name fi);
        ("file_type", Scan.type fi); ("status", status); ("error", error)])
  = Some v.
Proof.
  intros Hk <-.
  apply (dict_get_loop_other fst (fun e => val (fst e)) _ (fun _ _ => eq_refl)).
  intros [c ts] Hin Heq. simpl in Heq. subst.
  by apply (category_not_base_key _ _ Hin).
Qed.

(** X5: [scan_file] returns a record with the same fifteen columns in the
    same order for every target, whether its reader failed or not: the
    five leading columns and one column per configured category.  Its
    status is [error] with the reader's text as error detail when that
    text starts with [ERROR:], and [success] with an empty error detail
    otherwise. *)
Theorem scan_record_columns fi :
  Py.dict_keys (scan_file fi) = Spec.scan_columns
  /\ Py.dict_get "file_path" (scan_file fi) = Some (Scan.path fi)
  /\ Py.dict_get "file_name" (scan_file fi) = Some (Scan.name fi)
  /\ Py.dict_get "file_type" (scan_file fi) = Some (Scan.type fi)
  /\ ((Scan.is_error_text (read_text fi) = true
       /\ Py.dict_get "status" (scan_file fi) = Some "error"
       /\ Py.dict_get "error" (scan_file fi) = read_text fi)
      \/ (Scan.is_error_text (read_text fi) = false
          /\ Py.dict_get "status" (scan_file fi) = Some "success"
          /\ Py.dict_get "error" (scan_file fi) = Some "")).
Proof.
  destruct (scan_file_shape fi) as (status & error & val & -> & Hcases).
  split.
  - rewrite (dict_keys_loop fst (fun e => val (fst e)) _ (fun _ _ => eq_refl)).
    by vm_compute.
  - do 3 (split; [apply scan_file_base_key; [simpl; tauto|reflexivity]|]).
    destruct Hcases as [(Herr & -> & -> & _)|(Herr & -> & -> & _)]; [left|right].
    + split; [done|]. split; [apply scan_file_base_key; [simpl; tauto|done]|].
      rewrite (scan_file_base_key fi "error" (default "" (read_text fi)));
        [|simpl; tauto|done].
      by destruct (read_text fi).
    + split; [done|].
      split; apply scan_file_base_key; (simpl; tauto) || reflexivity.
Qed.

(** X6: a target whose reader gives no text at all -- a CSV file that no
    encoding could read, a target of an unknown type, an empty file -- is
    recorded with status [success], and its category fields hold the terms
    found in its path only. *)
Theorem unread_target_is_success fi :
  read_text fi = None \/ read_text fi = Some "" ->
  Py.dict_get "status" (scan_file fi) = Some "success"
  /\ forall category terms,
       In (category, terms) Scan.SEARCH_CATEGORIES ->
       Py.dict_get category (scan_file fi)
       = Some (Py.join ", "
                 (Py.sorted
                    (Scan.matches_of (Scan.find_matches_in_text (Scan.path fi))
                       category))).
Proof.
  intros Hread.
  assert (Scan.is_error_text (read_text fi) = false) as Hok
    by (by destruct Hread as [-> | ->]).
  assert (default "" (read_text fi) = "") as Hempty
    by (by destruct Hread as [-> | ->]).
  destruct (scan_file_shape fi) as (status & error & val & Hshape & Hcases).
  destruct Hcases as [(Herr & _)|(_ & -> & -> & Hval)]; [congruence|].
  rewrite Hshape. split.
  - apply scan_file_base_key; [simpl; tauto|done].
  - intros category terms Hin.
    rewrite (dict_get_loop_In fst (fun e => val (fst e)) _ (fun _ _ => eq_refl)
               (category, terms));
      [|done|intros [c ts] _ Heq; simpl in Heq; by subst].
    cbn [fst]. rewrite Hval, Hempty, find_matches_empty_text, matches_of_empty.
    do 3 f_equal. apply leibniz_equiv. apply union_empty_l.
Qed.

Lemma error_record_has_no_match fi :
  Py.dict_get "status" (scan_file fi) = Some "error" ->
  Scan.has_match (scan_file fi) = false.
Proof.
  destruct (scan_file_shape fi) as (status & error & val & Hshape & Hcases).
  rewrite Hshape. intros Hstatus.
  rewrite (scan_file_base_key fi "status" status) in Hstatus;
    [|simpl; tauto|done].
  injection Hstatus as ->.
  destruct Hcases as [(_ & _ & _ & Hval)|(_ & ? & _)]; [|done].
  unfold Scan.has_match.
  destruct (existsb _ Scan.SEARCH_CATEGORIES) eqn:Hex; [|done].
  apply existsb_exists in Hex as ([c ts] & Hin & Htruthy).
  rewrite (dict_get_loop_In fst (fun e => val (fst e)) _ (fun _ _ => eq_refl)
             (c, ts)) in Htruthy;
    [|done|intros [c' ts'] _ Heq; simpl in Heq; by subst].
  by rewrite Hval in Htruthy.
Qed.

Lemma scan_loop_counters files st :
  let out := fold_left scan_step files st in
  let is_error r := String.eqb (default "" (Py.dict_get "status" r)) "error" in
  Scan.errors out
  = (Scan.errors st + length (List.filter is_error (map scan_file files)))%nat
  /\ Scan.files_with_matches out
     = (Scan.files_with_matches st
        + length (List.filter Scan.has_match (map scan_file files)))%nat.
Proof.
  revert st. induction files as [|fi files IH]; intros st; cbn zeta.
  - simpl. lia.
  - cbn [fold_left map List.filter]. destruct (IH (scan_step st fi)) as [-> ->].
    unfold Scan.scan_step. cbn [Scan.errors Scan.files_with_matches].
    destruct (String.eqb _ "error"); destruct (Scan.has_match (scan_file fi));
      simpl; lia.
Qed.

(** X7: after the batch loop, [errors] is the number of records with
    status [error], [files_with_matches] is the number of records with a
    non-empty category field, and since an error record has no such field
    the two together never exceed the number of targets. *)
Theorem batch_counters files :
  let out := scan_all files in
  let is_error r := String.eqb (default "" (Py.dict_get "status" r)) "error" in
  Scan.errors out = length (List.filter is_error (Scan.results out))
  /\ Scan.files_with_matches out
     = length (List.filter Scan.has_match (Scan.results out))
  /\ length (Scan.results out) = length files
  /\ (Scan.errors out + Scan.files_with_matches out <= length files)%nat.
Proof.
  cbn zeta. rewrite scan_all_results.
  destruct (scan_loop_counters files
              {| Scan.results := []; Scan.errors := 0;
                 Scan.files_with_matches := 0 |}) as [He Hm].
  cbn zeta in He, Hm. unfold Scan.scan_all. rewrite He, Hm. cbn [Scan.errors
    Scan.files_with_matches]. rewrite !Nat.add_0_l.
  split; [done|]. split; [done|]. split; [by rewrite length_map|].
  clear He Hm. induction files as [|fi files IH]; [simpl; lia|].
  cbn [map List.filter length].
  destruct (String.eqb (default "" (Py.dict_get "status" (scan_file fi))) "error")
    eqn:Hstatus.
  - assert (Scan.has_match (scan_file fi) = false) as ->.
    { apply error_record_has_no_match. apply String.eqb_eq in Hstatus.
      destruct (Py.dict_get "status" (scan_file fi)); simpl in Hstatus;
        [by subst|done]. }
    simpl. lia.
  - destruct (Scan.has_match (scan_file fi)); simpl; lia.
Qed.

End RecordFacts.

Lemma matched_term_is_configured category term text :
  Spec.reported category term text ->
  exists terms, In (category, terms) Scan.SEARCH_CATEGORIES /\ In term terms.
Proof.
  unfold Spec.reported, Scan.matches_of.
  destruct (Py.dict_get category (Scan.find_matches_in_text text)) as [found|] eqn:Hget.
  2:{ intros H. by apply not_elem_of_empty in H. }
  simpl. intros Hterm. apply dict_get_In in Hget.
  unfold Scan.find_matches_in_text in Hget.
  destruct (negb (Py.truthy text)).
  - assert (Forall (fun e : string * gset string => snd e = ∅) Scan.empty_matches)
      as Hall by (apply (bool_decide_unpack _); by vm_compute).
    rewrite Forall_forall in Hall.
    specialize (Hall _ (proj2 (list_elem_of_In _ _) Hget)). simpl in Hall. subst.
    by apply not_elem_of_empty in Hterm.
  - set (f := fun (results : Py.dict (gset string))
                '((category, patterns) : string * Py.dict (option Re.compiled)) =>
                Py.dict_set category (Scan.found_terms patterns text) results)
      in Hget.
    apply (loop_In fst (fun e => Scan.found_terms (snd e) text) f) in Hget;
      [|by intros acc [c ps]].
    destruct Hget as [([c ps] & Hin & -> & ->)|[]]. cbn [fst snd] in *.
    apply found_terms_elem in Hterm as (p & Hp & _).
    unfold Scan.CATEGORY_PATTERNS in Hin.
    set (g := fun (acc : Py.dict (Py.dict (option Re.compiled)))
                '((category, terms) : string * list string) =>
                Py.dict_set category (Scan.compile_terms terms) acc) in Hin.
    apply (loop_In fst (fun e => Scan.compile_terms (snd e)) g) in Hin;
      [|by intros acc [c' ts]].
    destruct Hin as [([c' ts] & Hin & Hc & Hps)|[]]. cbn [fst snd] in *. subst.
    exists ts. split; [done|]. by apply compile_terms_In in Hp as [? _].
Qed.

(** X8: the matcher never reports a term that is not configured for the
    category: every term in the set of a category is one of the terms
    listed for that category in [SEARCH_CATEGORIES]. *)
Theorem reported_terms_are_configured category term text :
  Spec.reported category term text ->
  exists terms, In (category, terms) Scan.SEARCH_CATEGORIES /\ In term terms.
Proof. apply matched_term_is_configured. Qed.

(** ** Terms that a user adds to the configuration *)

Lemma special_facts c :
  Re.is_special c = true ->
  Ascii.eqb c "b"%char = false
  /\ (Re.is_ascii_alnum c || Ascii.eqb c "_"%char) = false.
Proof. destruct c as [[] [] [] [] [] [] [] []]; vm_compute; (done || by split). Qed.

Lemma plain_facts c :
  Re.is_special c = false ->
  Re.is_meta c = false /\ c <> "\"%char /\ c <> "?"%char.
Proof.
  destruct c as [[] [] [] [] [] [] [] []]; vm_compute; try done;
    intros _; repeat split; discriminate.
Qed.

Lemma parse_backslash c rest :
  Re.parse (String "\"%char (String c rest))
  = if Ascii.eqb c "b"%char then
      match Re.next_char rest with
      | Some "?"%char => None
      | _ => option_map (cons Re.Boundary) (Re.parse rest)
      end
    else if Re.is_ascii_alnum c || Ascii.eqb c "_"%char then None
    else
      match rest with
      | String "?"%char rest' => option_map (cons (Re.OptLiteral c)) (Re.parse rest')
      | _ => option_map (cons (Re.Literal c)) (Re.parse rest)
      end.
Proof.
  cbn [Re.parse]. destruct (Ascii.eqb c "b"%char); [|done].
  destruct rest as [|d rest']; [done|].
  by destruct d as [[] [] [] [] [] [] [] []].
Qed.

Lemma parse_plain c rest :
  c <> "\"%char ->
  Re.parse (String c rest)
  = if Re.is_meta c then None
    else
      match rest with
      | String "?"%char rest' => option_map (cons (Re.OptLiteral c)) (Re.parse rest')
      | _ => option_map (cons (Re.Literal c)) (Re.parse rest)
      end.
Proof.
  intros Hc. destruct c as [[] [] [] [] [] [] [] []]; try done;
    destruct rest; reflexivity.
Qed.

Lemma not_question_literal (c : ascii) (rest : string) :
  Re.next_char rest <> Some "?"%char ->
  match rest with
  | String "?"%char rest' => option_map (cons (Re.OptLiteral c)) (Re.parse rest')
  | _ => option_map (cons (Re.Literal c)) (Re.parse rest)
  end
  = option_map (cons (Re.Literal c)) (Re.parse rest).
Proof.
  destruct rest as [|d rest']; [done|]. cbn [Re.next_char]. intros Hd.
  destruct d as [[] [] [] [] [] [] [] []]; try reflexivity. by destruct Hd.
Qed.

Lemma escape_no_question t rest :
  Re.next_char rest <> Some "?"%char ->
  Re.next_char (Re.escape t +:+ rest) <> Some "?"%char.
Proof.
  intros Hrest. destruct t as [|c t]; [done|]. cbn [Re.escape].
  destruct (Re.is_special c) eqn:Hc; rewrite string_app_cons; cbn [Re.next_char].
  - discriminate.
  - intros [= ->]. by vm_compute in Hc.
Qed.

(** [re.escape] followed by the parser gives back the characters of the
    text as literals. *)
Lemma parse_escape t rest ns :
  Re.next_char rest <> Some "?"%char ->
  Re.parse rest = Some ns ->
  Re.parse (Re.escape t +:+ rest) = Some (Spec.literals t ++ ns).
Proof.
  intros Hrest Hns. induction t as [|c t IH]; [done|].
  cbn [Re.escape Spec.literals].
  pose proof (escape_no_question t rest Hrest) as Hnext.
  destruct (Re.is_special c) eqn:Hc.
  - destruct (special_facts c Hc) as [Hb Halnum].
    rewrite !string_app_cons, parse_backslash, Hb, Halnum.
    by rewrite not_question_literal, IH.
  - destruct (plain_facts c Hc) as (Hmeta & Hback & _).
    rewrite string_app_cons, parse_plain, Hmeta by done.
    by rewrite not_question_literal, IH.
Qed.

Lemma term_pattern_compiles term :
  Re.compile_ignorecase (Scan.term_pattern term)
  = Some {| Re.nodes := Spec.term_nodes term; Re.ignorecase := true |}.
Proof.
  unfold Re.compile_ignorecase, Scan.term_pattern, Spec.term_nodes.
  change ("\b" +:+ Re.escape term +:+ "s?\b")
    with (String "\"%char (String "b"%char (Re.escape term +:+ "s?\b"))).
  rewrite parse_backslash. cbn [Ascii.eqb Bool.eqb].
  pose proof (escape_no_question term "s?\b" ltac:(discriminate)) as Hnext.
  rewrite (parse_escape term "s?\b" [Re.OptLiteral "s"%char; Re.Boundary])
    by (discriminate || reflexivity).
  destruct (Re.next_char (Re.escape term +:+ "s?\b")) as [d|]; [|done].
  destruct d as [[] [] [] [] [] [] [] []]; try reflexivity. by destruct Hnext.
Qed.

(** X9: the pattern that the scanner builds for a term compiles for every
    term, whatever characters it holds, since [re.escape] makes each of
    them a literal; and for every term that begins and ends with a word
    character the compiled pattern is found in a text exactly when the
    term, or the term and one more [s], stands there as a complete token in
    any letter case.  So a term added to the configuration is matched like
    the ones that are there. *)
Theorem added_term_matches_as_token term :
  exists pattern,
    Re.compile_ignorecase (Scan.term_pattern term) = Some pattern
    /\ (Re.is_word_opt (Re.next_char term) = true ->
        Re.is_word_opt (Spec.last_char None term) = true ->
        forall text,
          Scan.pattern_search (Some pattern) text = true
          <-> Spec.occurs_as_token term text).
Proof.
  eexists. split; [apply term_pattern_compiles|].
  intros Hfirst Hlast text.
  unfold Scan.pattern_search, Re.search. cbn [Re.nodes Re.ignorecase].
  by apply search_term_nodes.
Qed.

(** ** Letter case of the scanned text *)

Lemma lower_char_idempotent c : Py.lower_char (Py.lower_char c) = Py.lower_char c.
Proof. by destruct c as [[] [] [] [] [] [] [] []]. Qed.

Lemma at_boundary_lower prev s :
  Re.at_boundary (option_map Py.lower_char prev) (Py.lower s)
  = Re.at_boundary prev s.
Proof.
  unfold Re.at_boundary. f_equal.
  - destruct prev; simpl; [apply is_word_lower_char|done].
  - destruct s; simpl; [done|apply is_word_lower_char].
Qed.

Lemma match_here_lower p prev s :
  Re.match_here true p (option_map Py.lower_char prev) (Py.lower s)
  = Re.match_here true p prev s.
Proof.
  revert prev s. induction p as [|n p IH]; intros prev s; [done|].
  destruct n as [|c|c]; cbn [Re.match_here].
  - by rewrite at_boundary_lower, IH.
  - destruct s as [|d s]; [done|]. cbn [Py.lower].
    rewrite <- (IH (Some d) s). unfold Re.char_matches.
    by rewrite lower_char_idempotent.
  - rewrite IH. destruct s as [|d s]; [done|]. cbn [Py.lower].
    rewrite <- (IH (Some d) s). unfold Re.char_matches.
    by rewrite lower_char_idempotent.
Qed.

Lemma search_from_lower p prev s :
  Re.search_from true p (option_map Py.lower_char prev) (Py.lower s)
  = Re.search_from true p prev s.
Proof.
  revert prev. induction s as [|d s IH]; intros prev; cbn [Re.search_from Py.lower].
  - f_equal. apply (match_here_lower p prev "").
  - rewrite <- (IH (Some d)). f_equal. apply (match_here_lower p prev (String d s)).
Qed.

Lemma found_terms_ext patterns text text' :
  (forall term p, In (term, p) patterns ->
     Scan.pattern_search p text = Scan.pattern_search p text') ->
  Scan.found_terms patterns text = Scan.found_terms patterns text'.
Proof.
  unfold Scan.found_terms. generalize (∅ : gset string).
  induction patterns as [|[t p] patterns IH]; intros acc H; [done|].
  cbn [fold_left]. rewrite (H t p) by (by left).
  apply IH. intros term p' Hin. apply (H term p'). by right.
Qed.

(** X10: for a text of Latin-1 characters (every code point below 256)
    the letter case does not matter: the text in lower case gives the same
    set of terms for every category.  Outside Latin-1 this is not so:
    [re.IGNORECASE] lets [i] match U+0130, whose [str.lower()] is [i]
    followed by a combining dot. *)
Theorem matches_ignore_text_case codes text :
  Spec.latin1_text codes = Some text ->
  Scan.find_matches_in_text (Py.lower text) = Scan.find_matches_in_text text.
Proof.
  intros _. unfold Scan.find_matches_in_text.
  assert (Py.truthy (Py.lower text) = Py.truthy text) as -> by (by destruct text).
  destruct (negb (Py.truthy text)); [done|].
  assert (Forall (fun e : string * Py.dict (option Re.compiled) =>
            Forall (fun tp : string * option Re.compiled =>
                      match snd tp with
                      | Some r => Re.ignorecase r = true
                      | None => True
                      end) (snd e)) Scan.CATEGORY_PATTERNS) as Hic.
  { assert (forallb (fun e : string * Py.dict (option Re.compiled) =>
              forallb (fun tp : string * option Re.compiled =>
                         match snd tp with
                         | Some r => Re.ignorecase r
                         | None => true
                         end) (snd e)) Scan.CATEGORY_PATTERNS = true) as Hb
      by (by vm_compute).
    rewrite forallb_forall in Hb. apply Forall_forall. intros e He.
    apply list_elem_of_In, Hb in He. rewrite forallb_forall in He.
    apply Forall_forall. intros tp Htp. apply list_elem_of_In, He in Htp.
    by destruct (snd tp). }
  revert Hic. generalize (@nil (string * gset string)).
  induction Scan.CATEGORY_PATTERNS as [|[c ps] rest IH]; intros acc Hic; [done|].
  cbn [fold_left]. inversion Hic as [|? ? Hps Hrest]; subst.
  rewrite (found_terms_ext ps (Py.lower text) text); [by apply IH|].
  intros term p Hin. cbn [snd] in Hps. rewrite Forall_forall in Hps.
  specialize (Hps _ (proj2 (list_elem_of_In _ _) Hin)). cbn [snd] in Hps.
  destruct p as [r|]; [|done]. unfold Scan.pattern_search, Re.search.
  rewrite Hps. apply (search_from_lower (Re.nodes r) None text).
Qed.

(** ** The query service: candidate set, ranking without text, limits *)

Lemma filter_seq_ascending (f : nat -> bool) start len :
  StronglySorted lt (List.filter f (seq start len)).
Proof.
  revert start. induction len as [|len IH]; intros start; simpl; [constructor|].
  destruct (f start); [|apply IH].
  constructor; [apply IH|].
  apply Forall_forall. intros i Hi.
  apply list_elem_of_In, filter_In in Hi as [Hi _]. apply in_seq in Hi. lia.
Qed.

Lemma passes_all_iff idx qy i :
  Spec.passes_all idx qy i = true <->
  forall cat fv f,
    In (cat, fv) (Service.category_filters qy) ->
    Service.supplied fv = Some f ->
    Spec.holds_ignoring_case (Service.item cat (Service.record_at idx i)) f.
Proof.
  unfold Spec.passes_all. rewrite forallb_forall. split.
  - intros H cat fv f Hin Hf. specialize (H _ Hin). cbn in H.
    unfold Spec.passes in H. rewrite Hf in H. by apply contains_substring in H.
  - intros H [cat fv] Hin. unfold Spec.passes.
    destruct (Service.supplied fv) as [f|] eqn:Hf; [|done].
    apply contains_substring. by apply (H cat fv f).
Qed.

Lemma supplied_idempotent o : Service.supplied (Service.supplied o) = Service.supplied o.
Proof. destruct o as [[|c s]|]; reflexivity. Qed.

Lemma take_all_raises {A} (l : list A) (order : list nat) i :
  In i order -> (length l <= i)%nat ->
  Service.take_all l order = Service.Raise Service.IndexError.
Proof.
  intros Hin Hlen. induction order as [|j order IH]; [done|]. simpl.
  destruct (nth_error l j) as [x|] eqn:Hx; [|done].
  destruct Hin as [->|Hin].
  - apply nth_error_None in Hlen. congruence.
  - by rewrite IH.
Qed.

Lemma insert_by_key_sorted key x l :
  Sorted String.le (map key l) ->
  Sorted String.le (map key (Service.insert_by_key key x l)).
Proof.
  induction l as [|y l IH]; intros Hs; simpl.
  - by repeat constructor.
  - destruct (String.leb (key x) (key y)) eqn:Hxy; simpl.
    + constructor; [done|]. constructor. unfold String.le. by rewrite Hxy.
    + assert (String.le (key y) (key x)) as Hyx.
      { destruct (String.leb_total (key x) (key y)) as [H|H]; [congruence|].
        unfold String.le. by rewrite H. }
      inversion Hs as [|? ? Hs' Hhd]; subst.
      constructor; [by apply IH|].
      destruct l as [|z l]; simpl; [by constructor|].
      destruct (String.leb (key x) (key z)); simpl; constructor; [done|].
      by inversion Hhd.
Qed.

Lemma sorted_by_key_sorted key l :
  Sorted String.le (map key (Service.sorted_by_key key l)).
Proof.
  induction l as [|x l IH]; simpl; [constructor|]. by apply insert_by_key_sorted.
Qed.

Lemma leb_refl_string (a : string) : String.leb a a = true.
Proof.
  pose proof (reflexivity (R := String.le) a) as H. unfold String.le in H.
  by destruct (String.leb a a).
Qed.

Lemma insert_by_key_stable key k x l :
  List.filter (fun i => String.eqb (key i) k) (Service.insert_by_key key x l)
  = List.filter (fun i => String.eqb (key i) k) (x :: l).
Proof.
  induction l as [|y l IH]; [done|]. cbn [Service.insert_by_key].
  destruct (String.leb (key x) (key y)) eqn:Hxy; [done|].
  cbn [List.filter] in *. rewrite IH.
  destruct (String.eqb (key x) k) eqn:Hx; destruct (String.eqb (key y) k) eqn:Hy;
    try done.
  apply String.eqb_eq in Hx, Hy. rewrite Hx, Hy, leb_refl_string in Hxy. done.
Qed.

Lemma sorted_by_key_stable key k l :
  List.filter (fun i => String.eqb (key i) k) (Service.sorted_by_key key l)
  = List.filter (fun i => String.eqb (key i) k) l.
Proof.
  induction l as [|x l IH]; [done|]. cbn [Service.sorted_by_key fold_right].
  rewrite insert_by_key_stable. cbn [List.filter].
  fold (Service.sorted_by_key key l). by rewrite IH.
Qed.

Lemma result_row_fixed_key round4 idx i score k :
  ~ In k (Service.categories idx) ->
  Py.dict_get k (Service.result_row round4 idx i score)
  = match score with
    | Some s => if String.eqb k "score" then Some (Val.Num (round4 s)) else None
    | None => None
    end
    ∪ Py.dict_get k
        [("file_name", Val.Str (Service.item "file_name" (Service.record_at idx i)));
         ("file_path", Val.Str (Service.item "file_path" (Service.record_at idx i)));
         ("file_type", Val.Str (Service.item "file_type" (Service.record_at idx i)))].
Proof.
  intros Hnot. unfold Service.result_row.
  generalize (Service.record_at idx i). intros rec.
  assert (forall cats acc,
            ~ In k cats ->
            Py.dict_get k
              (fold_left
                 (fun result cat =>
                    if Py.truthy (Service.item cat rec)
                    then Py.dict_set cat (Val.Str (Service.item cat rec)) result
                    else result) cats acc)
            = Py.dict_get k acc) as Hloop.
  { induction cats as [|cat cats IH]; intros acc Hcats; simpl; [done|].
    rewrite IH by (intros ?; apply Hcats; by right).
    destruct (Py.truthy (Service.item cat rec)); [|done].
    apply dict_get_set_ne. intros <-. apply Hcats. by left. }
  rewrite Hloop by done.
  destruct score as [s|]; [|by destruct (Py.dict_get k _)].
  destruct (String.eqb k "score") eqn:Hk.
  - apply String.eqb_eq in Hk as ->. by rewrite dict_get_set_eq.
  - apply String.eqb_neq in Hk. rewrite dict_get_set_ne by done.
    by destruct (Py.dict_get k _).
Qed.

Section ServiceFacts2.

Variable pattern : Type.
Variable re_compile : string -> Service.outcome pattern.
Variable re_search : pattern -> string -> bool.
Variable embed : string -> list Z.
Variable dot : list Z -> list Z -> Z.
Variable argsort : list Z -> list nat.
Variable round4 : Z -> Z.

Local Abbreviation candidates := (Service.candidates pattern re_compile re_search).
Local Abbreviation rank := (Service.rank embed dot argsort).
Local Abbreviation search :=
  (Service.search pattern re_compile re_search embed dot argsort round4).
Local Abbreviation regex_hit := (Service.regex_hit pattern re_search).

(** X11: with usable patterns the candidate list is in ascending index
    order and holds exactly the records that pass every supplied category
    filter as a case-insensitive substring test, have exactly the supplied
    file type, are hit by the include pattern in their searchable text or
    their path, and are hit by the exclude pattern in neither. *)
Theorem candidate_membership idx qy :
  Spec.usable re_compile (Service.include qy) ->
  Spec.usable re_compile (Service.exclude qy) ->
  exists cands,
    candidates idx qy = Service.Next cands
    /\ StronglySorted lt cands
    /\ forall i,
         In i cands <->
         (i < length (Service.records idx))%nat
         /\ (forall cat fv f,
               In (cat, fv) (Service.category_filters qy) ->
               Service.supplied fv = Some f ->
               Spec.holds_ignoring_case
                 (Service.item cat (Service.record_at idx i)) f)
         /\ (forall ft, Service.supplied (Service.file_type qy) = Some ft ->
               Service.item "file_type" (Service.record_at idx i) = ft)
         /\ (forall p r, Service.supplied (Service.include qy) = Some p ->
               re_compile p = Service.Return r -> regex_hit idx r i = true)
         /\ (forall p r, Service.supplied (Service.exclude qy) = Some p ->
               re_compile p = Service.Return r -> regex_hit idx r i = false).
Proof using pattern re_compile re_search.
  clear embed dot argsort round4.
  intros Hinc Hexc.
  set (all := seq 0 (length (Service.records idx))).
  set (kt := fun i =>
         match Service.supplied (Service.file_type qy) with
         | Some ft => String.eqb (Service.item "file_type" (Service.record_at idx i)) ft
         | None => true
         end).
  set (ki := fun i =>
         match Service.supplied (Service.include qy) with
         | Some p => match re_compile p with
                     | Service.Return r => regex_hit idx r i
                     | _ => true
                     end
         | None => true
         end).
  set (ke := fun i =>
         match Service.supplied (Service.exclude qy) with
         | Some p => match re_compile p with
                     | Service.Return r => negb (regex_hit idx r i)
                     | _ => true
                     end
         | None => true
         end).
  exists (List.filter
            (fun i => ((Spec.passes_all idx qy i && kt i) && ki i) && ke i) all).
  split; [|split].
  - unfold Service.candidates. rewrite apply_category_filters_filter.
    fold all.
    assert (forall l, Service.apply_file_type idx qy l = List.filter kt l) as ->.
    { intros l. unfold Service.apply_file_type, kt.
      destruct (Service.supplied (Service.file_type qy)); [done|].
      by rewrite filter_all. }
    assert (forall l, Service.apply_include pattern re_compile re_search idx qy l
                      = Service.Next (List.filter ki l)) as ->.
    { intros l. unfold Service.apply_include, ki.
      destruct Hinc as [->|(p & r & -> & ->)]; [by rewrite filter_all|done]. }
    assert (forall l, Service.apply_exclude pattern re_compile re_search idx qy l
                      = Service.Next (List.filter ke l)) as ->.
    { intros l. unfold Service.apply_exclude, ke.
      destruct Hexc as [->|(p & r & -> & ->)]; [by rewrite filter_all|done]. }
    by rewrite (filter_twice kt), (filter_twice ki), (filter_twice ke).
  - apply filter_seq_ascending.
  - intros i. rewrite filter_In, !andb_true_iff, passes_all_iff.
    unfold all. rewrite in_seq. unfold kt, ki, ke.
    split.
    + intros (Hi & ((Hcat & Ht) & Hin) & Hex).
      split; [lia|]. split; [done|].
      split; [intros ft Hft; rewrite Hft in Ht; by apply String.eqb_eq|].
      split.
      * intros p r Hp Hr. by rewrite Hp, Hr in Hin.
      * intros p r Hp Hr. rewrite Hp, Hr in Hex. by apply negb_true_iff.
    + intros (Hi & Hcat & Ht & Hin & Hex).
      split; [lia|]. repeat split; [done| | |].
      * destruct (Service.supplied (Service.file_type qy)) as [ft|]; [|done].
        apply String.eqb_eq. by apply Ht.
      * destruct Hinc as [->|(p & r & Hp & Hr)]; [done|].
        rewrite Hp, Hr. by apply (Hin p r).
      * destruct Hexc as [->|(p & r & Hp & Hr)]; [done|].
        rewrite Hp, Hr. apply negb_true_iff. by apply (Hex p r).
Qed.

Lemma candidates_next idx qy cands :
  candidates idx qy = Service.Next cands ->
  StronglySorted lt cands
  /\ forall i, In i cands -> (i < length (Service.records idx))%nat.
Proof using pattern re_compile re_search.
  clear embed dot argsort round4.
  intros Hc.
  assert (Spec.usable re_compile (Service.include qy)
          /\ Spec.usable re_compile (Service.exclude qy)) as [Hinc Hexc].
  { unfold Service.candidates, Service.apply_include, Service.apply_exclude in Hc.
    unfold Spec.usable.
    destruct (Service.supplied (Service.include qy)) as [inc|].
    - destruct (re_compile inc) as [r|[msg| |name]] eqn:Hr; try done.
      split; [right; by eexists _, _|].
      destruct (Service.supplied (Service.exclude qy)) as [exc|]; [|by left].
      destruct (re_compile exc) as [r'|[msg| |name]] eqn:Hr'; try done.
      right. by eexists _, _.
    - split; [by left|].
      destruct (Service.supplied (Service.exclude qy)) as [exc|]; [|by left].
      destruct (re_compile exc) as [r'|[msg| |name]] eqn:Hr'; try done.
      right. by eexists _, _. }
  destruct (candidate_membership idx qy Hinc Hexc) as (cands' & Hc' & Hs & Hiff).
  rewrite Hc in Hc'. injection Hc' as <-. split; [done|].
  intros i Hi. by apply Hiff in Hi as [? _].
Qed.

(** X12: a query whose text is empty or white space is ranked by file
    name: the names, in lower case, ascend along the ranking, records with
    equal names keep their index order, every candidate is ranked once,
    and no result row carries a score. *)
Theorem ranking_without_text idx qy total showing rows :
  Py.truthy (Py.strip (Service.q qy)) = false ->
  ~ In "score" (Service.categories idx) ->
  search idx qy = Service.Return (Service.Results total showing rows) ->
  exists cands ranked,
    candidates idx qy = Service.Next cands
    /\ Permutation ranked cands
    /\ Sorted String.le (map (Spec.name_key idx) ranked)
    /\ (forall k,
          List.filter (fun i => String.eqb (Spec.name_key idx i) k) ranked
          = List.filter (fun i => String.eqb (Spec.name_key idx i) k) cands)
    /\ rows = map (fun i => Service.result_row round4 idx i None)
                (Py.slice_to (Service.limit qy) ranked)
    /\ forall row, In row rows -> Py.dict_get "score" row = None.
Proof.
  intros Hq Hnot Hsearch. unfold Service.search in Hsearch.
  destruct (candidates idx qy) as [cands|p|e] eqn:Hc; [| |done].
  2:{ destruct (candidates_returns _ _ _ _ _ _ Hc) as (message & ->). done. }
  unfold Service.rank in Hsearch. rewrite Hq in Hsearch.
  unfold Service.build_results in Hsearch. injection Hsearch as <- <- <-.
  fold (Spec.name_key idx).
  set (ranked := Service.sorted_by_key (Spec.name_key idx) cands).
  assert (map (fun '(i, s) => Service.result_row round4 idx i s)
            (combine (Py.slice_to (Service.limit qy) ranked)
               (Py.slice_to (Service.limit qy) (map (fun _ => None) ranked)))
          = map (fun i => Service.result_row round4 idx i None)
              (Py.slice_to (Service.limit qy) ranked)) as Hrows.
  { rewrite !slice_to_firstn, length_map, firstn_map.
    generalize (firstn (Spec.slice_length (Service.limit qy) (length ranked)) ranked).
    induction l as [|i l IH]; [done|]. cbn [map combine]. by rewrite IH. }
  exists cands, ranked.
  split; [done|]. split; [apply sorted_by_key_perm|].
  split; [apply sorted_by_key_sorted|].
  split; [intros k; apply sorted_by_key_stable|].
  split; [exact Hrows|].
  intros row Hrow. rewrite Hrows in Hrow.
  apply in_map_iff in Hrow as (i & <- & _).
  by rewrite result_row_fixed_key.
Qed.

Lemma rank_same_length idx qy cands ri rs :
  rank idx qy cands = Service.Return (ri, rs) -> length rs = length ri.
Proof.
  intros Hrank.
  destruct (Py.truthy (Py.strip (Service.q qy))) eqn:Hq.
  - destruct (rank_semantic _ _ _ _ _ _ _ _ Hq Hrank)
      as [(_ & -> & ->)|(-> & -> & _)]; [done|].
    by rewrite !length_map.
  - destruct (rank_alphabetical _ _ _ _ _ _ _ _ Hq Hrank) as [_ ->].
    by rewrite length_map.
Qed.

(** X13: a negative limit is not refused: it cuts that many rows off the
    end of the ranking, so [showing] is [total_matches + limit], or zero
    when that is negative. *)
Theorem negative_limit_drops_last_rows idx qy total showing rows :
  Service.limit qy < 0 ->
  search idx qy = Service.Return (Service.Results total showing rows) ->
  Z.of_nat showing = Z.max 0 (Z.of_nat total + Service.limit qy)
  /\ length rows = showing.
Proof.
  intros Hlimit Hsearch. unfold Service.search in Hsearch.
  destruct (candidates idx qy) as [cands|p|e] eqn:Hc; [| |done].
  2:{ destruct (candidates_returns _ _ _ _ _ _ Hc) as (message & ->). done. }
  destruct (rank idx qy cands) as [[ri rs]|e] eqn:Hrank; [|done].
  pose proof (rank_same_length _ _ _ _ _ Hrank) as Hlen.
  unfold Service.build_results in Hsearch. injection Hsearch as <- <- <-.
  rewrite length_map, length_combine, !slice_to_firstn, !length_firstn.
  unfold Spec.slice_length. rewrite Hlen.
  assert ((0 <=? Service.limit qy) = false) as -> by (apply Z.leb_gt; lia).
  split; [lia|done].
Qed.

(** X14: raising the limit only appends rows: for limits [0 <= k <= k'],
    the rows returned with limit [k] are the first [k] rows returned with
    limit [k'], and [total_matches] is the same. *)
Theorem rows_grow_with_limit idx qy k k' total showing rows :
  0 <= k <= k' ->
  search idx (Spec.with_limit k' qy)
  = Service.Return (Service.Results total showing rows) ->
  search idx (Spec.with_limit k qy)
  = Service.Return
      (Service.Results total (Nat.min (Z.to_nat k) showing)
         (firstn (Z.to_nat k) rows)).
Proof.
  intros Hk Hsearch. unfold Service.search in *.
  change (candidates idx (Spec.with_limit k qy)) with (candidates idx qy).
  change (candidates idx (Spec.with_limit k' qy)) with (candidates idx qy) in Hsearch.
  destruct (candidates idx qy) as [cands|p|e] eqn:Hc; [| |done].
  2:{ destruct (candidates_returns _ _ _ _ _ _ Hc) as (message & ->). done. }
  change (rank idx (Spec.with_limit k qy) cands) with (rank idx qy cands).
  change (rank idx (Spec.with_limit k' qy) cands) with (rank idx qy cands) in Hsearch.
  destruct (rank idx qy cands) as [[ri rs]|e] eqn:Hrank; [|done].
  pose proof (rank_same_length _ _ _ _ _ Hrank) as Hlen.
  unfold Service.build_results in *. cbn [Service.limit Spec.with_limit] in *.
  injection Hsearch as <- <- <-. f_equal.
  rewrite !slice_to_firstn, Hlen. unfold Spec.slice_length.
  assert ((0 <=? k) = true) as -> by (apply Z.leb_le; lia).
  assert ((0 <=? k') = true) as -> by (apply Z.leb_le; lia).
  rewrite <- !combine_firstn, <- !firstn_map, firstn_firstn.
  replace (Nat.min (Z.to_nat k) (Z.to_nat k')) with (Z.to_nat k) by lia.
  f_equal. rewrite !length_firstn. lia.
Qed.

(** X15: a query with text needs an embedding row for every candidate:
    when a candidate has none, [search] raises IndexError (there is no
    partial result); a query without text never reads the embeddings and is
    answered whatever they are. *)
Theorem missing_embedding_row idx qy cands :
  candidates idx qy = Service.Next cands ->
  (Py.truthy (Py.strip (Service.q qy)) = true ->
   (exists i, In i cands /\ (length (Service.embeddings idx) <= i)%nat) ->
   search idx qy = Service.Raise Service.IndexError)
  /\ (Py.truthy (Py.strip (Service.q qy)) = false ->
      exists rows,
        search idx qy
        = Service.Return
            (Service.Results (length cands) (length rows) rows)).
Proof.
  intros Hc. unfold Service.search. rewrite Hc. split.
  - intros Hq (i & Hi & Hlen). unfold Service.rank. rewrite Hq.
    destruct cands as [|c cands']; [done|].
    by rewrite (take_all_raises _ _ i Hi Hlen).
  - intros Hq. unfold Service.rank. rewrite Hq. unfold Service.build_results.
    eexists. f_equal. f_equal.
    apply Permutation_length, sorted_by_key_perm.
Qed.

(** X16: no record is returned twice: the result rows of every payload
    are the rows of pairwise different record indices of the index, in
    ranking order. *)
Theorem rows_of_distinct_records idx qy total showing rows :
  Spec.argsort_spec argsort ->
  (forall k, In k ["file_name"; "file_path"; "file_type"; "score"] ->
             ~ In k (Service.categories idx)) ->
  search idx qy = Service.Return (Service.Results total showing rows) ->
  exists shown,
    NoDup shown
    /\ (forall i, In i shown -> (i < length (Service.records idx))%nat)
    /\ length shown = showing
    /\ map (Py.dict_get "file_path") rows
       = map (fun i => Some (Val.Str (Service.item "file_path"
                                        (Service.record_at idx i)))) shown
    /\ map (Py.dict_get "file_name") rows
       = map (fun i => Some (Val.Str (Service.item "file_name"
                                        (Service.record_at idx i)))) shown.
Proof.
  intros Hsort Hcats Hsearch. unfold Service.search in Hsearch.
  destruct (candidates idx qy) as [cands|p|e] eqn:Hc; [| |done].
  2:{ destruct (candidates_returns _ _ _ _ _ _ Hc) as (message & ->). done. }
  destruct (candidates_next _ _ _ Hc) as [Hasc Hlt].
  destruct (rank idx qy cands) as [[ri rs]|e] eqn:Hrank; [|done].
  pose proof (rank_same_length _ _ _ _ _ Hrank) as Hlen.
  assert (Permutation ri cands) as Hperm.
  { destruct (Py.truthy (Py.strip (Service.q qy))) eqn:Hq.
    - destruct (rank_semantic _ _ _ _ _ _ _ _ Hq Hrank)
        as [(-> & -> & _)|(-> & _ & _)]; [done|].
      destruct (Hsort (map Z.opp
                         (map (Spec.score_of dot idx (embed (Service.q qy))) cands)))
        as [Hp _].
      rewrite !length_map in Hp.
      rewrite (Permutation_map (fun i => nth i cands 0%nat) Hp).
      by rewrite map_nth_seq.
    - by destruct (rank_alphabetical _ _ _ _ _ _ _ _ Hq Hrank). }
  assert (NoDup cands) as Hnd.
  { clear -Hasc. induction Hasc as [|i l Hs IH Hall]; constructor; [|done].
    intros Hi%list_elem_of_In. rewrite Forall_forall in Hall.
    apply list_elem_of_In, Hall in Hi. lia. }
  unfold Service.build_results in Hsearch. injection Hsearch as <- <- <-.
  rewrite !slice_to_firstn, Hlen.
  set (n := Spec.slice_length (Service.limit qy) (length ri)).
  exists (firstn n ri).
  assert (NoDup ri) as Hndri.
  { by rewrite Hperm. }
  split.
  { rewrite <- (firstn_skipn n ri) in Hndri. by apply NoDup_app in Hndri as [? _]. }
  split.
  { intros i Hi. apply Hlt, (Permutation_in _ Hperm).
    rewrite <- (firstn_skipn n ri). apply in_or_app. by left. }
  split.
  { rewrite length_map, length_combine, !length_firstn. lia. }
  assert (forall k,
            In k ["file_name"; "file_path"] ->
            map (Py.dict_get k)
              (map (fun '(i, s) => Service.result_row round4 idx i s)
                 (combine (firstn n ri) (firstn n rs)))
            = map (fun i => Some (Val.Str (Service.item k (Service.record_at idx i))))
                (firstn n ri)) as Hkey.
  { intros k Hk. rewrite map_map.
    assert (length (firstn n rs) = length (firstn n ri)) as Hlen'
      by (by rewrite !length_firstn, Hlen).
    revert Hlen'. generalize (firstn n rs). generalize (firstn n ri).
    induction l as [|i l IH]; intros [|s l'] Hl; try done.
    cbn [combine map]. f_equal; [|apply IH; by injection Hl].
    rewrite result_row_fixed_key by (apply Hcats; simpl in *; tauto).
    simpl in Hk. destruct Hk as [<-|[<-|[]]]; by destruct s. }
  split; apply Hkey; simpl; tauto.
Qed.


End ServiceFacts2.

Section ServiceFacts3.

Variable pattern : Type.
Variable re_compile : string -> Service.outcome pattern.
Variable re_search : pattern -> string -> bool.
Variable embed : string -> list Z.
Variable dot : list Z -> list Z -> Z.
Variable argsort : list Z -> list nat.
Variable round4 : Z -> Z.

Local Abbreviation candidates := (Service.candidates pattern re_compile re_search).
Local Abbreviation search :=
  (Service.search pattern re_compile re_search embed dot argsort round4).

(** X17: a parameter given as the empty string counts as not given: the
    query with every empty category filter, file type, include and exclude
    pattern left out gets the same answer, error payloads and exceptions
    included. *)
Theorem empty_parameters_ignored idx qy :
  search idx (Spec.drop_empty qy) = search idx qy.
Proof.
  assert (candidates idx (Spec.drop_empty qy) = candidates idx qy) as Hc.
  { unfold Service.candidates.
    assert (forall l, Service.apply_category_filters idx (Spec.drop_empty qy) l
                      = Service.apply_category_filters idx qy l) as ->.
    { unfold Service.apply_category_filters.
      change (Service.category_filters (Spec.drop_empty qy))
        with (map (fun '((c, fv) : string * option string) => (c, Service.supplied fv))
                (Service.category_filters qy)).
      generalize (Service.category_filters qy). intros fs.
      induction fs as [|[c fv] fs IH]; intros cands; [done|].
      cbn [map fold_left]. by rewrite supplied_idempotent, IH. }
    unfold Service.apply_file_type, Service.apply_include, Service.apply_exclude.
    cbn [Spec.drop_empty Service.file_type Service.include Service.exclude].
    by rewrite !supplied_idempotent. }
  unfold Service.search. rewrite Hc.
  by destruct (candidates idx qy).
Qed.

(** X18: a pattern splits the candidates: for a non-empty pattern that
    compiles, the candidates of the query with the pattern as [include]
    and those of the query with the same pattern as [exclude] are disjoint
    and together are the candidates of the query with neither pattern. *)
Theorem pattern_splits_candidates idx qy p r :
  Py.truthy p = true ->
  re_compile p = Service.Return r ->
  exists both included excluded,
    candidates idx (Spec.with_patterns None None qy) = Service.Next both
    /\ candidates idx (Spec.with_patterns (Some p) None qy) = Service.Next included
    /\ candidates idx (Spec.with_patterns None (Some p) qy) = Service.Next excluded
    /\ forall i, (In i both <-> In i included \/ In i excluded)
                 /\ ~ (In i included /\ In i excluded).
Proof using pattern re_compile re_search.
  clear embed dot argsort round4.
  intros Hp Hr.
  assert (Service.supplied (Some p) = Some p) as Hsup
    by (unfold Service.supplied; by rewrite Hp).
  assert (forall o, o = None \/ o = Some p -> Spec.usable re_compile o) as Huse.
  { intros o [-> | ->]; [by left|]. right. by exists p, r. }
  destruct (candidate_membership pattern re_compile re_search idx
              (Spec.with_patterns None None qy))
    as (both & Hboth & _ & Hb); [apply Huse; by left|apply Huse; by left|].
  destruct (candidate_membership pattern re_compile re_search idx
              (Spec.with_patterns (Some p) None qy))
    as (inc & Hincl & _ & Hi); [apply Huse; by right|apply Huse; by left|].
  destruct (candidate_membership pattern re_compile re_search idx
              (Spec.with_patterns None (Some p) qy))
    as (exc & Hexcl & _ & He); [apply Huse; by left|apply Huse; by right|].
  exists both, inc, exc. repeat (split; [done|]).
  intros i.
  set (P := (i < length (Service.records idx))%nat
            /\ (forall cat fv f,
                  In (cat, fv) (Service.category_filters qy) ->
                  Service.supplied fv = Some f ->
                  Spec.holds_ignoring_case
                    (Service.item cat (Service.record_at idx i)) f)
            /\ (forall ft, Service.supplied (Service.file_type qy) = Some ft ->
                  Service.item "file_type" (Service.record_at idx i) = ft)).
  assert (In i both <-> P) as ->.
  { rewrite (Hb i). unfold P. cbn [Spec.with_patterns Service.include
      Service.exclude Service.file_type Service.supplied]. 
    change (Service.category_filters (Spec.with_patterns None None qy))
      with (Service.category_filters qy).
    split; [tauto|]. intros (? & ? & ?). by repeat (split; [done|]). }
  assert (In i inc
          <-> P /\ Service.regex_hit pattern re_search idx r i = true) as ->.
  { rewrite (Hi i). unfold P. cbn [Spec.with_patterns Service.include
      Service.exclude Service.file_type].
    change (Service.category_filters (Spec.with_patterns (Some p) None qy))
      with (Service.category_filters qy).
    rewrite Hsup. cbn [Service.supplied].
    split.
    - intros (? & ? & ? & Hyes & _). repeat (split; [done|]). by apply (Hyes p r).
    - intros ((? & ? & ?) & Hyes). repeat (split; [done|]). split; [|done].
      intros p' r' [= <-] Hr'. rewrite Hr in Hr'. by injection Hr' as <-. }
  assert (In i exc
          <-> P /\ Service.regex_hit pattern re_search idx r i = false) as ->.
  { rewrite (He i). unfold P. cbn [Spec.with_patterns Service.include
      Service.exclude Service.file_type].
    change (Service.category_filters (Spec.with_patterns None (Some p) qy))
      with (Service.category_filters qy).
    rewrite Hsup. cbn [Service.supplied].
    split.
    - intros (? & ? & ? & _ & Hno). repeat (split; [done|]). by apply (Hno p r).
    - intros ((? & ? & ?) & Hno). repeat (split; [done|]).
      intros p' r' [= <-] Hr'. rewrite Hr in Hr'. by injection Hr' as <-. }
  clearbody P.
  destruct (Service.regex_hit pattern re_search idx r i); split; try tauto;
    intros [[_ ?] [_ ?]]; done.
Qed.

End ServiceFacts3.

(** ** The statistics of the index *)

Lemma count_type_sum (d : Py.dict nat) k :
  list_sum (map snd (Py.dict_set k (default 0%nat (Py.dict_get k d) + 1)%nat d))
  = S (list_sum (map snd d)).
Proof.
  induction d as [|[k' v] d IH]; simpl; [done|].
  destruct (String.eqb k k'); simpl; [lia|]. rewrite IH. lia.
Qed.

Lemma count_type_get (d : Py.dict nat) rec ft :
  Py.dict_get ft (Service.count_type d rec)
  = if String.eqb (Service.item "file_type" rec) ft
    then Some (default 0%nat (Py.dict_get ft d) + 1)%nat
    else Py.dict_get ft d.
Proof.
  unfold Service.count_type.
  destruct (String.eqb (Service.item "file_type" rec) ft) eqn:Heq.
  - apply String.eqb_eq in Heq as ->. by rewrite dict_get_set_eq.
  - apply String.eqb_neq in Heq. by rewrite dict_get_set_ne.
Qed.

(** X19: [get_stats] counts every record under exactly one file type: the
    entry of a type in [by_type] is the number of records of that type, a
    type without records has no entry, and the entries add up to
    [total_files]. *)
Theorem stats_by_type idx :
  let st := Service.get_stats idx in
  (forall ft,
     Py.dict_get ft (Service.by_type st)
     = match length (List.filter
                       (fun rec => String.eqb (Service.item "file_type" rec) ft)
                       (Service.records idx)) with
       | O => None
       | n => Some n
       end)
  /\ list_sum (map snd (Service.by_type st)) = Service.total_files st.
Proof.
  cbv zeta. unfold Service.get_stats. cbn [Service.by_type Service.total_files].
  generalize (Service.records idx). intros recs. split.
  - intros ft.
    assert (forall d,
              Py.dict_get ft (fold_left Service.count_type recs d)
              = match length (List.filter
                                (fun rec => String.eqb (Service.item "file_type" rec) ft)
                                recs) with
                | O => Py.dict_get ft d
                | n => Some (default 0%nat (Py.dict_get ft d) + n)%nat
                end) as Hloop.
    { induction recs as [|rec recs IH]; intros d; [done|].
      cbn [fold_left List.filter]. rewrite IH, count_type_get.
      destruct (String.eqb (Service.item "file_type" rec) ft); cbn [length].
      - destruct (length _); simpl; f_equal; lia.
      - done. }
    rewrite Hloop. by destruct (length _).
  - assert (forall d,
              list_sum (map snd (fold_left Service.count_type recs d))
              = (list_sum (map snd d) + length recs)%nat) as Hloop.
    { induction recs as [|rec recs IH]; intros d; simpl; [lia|].
      rewrite IH. unfold Service.count_type. rewrite count_type_sum. lia. }
    by rewrite Hloop.
Qed.

Lemma count_categories_get cats (counts : Py.dict nat) rec c :
  List.NoDup cats ->
  Py.dict_get c (Service.count_categories cats counts rec)
  = if Py.truthy (Service.item c rec) && bool_decide (c ∈ cats)
    then Some (default 0%nat (Py.dict_get c counts) + 1)%nat
    else Py.dict_get c counts.
Proof.
  unfold Service.count_categories. intros Hnd. revert counts.
  induction Hnd as [|a cats Ha Hnd IH]; intros counts.
  - cbn [fold_left]. rewrite andb_false_r. done.
  - cbn [fold_left]. rewrite IH.
    destruct (decide (c = a)) as [->|Hne].
    + rewrite (bool_decide_eq_false_2 (a ∈ cats))
        by (intros ?%list_elem_of_In; done).
      rewrite (bool_decide_eq_true_2 (a ∈ a :: cats)) by constructor.
      rewrite andb_false_r, andb_true_r.
      destruct (Py.truthy (Service.item a rec)); [|done].
      by rewrite dict_get_set_eq.
    + assert (bool_decide (c ∈ a :: cats) = bool_decide (c ∈ cats)) as ->.
      { apply bool_decide_ext. rewrite elem_of_cons. split; [by intros [?|?]|by right]. }
      assert (Py.dict_get c
                (if Py.truthy (Service.item a rec)
                 then Py.dict_set a (default 0%nat (Py.dict_get a counts) + 1)%nat counts
                 else counts) = Py.dict_get c counts) as ->; [|done].
      destruct (Py.truthy (Service.item a rec)); [|done].
      by apply dict_get_set_ne.
Qed.

Lemma zero_counts_get (cats : list string) c :
  Py.dict_get c (fold_left (fun acc cat => Py.dict_set cat 0%nat acc) cats [])
  = if bool_decide (c ∈ cats) then Some 0%nat else None.
Proof.
  assert (forall acc,
            Py.dict_get c (fold_left (fun acc cat => Py.dict_set cat 0%nat acc) cats acc)
            = if bool_decide (c ∈ cats) then Some 0%nat else Py.dict_get c acc) as H.
  { induction cats as [|a cats IH]; intros acc; [done|].
    cbn [fold_left]. rewrite IH.
    destruct (decide (c = a)) as [->|Hne].
    - rewrite (bool_decide_eq_true_2 (a ∈ a :: cats)) by constructor.
      rewrite dict_get_set_eq. by destruct (bool_decide _).
    - assert (bool_decide (c ∈ a :: cats) = bool_decide (c ∈ cats)) as ->.
      { apply bool_decide_ext. rewrite elem_of_cons. split; [by intros [?|?]|by right]. }
      by rewrite dict_get_set_ne. }
  by rewrite H.
Qed.

(** X20: when the categories of the index are pairwise different,
    [by_category] of [get_stats] has an entry for every category of the
    index, also for one without data, and for no other key; the entry is
    the number of records with a non-empty value in that category. *)
Theorem stats_by_category idx :
  List.NoDup (Service.categories idx) ->
  forall cat,
    Py.dict_get cat (Service.by_category (Service.get_stats idx))
    = if bool_decide (cat ∈ Service.categories idx)
      then Some (length (List.filter
                           (fun rec => Py.truthy (Service.item cat rec))
                           (Service.records idx)))
      else None.
Proof.
  intros Hnd cat. unfold Service.get_stats. cbn [Service.by_category].
  generalize (Service.records idx). intros recs.
  assert (forall d,
            Py.dict_get cat
              (fold_left (Service.count_categories (Service.categories idx)) recs d)
            = match length (List.filter
                              (fun rec => Py.truthy (Service.item cat rec)) recs) with
              | O => Py.dict_get cat d
              | n => if bool_decide (cat ∈ Service.categories idx)
                     then Some (default 0%nat (Py.dict_get cat d) + n)%nat
                     else Py.dict_get cat d
              end) as Hloop.
  { induction recs as [|rec recs IH]; intros d; [done|].
    cbn [fold_left List.filter]. rewrite IH, count_categories_get by done.
    destruct (Py.truthy (Service.item cat rec)); cbn [length andb].
    - destruct (bool_decide (cat ∈ Service.categories idx));
        destruct (length _); simpl; try done; f_equal; lia.
    - done. }
  rewrite Hloop, zero_counts_get.
  destruct (bool_decide (cat ∈ Service.categories idx)); by destruct (length _).
Qed.

(** ** From the scan artifact to the filter options *)

Lemma rev_app_app (s1 s2 : string) :
  String.rev_app s1 s2 = String.rev_app s1 "" +:+ s2.
Proof.
  revert s2. induction s1 as [|a s1 IH]; intros s2; [done|].
  cbn [String.rev_app]. rewrite (IH (String a s2)), (IH (String a "")).
  by rewrite string_app_assoc.
Qed.

Lemma rev_cons a (s : string) : String.rev (String a s) = String.rev s +:+ String a "".
Proof. unfold String.rev. cbn [String.rev_app]. apply rev_app_app. Qed.

Lemma rev_app_distr (s1 s2 : string) :
  String.rev (s1 +:+ s2) = String.rev s2 +:+ String.rev s1.
Proof.
  induction s1 as [|a s1 IH].
  - by rewrite string_app_nil_l, string_app_nil_r.
  - by rewrite string_app_cons, !rev_cons, IH, string_app_assoc.
Qed.

Lemma rev_involutive (s : string) : String.rev (String.rev s) = s.
Proof.
  induction s as [|a s IH]; [done|].
  by rewrite rev_cons, rev_app_distr, IH.
Qed.

Lemma has_char_app c (a b : string) :
  Py.has_char c (a +:+ b) = Py.has_char c a || Py.has_char c b.
Proof.
  induction a as [|x a IH]; [done|].
  rewrite string_app_cons. simpl. by rewrite IH, orb_assoc.
Qed.

Lemma split_go_last sep cur t :
  Py.has_char sep t = false ->
  Py.split_go sep cur t = [String.rev cur +:+ t].
Proof.
  revert cur. induction t as [|c t IH]; intros cur Hno.
  - by rewrite string_app_nil_r.
  - simpl in Hno. apply orb_false_elim in Hno as [Hc Ht].
    cbn [Py.split_go]. rewrite Ascii.eqb_sym, Hc, IH by done.
    by rewrite rev_cons, string_app_assoc.
Qed.

Lemma split_go_piece sep cur t rest :
  Py.has_char sep t = false ->
  Py.split_go sep cur (t +:+ String sep rest)
  = (String.rev cur +:+ t) :: Py.split_go sep "" rest.
Proof.
  revert cur. induction t as [|c t IH]; intros cur Hno.
  - rewrite string_app_nil_l, string_app_nil_r. cbn [Py.split_go].
    by rewrite Ascii.eqb_refl.
  - simpl in Hno. apply orb_false_elim in Hno as [Hc Ht].
    rewrite string_app_cons. cbn [Py.split_go].
    rewrite Ascii.eqb_sym, Hc, IH by done.
    by rewrite rev_cons, string_app_assoc.
Qed.

(** Splitting a comma-and-space join at the commas gives the pieces back,
    all but the first with the space in front. *)
Lemma split_join pre t ts :
  Py.has_char ","%char pre = false ->
  Forall (fun t => Py.has_char ","%char t = false) (t :: ts) ->
  Py.split ","%char (pre +:+ Py.join ", " (t :: ts))
  = (pre +:+ t) :: map (String " "%char) ts.
Proof.
  revert pre t. induction ts as [|u ts IH]; intros pre t Hpre Hall.
  - apply Forall_inv in Hall. unfold Py.split. cbn [Py.join map].
    rewrite split_go_last; [done|]. by rewrite has_char_app, Hpre, Hall.
  - inversion Hall as [|? ? Ht Hrest]; subst.
    rewrite join_cons.
    change (", " +:+ Py.join ", " (u :: ts))
      with (String ","%char (" " +:+ Py.join ", " (u :: ts))).
    rewrite <- string_app_assoc. unfold Py.split.
    rewrite split_go_piece by (by rewrite has_char_app, Hpre, Ht).
    cbn [map]. f_equal. by apply (IH " " u).
Qed.

Lemma cell_splits_back (l : list string) :
  l <> [] ->
  Forall (fun t => Spec.clean_term t = true) l ->
  BuildIndex.split_values (Val.Str (Py.join ", " l)) = l.
Proof.
  intros Hne Hall. destruct l as [|t ts]; [done|].
  assert (Forall (fun t => Py.has_char ","%char t = false) (t :: ts)) as Hcomma.
  { eapply Forall_impl; [exact Hall|]. intros u Hu. cbv beta in Hu.
    unfold Spec.clean_term in Hu. apply andb_prop in Hu as [Hu _].
    by apply negb_true_iff in Hu. }
  assert (Forall (fun t => Py.strip t = t) (t :: ts)) as Hstrip.
  { eapply Forall_impl; [exact Hall|]. intros u Hu. cbv beta in Hu.
    unfold Spec.clean_term in Hu. apply andb_prop in Hu as [_ Hu].
    by apply String.eqb_eq in Hu. }
  unfold BuildIndex.split_values. cbn [Val.str].
  rewrite <- (string_app_nil_l (Py.join ", " (t :: ts))), split_join by done.
  cbn [map]. rewrite string_app_nil_l.
  inversion Hstrip as [|? ? Ht Hts]; subst. rewrite Ht. f_equal.
  clear -Hts. induction Hts as [|u ts Hu Hts IH]; [done|].
  cbn [map]. rewrite IH. f_equal.
  change (Py.strip (String " " u)) with (Py.strip u). done.
Qed.

Lemma configured_terms_clean :
  Forall (fun e : string * list string =>
            Forall (fun t => Spec.clean_term t = true) (snd e))
    Scan.SEARCH_CATEGORIES.
Proof.
  apply Forall_forall. intros e He. apply Forall_forall. intros t Ht.
  assert (forallb (fun e : string * list string => forallb Spec.clean_term (snd e))
            Scan.SEARCH_CATEGORIES = true) as Hall by (by vm_compute).
  rewrite forallb_forall in Hall. specialize (Hall e (proj1 (list_elem_of_In _ _) He)).
  rewrite forallb_forall in Hall. by apply Hall, list_elem_of_In.
Qed.

Section RoundTrip.

Variables read_shapefile read_geodatabase read_excel read_pdf read_gpx
  : string -> string.
Variable read_csv_file : string -> option string.

Local Abbreviation read_text :=
  (Scan.read_text read_shapefile read_geodatabase read_excel read_pdf read_gpx
     read_csv_file).
Local Abbreviation scan_file :=
  (Scan.scan_file read_shapefile read_geodatabase read_excel read_pdf read_gpx
     read_csv_file).

(** X21: what the scanner writes into a category cell is what the index
    builder reads out of it: a non-empty category cell of a scan record is
    split by [build_index.py] (at the commas, pieces stripped) into exactly
    the terms that the matcher reported for the content or the path of the
    target, each once and in ascending order. *)
Theorem category_cell_round_trip fi category terms cell :
  In (category, terms) Scan.SEARCH_CATEGORIES ->
  Py.dict_get category (scan_file fi) = Some cell ->
  Py.truthy cell = true ->
  exists l,
    BuildIndex.split_values (Val.Str cell) = l
    /\ Spec.strictly_ascending l
    /\ forall t, In t l <->
         Spec.reported category t (default "" (read_text fi))
         \/ Spec.reported category t (Scan.path fi).
Proof.
  intros Hin Hget Hcell.
  destruct (scan_file_shape read_shapefile read_geodatabase read_excel read_pdf
              read_gpx read_csv_file fi)
    as (status & error & val & Hshape & Hcases).
  rewrite Hshape in Hget.
  rewrite (dict_get_loop_In fst (fun e => val (fst e)) _ (fun _ _ => eq_refl)
             (category, terms)) in Hget;
    [|done|intros [c ts] _ Heq; simpl in Heq; by subst].
  cbn [fst] in Hget. injection Hget as <-.
  destruct Hcases as [(_ & _ & _ & ->)|(_ & _ & _ & ->)]; [done|].
  set (found := Scan.matches_of _ category ∪ Scan.matches_of _ category) in *.
  assert (forall t, In t (Py.sorted found) <->
            Spec.reported category t (default "" (read_text fi))
            \/ Spec.reported category t (Scan.path fi)) as Hiff.
  { intros t. rewrite sorted_elem. unfold found. by rewrite elem_of_union. }
  exists (Py.sorted found). split; [|split; [apply sorted_strictly_ascending|done]].
  apply cell_splits_back.
  - intros Hnil. by rewrite Hnil in Hcell.
  - apply Forall_forall. intros t Ht%list_elem_of_In%Hiff.
    assert (exists ts, In (category, ts) Scan.SEARCH_CATEGORIES /\ In t ts)
      as (ts & Hts & Htin)
      by (destruct Ht as [Ht|Ht]; by apply matched_term_is_configured in Ht).
    pose proof configured_terms_clean as Hclean.
    rewrite Forall_forall in Hclean.
    specialize (Hclean _ (proj2 (list_elem_of_In _ _) Hts)). cbn [snd] in Hclean.
    rewrite Forall_forall in Hclean. by apply Hclean, list_elem_of_In.
Qed.

End RoundTrip.

(** ** White space around cell texts *)

Lemma lstrip_idempotent s : Py.lstrip (Py.lstrip s) = Py.lstrip s.
Proof.
  induction s as [|c s IH]; [done|]. cbn [Py.lstrip].
  destruct (Py.is_space c) eqn:Hc; [done|]. cbn [Py.lstrip]. by rewrite Hc.
Qed.

Lemma lstrip_app_nonspace s c t :
  Py.is_space c = false ->
  Py.lstrip (s +:+ String c t) = Py.lstrip s +:+ String c t.
Proof.
  intros Hc. induction s as [|d s IH].
  - rewrite !string_app_nil_l. cbn [Py.lstrip]. by rewrite Hc.
  - rewrite string_app_cons. cbn [Py.lstrip].
    destruct (Py.is_space d); [done|]. by rewrite string_app_cons.
Qed.

Lemma rstrip_idempotent s : Py.rstrip (Py.rstrip s) = Py.rstrip s.
Proof. unfold Py.rstrip. by rewrite rev_involutive, lstrip_idempotent. Qed.

Lemma rstrip_cons_nonspace c s :
  Py.is_space c = false -> Py.rstrip (String c s) = String c (Py.rstrip s).
Proof.
  intros Hc. unfold Py.rstrip.
  by rewrite rev_cons, lstrip_app_nonspace, rev_app_distr.
Qed.

Lemma lstrip_strip s : Py.lstrip (Py.strip s) = Py.strip s.
Proof.
  unfold Py.strip. induction s as [|c s IH]; [done|]. cbn [Py.lstrip].
  destruct (Py.is_space c) eqn:Hc; [done|].
  rewrite rstrip_cons_nonspace by done. cbn [Py.lstrip]. by rewrite Hc.
Qed.

Lemma strip_idempotent s : Py.strip (Py.strip s) = Py.strip s.
Proof.
  unfold Py.strip at 1. rewrite lstrip_strip. unfold Py.strip.
  apply rstrip_idempotent.
Qed.

Lemma lstrip_suffix s : exists pre, s = pre +:+ Py.lstrip s.
Proof.
  induction s as [|c s [pre IH]]; [by exists ""|]. cbn [Py.lstrip].
  destruct (Py.is_space c); [|by exists ""].
  exists (String c pre). by rewrite string_app_cons, <- IH.
Qed.

Lemma rstrip_prefix s : exists post, s = Py.rstrip s +:+ post.
Proof.
  unfold Py.rstrip. destruct (lstrip_suffix (String.rev s)) as [pre Hpre].
  exists (String.rev pre).
  by rewrite <- rev_app_distr, <- Hpre, rev_involutive.
Qed.

Lemma strip_infix s : exists pre post, s = pre +:+ Py.strip s +:+ post.
Proof.
  unfold Py.strip. destruct (lstrip_suffix s) as [pre Hpre].
  destruct (rstrip_prefix (Py.lstrip s)) as [post Hpost].
  exists pre, post. by rewrite <- Hpost.
Qed.

Lemma split_go_infix sep cur s x :
  In x (Py.split_go sep cur s) ->
  exists pre post, String.rev cur +:+ s = pre +:+ x +:+ post.
Proof.
  revert cur. induction s as [|c s IH]; intros cur; cbn [Py.split_go].
  - intros [<-|[]]. exists "", "". by rewrite string_app_nil_l.
  - destruct (Ascii.eqb c sep).
    + intros [<-|Hin].
      * exists "", (String c s). by rewrite string_app_nil_l.
      * apply IH in Hin as (pre & post & Hs).
        change (String.rev "") with "" in Hs. rewrite string_app_nil_l in Hs.
        exists (String.rev cur +:+ String c pre), post.
        by rewrite Hs, string_app_assoc, string_app_cons.
    + intros Hin. apply IH in Hin as (pre & post & Hs).
      exists pre, post. rewrite <- Hs, rev_cons, string_app_assoc. done.
Qed.

(** A stripped piece of a cell is a substring of the cell. *)
Lemma split_values_infix val v :
  In v (BuildIndex.split_values val) ->
  exists pre post, Val.str val = pre +:+ v +:+ post.
Proof.
  unfold BuildIndex.split_values. intros Hin.
  apply in_map_iff in Hin as (x & <- & Hx).
  apply split_go_infix in Hx as (pre & post & Hs).
  change (String.rev "") with "" in Hs. rewrite string_app_nil_l in Hs.
  destruct (strip_infix x) as (pre' & post' & Hx).
  exists (pre +:+ pre'), (post' +:+ post).
  rewrite Hs. rewrite Hx at 1. by rewrite !string_app_assoc.
Qed.

(** ** The indexes that the two builders write *)

Lemma clean_text_stripped v :
  Py.strip (PrepareIndex.clean_text v) = PrepareIndex.clean_text v.
Proof.
  unfold PrepareIndex.clean_text.
  destruct (negb (Val.notna v)); [done|apply strip_idempotent].
Qed.

(** X22: every record that prepare_index.py builds, whatever metadata
    file it comes from, has one of the four record types and holds under
    each of the seven common text keys a string without white space at
    either end (the empty string for a missing or empty cell). *)
Theorem prepared_record_fields i r :
  In r (PrepareIndex.all_records i) ->
  (exists t, Py.dict_get "type" r = Some (Val.Str t)
             /\ In t ["table"; "geodatabase"; "shapefile"; "image"])
  /\ forall k,
       In k ["path"; "name"; "species"; "activity"; "filename_tokens";
             "fields"; "status"] ->
       exists s, Py.dict_get k r = Some (Val.Str s) /\ Py.strip s = s.
Proof.
  unfold PrepareIndex.all_records, PrepareIndex.if_exists.
  rewrite !in_app_iff.
  assert (forall row,
            In row [PrepareIndex.csv_xlsx_record; PrepareIndex.gdb_record;
                    PrepareIndex.shp_record; PrepareIndex.image_record] ->
            forall src,
              (exists t, Py.dict_get "type" (row src) = Some (Val.Str t)
                         /\ In t ["table"; "geodatabase"; "shapefile"; "image"])
              /\ forall k,
                   In k ["path"; "name"; "species"; "activity"; "filename_tokens";
                         "fields"; "status"] ->
                   exists s, Py.dict_get k (row src) = Some (Val.Str s)
                             /\ Py.strip s = s) as Hkind.
  { intros row Hrow src. split.
    - simpl in Hrow. destruct Hrow as [<-|[<-|[<-|[<-|[]]]]];
        (eexists; split; [reflexivity|simpl; tauto]).
    - intros k Hk. simpl in Hrow, Hk.
      destruct Hrow as [<-|[<-|[<-|[<-|[]]]]];
        destruct Hk as [<-|[<-|[<-|[<-|[<-|[<-|[<-|[]]]]]]]];
        (eexists; split; [reflexivity|]);
        (apply clean_text_stripped || reflexivity). }
  destruct i as [[a|] [b|] [c|] [d|] [e|]]; simpl;
    unfold PrepareIndex.process_csv_xlsx, PrepareIndex.process_gdb,
      PrepareIndex.process_shp, PrepareIndex.process_images;
    rewrite ?in_map_iff;
    intros H; repeat destruct H as [H|H]; try done;
    destruct H as (row & <- & _); apply Hkind; simpl; tauto.
Qed.

Lemma field_set_elem k records v :
  v ∈ PrepareIndex.field_set k records
  <-> v <> "" /\ exists r, In r records /\ PrepareIndex.field k r = v.
Proof.
  unfold PrepareIndex.field_set.
  assert (forall acc : gset string,
            v ∈ fold_left
                  (fun (acc : gset string) r =>
                     if Py.truthy (PrepareIndex.field k r)
                     then acc ∪ {[ PrepareIndex.field k r ]} else acc)
                  records acc
            <-> v ∈ acc
                \/ (v <> "" /\ exists r, In r records /\ PrepareIndex.field k r = v))
    as Hloop.
  { induction records as [|r rs IH]; intros acc; cbn [fold_left].
    - split; [by left|]. intros [?|(_ & r & [] & _)]. done.
    - rewrite IH. destruct (Py.truthy (PrepareIndex.field k r)) eqn:Ht.
      + rewrite elem_of_union, elem_of_singleton. split.
        * intros [[?| ->]|(Hv & r' & Hr' & Hf)]; [by left| |].
          -- right. split; [by intros Hnil; rewrite Hnil in Ht|].
             exists r. split; [by left|done].
          -- right. split; [done|]. exists r'. split; [by right|done].
        * intros [?|(Hv & r' & [->|Hr'] & Hf)]; [by left; left|by left; right|].
          right. split; [done|]. by exists r'.
      + split.
        * intros [?|(Hv & r' & Hr' & Hf)]; [by left|].
          right. split; [done|]. exists r'. split; [by right|done].
        * intros [?|(Hv & r' & [->|Hr'] & Hf)]; [by left| |].
          -- rewrite Hf in Ht. destruct v; done.
          -- right. split; [done|]. by exists r'. }
  rewrite Hloop. split; [|by right]. intros [H|H]; [|done].
  by apply not_elem_of_empty in H.
Qed.

(** X23: the three filter lists that prepare_index.py writes to
    filters.json are strictly ascending, so free of duplicates, and hold
    exactly the non-empty values that the records have under [species],
    [activity] and [type]. *)
Theorem prepared_filter_options (vec : Type) (encode : list string -> list vec) i k :
  In k ["species"; "activity"; "type"] ->
  exists options,
    Py.dict_get k (PrepareIndex.filters_json vec (PrepareIndex.main vec encode i))
    = Some options
    /\ Spec.strictly_ascending options
    /\ forall v, In v options <->
         v <> ""
         /\ exists r, In r (PrepareIndex.all_records i) /\ PrepareIndex.field k r = v.
Proof.
  intros Hk. exists (Py.sorted (PrepareIndex.field_set k (PrepareIndex.all_records i))).
  split; [|split].
  - unfold PrepareIndex.main. cbn [PrepareIndex.filters_json].
    simpl in Hk. by destruct Hk as [<-|[<-|[<-|[]]]].
  - apply sorted_strictly_ascending.
  - intros v. by rewrite sorted_elem, field_set_elem.
Qed.

Lemma all_values_iff cat rows v :
  v ∈ BuildIndex.all_values cat rows
  <-> exists row, In row rows
                  /\ Val.notna (Val.get cat row) && Val.truthy (Val.get cat row) = true
                  /\ In v (BuildIndex.split_values (Val.get cat row)).
Proof.
  unfold BuildIndex.all_values.
  assert (forall acc : gset string,
            v ∈ fold_left
                  (fun (acc : gset string) row =>
                     let val := Val.get cat row in
                     if Val.notna val && Val.truthy val
                     then acc ∪ list_to_set (BuildIndex.split_values val) else acc)
                  rows acc
            <-> v ∈ acc
                \/ exists row, In row rows
                     /\ Val.notna (Val.get cat row) && Val.truthy (Val.get cat row) = true
                     /\ In v (BuildIndex.split_values (Val.get cat row))) as Hloop.
  { induction rows as [|r rs IH]; intros acc; cbn [fold_left].
    - split; [by left|]. intros [?|(r & [] & _)]. done.
    - rewrite IH. cbv zeta.
      destruct (Val.notna (Val.get cat r) && Val.truthy (Val.get cat r)) eqn:Ht.
      + rewrite elem_of_union, elem_of_list_to_set, list_elem_of_In. split.
        * intros [[?|Hv]|(r' & Hr' & Hok & Hv)]; [by left| |].
          -- right. exists r. split; [by left|done].
          -- right. exists r'. split; [by right|done].
        * intros [?|(r' & [->|Hr'] & Hok & Hv)]; [by left; left|by left; right|].
          right. by exists r'.
      + split.
        * intros [?|(r' & Hr' & Hok & Hv)]; [by left|].
          right. exists r'. split; [by right|done].
        * intros [?|(r' & [->|Hr'] & Hok & Hv)]; [by left|congruence|].
          right. by exists r'. }
  rewrite Hloop. split; [|by right]. intros [H|H]; [|done].
  by apply not_elem_of_empty in H.
Qed.

Lemma filter_options_get rows cat :
  In cat BuildIndex.CATEGORIES ->
  Py.dict_get cat (BuildIndex.filter_options rows)
  = Some (Py.sorted (BuildIndex.all_values cat rows)).
Proof.
  intros Hcat. unfold BuildIndex.filter_options.
  apply (dict_get_loop_In (fun c => c)
           (fun c => Py.sorted (BuildIndex.all_values c rows)) _
           (fun _ _ => eq_refl) cat); [done|].
  by intros c _ ->.
Qed.

Lemma df_success_values cat df v :
  cat <> "searchable_text" ->
  v ∈ BuildIndex.all_values cat (BuildIndex.df_success df)
  <-> exists row, In row df /\ BuildIndex.is_success row = true
                  /\ Val.notna (Val.get cat row) && Val.truthy (Val.get cat row) = true
                  /\ In v (BuildIndex.split_values (Val.get cat row)).
Proof.
  intros Hne. rewrite all_values_iff. unfold BuildIndex.df_success. split.
  - intros (row' & Hin & Hok & Hv).
    apply in_map_iff in Hin as (row & <- & Hrow).
    apply filter_In in Hrow as [Hrow Hs].
    rewrite add_searchable_text_get in Hok, Hv by done. by exists row.
  - intros (row & Hrow & Hs & Hok & Hv).
    exists (BuildIndex.add_searchable_text row).
    rewrite add_searchable_text_get by done.
    split; [|done]. apply in_map_iff. exists row. split; [done|].
    by apply filter_In.
Qed.

Lemma category_not_text cat :
  In cat BuildIndex.CATEGORIES -> cat <> "searchable_text".
Proof.
  intros Hcat ->. revert Hcat. apply (bool_decide_unpack _). by vm_compute.
Qed.

(** X24: the filter options that build_index.py writes have one list per
    category, in the order of [CATEGORIES]; each list is strictly
    ascending, so free of duplicates, and holds exactly the stripped
    comma-separated pieces of the non-empty cells that the rows with
    status [success] have in that category. *)
Theorem filter_options_complete (vec : Type) (encode : list string -> list vec) df :
  Py.dict_keys (BuildIndex.filters vec (BuildIndex.main vec encode df))
  = BuildIndex.CATEGORIES
  /\ forall cat,
       In cat BuildIndex.CATEGORIES ->
       exists options,
         Py.dict_get cat (BuildIndex.filters vec (BuildIndex.main vec encode df))
         = Some options
         /\ Spec.strictly_ascending options
         /\ forall v, In v options <->
              exists row,
                In row df /\ BuildIndex.is_success row = true
                /\ Val.notna (Val.get cat row) && Val.truthy (Val.get cat row) = true
                /\ In v (BuildIndex.split_values (Val.get cat row)).
Proof.
  unfold BuildIndex.main. cbn [BuildIndex.filters]. split.
  - unfold BuildIndex.filter_options.
    rewrite (dict_keys_loop (fun c => c)
               (fun c => Py.sorted (BuildIndex.all_values c (BuildIndex.df_success df)))
               _ (fun _ _ => eq_refl)).
    by vm_compute.
  - intros cat Hcat.
    exists (Py.sorted (BuildIndex.all_values cat (BuildIndex.df_success df))).
    split; [by apply filter_options_get|].
    split; [apply sorted_strictly_ascending|].
    intros v. rewrite sorted_elem. apply df_success_values.
    by apply category_not_text.
Qed.

(** X25: an option offered in a filter list finds a record: every option
    of a category comes from a success row, and a record that stores the
    text of that row's cell passes the category test of the query service
    when the option is chosen as the filter value. *)
Theorem offered_option_finds_record (vec : Type) (encode : list string -> list vec)
    df cat options v :
  In cat BuildIndex.CATEGORIES ->
  Py.dict_get cat (BuildIndex.filters vec (BuildIndex.main vec encode df))
  = Some options ->
  In v options ->
  exists row,
    In row df /\ BuildIndex.is_success row = true
    /\ forall idx i,
         Service.item cat (Service.record_at idx i) = Val.str (Val.get cat row) ->
         Service.passes_category idx cat v i = true.
Proof.
  intros Hcat Hget Hv. unfold BuildIndex.main in Hget. cbn [BuildIndex.filters] in Hget.
  rewrite filter_options_get in Hget by done. injection Hget as <-.
  apply sorted_elem, df_success_values in Hv as (row & Hrow & Hs & _ & Hv);
    [|by apply category_not_text].
  exists row. split; [done|]. split; [done|].
  intros idx i Hitem. unfold Service.passes_category. rewrite Hitem.
  apply contains_substring.
  apply split_values_infix in Hv as (pre & post & ->).
  exists (Py.lower pre), (Py.lower post). by rewrite !lower_app.
Qed.

(** X26: every record of search_index.json has the same fourteen keys in
    the same order, the four file keys and then the categories, and no
    category value is missing: an empty cell of the scan artifact (NaN)
    is stored as the empty string, every other cell as it is. *)
Theorem index_record_schema row :
  Py.dict_keys (BuildIndex.make_record row)
  = ["file_path"; "file_name"; "file_type"; "searchable_text"]
    ++ BuildIndex.CATEGORIES
  /\ forall cat,
       In cat BuildIndex.CATEGORIES ->
       exists v,
         Py.dict_get cat (BuildIndex.make_record row) = Some v
         /\ Val.notna v = true
         /\ (Val.notna (Val.get cat row) = true -> v = Val.get cat row)
         /\ (Val.notna (Val.get cat row) = false -> v = Val.Str "").
Proof.
  unfold BuildIndex.make_record. split.
  - rewrite (dict_keys_loop (fun c => c)
               (fun c => if Val.notna (Val.get c row) then Val.get c row
                         else Val.Str "") _ (fun _ _ => eq_refl)).
    by vm_compute.
  - intros cat Hcat.
    exists (if Val.notna (Val.get cat row) then Val.get cat row else Val.Str "").
    split.
    + apply (dict_get_loop_In (fun c => c)
               (fun c => if Val.notna (Val.get c row) then Val.get c row
                         else Val.Str "") _ (fun _ _ => eq_refl) cat); [done|].
      by intros c _ ->.
    + by destruct (Val.notna (Val.get cat row)) eqn:Hna.
Qed.

(** ** The further properties at concrete inputs *)

Lemma listed_targets_have_readers_witness :
  In Demo.turtles_gdb Demo.survey_targets
  /\ In (Scan.type Demo.turtles_gdb) Spec.known_types.
Proof.
  assert (In Demo.turtles_gdb Demo.survey_targets) as Hin.
  { vm_compute. right. left. reflexivity. }
  split; [exact Hin|].
  exact (proj1 (listed_targets_have_readers Demo.join (fun p => p) "E:/surveys" []
                  Demo.survey_tree Demo.turtles_gdb Hin)).
Defined.

Lemma unread_target_is_success_witness :
  Py.dict_get "status" (Demo.scan_with "" Demo.csv_target) = Some "success".
Proof.
  exact (proj1 (unread_target_is_success (fun _ => "") (fun _ => "") (fun _ => "")
                  (fun _ => "") (fun _ => "") (fun _ => None) Demo.csv_target
                  (or_introl eq_refl))).
Defined.

Lemma reported_terms_are_configured_witness :
  exists terms,
    In ("marine_mammals", terms) Scan.SEARCH_CATEGORIES /\ In "dugong" terms.
Proof.
  apply (reported_terms_are_configured "marine_mammals" "dugong" "Dugong sightings").
  unfold Spec.reported. apply (bool_decide_unpack _). vm_compute. exact I.
Defined.

Lemma added_term_matches_as_token_witness :
  exists pattern,
    Re.compile_ignorecase (Scan.term_pattern "sea cow") = Some pattern
    /\ (Scan.pattern_search (Some pattern) "Two Sea Cows seen" = true
        <-> Spec.occurs_as_token "sea cow" "Two Sea Cows seen").
Proof.
  destruct (added_term_matches_as_token "sea cow") as (pattern & Hcompile & Hiff).
  exists pattern. split; [exact Hcompile|].
  exact (Hiff eq_refl eq_refl "Two Sea Cows seen").
Defined.

Lemma candidate_membership_witness :
  exists cands,
    Service.candidates string Demo.re_compile Demo.re_search Demo.two_records
      (Spec.with_patterns (Some "turtle") None (Demo.no_filters "" 100))
    = Service.Next cands
    /\ StronglySorted lt cands.
Proof.
  destruct (candidate_membership string Demo.re_compile Demo.re_search
              Demo.two_records
              (Spec.with_patterns (Some "turtle") None (Demo.no_filters "" 100))
              (or_intror (ex_intro _ "turtle"
                            (ex_intro _ "turtle" (conj eq_refl eq_refl))))
              (or_introl eq_refl))
    as (cands & Hc & Hs & _).
  exists cands. split; [exact Hc|exact Hs].
Defined.

Lemma ranking_without_text_witness :
  exists ranked,
    Sorted String.le (map (Spec.name_key Demo.two_records) ranked)
    /\ Demo.rows_of
         (Demo.search Demo.argsort_stable Demo.two_records (Demo.no_filters " " 100))
       = map (fun i => Service.result_row Demo.round4 Demo.two_records i None)
           (Py.slice_to 100 ranked).
Proof.
  assert (~ In "score" (Service.categories Demo.two_records)) as Hnot.
  { intros H. vm_compute in H. intuition discriminate. }
  destruct (ranking_without_text string Demo.re_compile Demo.re_search
              Demo.embed Demo.dot Demo.argsort_stable Demo.round4 Demo.two_records
              (Demo.no_filters " " 100) 2%nat 2%nat
              (Demo.rows_of
                 (Demo.search Demo.argsort_stable Demo.two_records
                    (Demo.no_filters " " 100)))
              eq_refl Hnot eq_refl)
    as (cands & ranked & _ & _ & Hsorted & _ & Hrows & _).
  exists ranked. split; [exact Hsorted|exact Hrows].
Defined.

Lemma negative_limit_drops_last_rows_witness :
  Z.of_nat 1 = Z.max 0 (Z.of_nat 2 + -1).
Proof.
  assert (-1 < 0) as Hneg by reflexivity.
  exact (proj1 (negative_limit_drops_last_rows string Demo.re_compile
                  Demo.re_search Demo.embed Demo.dot Demo.argsort_stable Demo.round4
                  Demo.two_records (Demo.no_filters "dugong" (-1)) 2%nat 1%nat
                  (Demo.rows_of
                     (Demo.search Demo.argsort_stable Demo.two_records
                        (Demo.no_filters "dugong" (-1))))
                  Hneg eq_refl)).
Defined.

Lemma rows_grow_with_limit_witness :
  Demo.search Demo.argsort_stable Demo.two_records
    (Spec.with_limit 1 (Demo.no_filters "dugong" 100))
  = Service.Return
      (Service.Results 2 (Nat.min (Z.to_nat 1) 2)
         (firstn (Z.to_nat 1)
            (Demo.rows_of
               (Demo.search Demo.argsort_stable Demo.two_records
                  (Spec.with_limit 2 (Demo.no_filters "dugong" 100)))))).
Proof.
  assert (0 <= 1 <= 2) as Hk by (split; discriminate).
  exact (rows_grow_with_limit string Demo.re_compile Demo.re_search Demo.embed Demo.dot
           Demo.argsort_stable Demo.round4 Demo.two_records
           (Demo.no_filters "dugong" 100) 1 2 2%nat 2%nat
           (Demo.rows_of
              (Demo.search Demo.argsort_stable Demo.two_records
                 (Spec.with_limit 2 (Demo.no_filters "dugong" 100))))
           Hk eq_refl).
Defined.

Lemma missing_embedding_row_witness :
  Demo.search Demo.argsort_stable Demo.one_vector (Demo.no_filters "dugong" 100)
  = Service.Raise Service.IndexError.
Proof.
  refine (proj1 (missing_embedding_row string Demo.re_compile Demo.re_search
                   Demo.embed Demo.dot Demo.argsort_stable Demo.round4 Demo.one_vector
                   (Demo.no_filters "dugong" 100) [0; 1]%nat eq_refl) eq_refl _).
  exists 1%nat. split; [right; left; reflexivity|].
  apply le_n.
Defined.

Lemma rows_of_distinct_records_witness :
  exists shown,
    NoDup shown
    /\ map (Py.dict_get "file_path")
         (Demo.rows_of
            (Demo.search Demo.argsort_stable Demo.two_records
               (Demo.no_filters "dugong" 100)))
       = map (fun i => Some (Val.Str (Service.item "file_path"
                                        (Service.record_at Demo.two_records i))))
           shown.
Proof.
  assert (forall k, In k ["file_name"; "file_path"; "file_type"; "score"] ->
                    ~ In k (Service.categories Demo.two_records)) as Hnot.
  { intros k Hk H. vm_compute in Hk, H. intuition (subst; discriminate). }
  destruct (rows_of_distinct_records string Demo.re_compile Demo.re_search
              Demo.embed Demo.dot Demo.argsort_stable Demo.round4 Demo.two_records
              (Demo.no_filters "dugong" 100) 2%nat 2%nat
              (Demo.rows_of
                 (Demo.search Demo.argsort_stable Demo.two_records
                    (Demo.no_filters "dugong" 100)))
              argsort_stable_spec Hnot eq_refl)
    as (shown & Hnd & _ & _ & Hpaths & _).
  exists shown. split; [exact Hnd|exact Hpaths].
Defined.

Lemma pattern_splits_candidates_witness :
  exists both included excluded,
    Service.candidates string Demo.re_compile Demo.re_search Demo.two_records
      (Spec.with_patterns (Some "turtle") None (Demo.no_filters "" 100))
    = Service.Next included
    /\ Service.candidates string Demo.re_compile Demo.re_search Demo.two_records
         (Spec.with_patterns None (Some "turtle") (Demo.no_filters "" 100))
       = Service.Next excluded
    /\ forall i, In i both <-> In i included \/ In i excluded.
Proof.
  destruct (pattern_splits_candidates string Demo.re_compile Demo.re_search
              Demo.two_records (Demo.no_filters "" 100) "turtle" "turtle"
              eq_refl eq_refl)
    as (both & included & excluded & _ & Hi & He & Hsplit).
  exists both, included, excluded.
  split; [exact Hi|]. split; [exact He|].
  intros i. exact (proj1 (Hsplit i)).
Defined.

Lemma stats_by_category_witness :
  Py.dict_get "places" (Service.by_category (Service.get_stats Demo.two_records))
  = if bool_decide ("places" ∈ Service.categories Demo.two_records)
    then Some (length (List.filter
                         (fun rec => Py.truthy (Service.item "places" rec))
                         (Service.records Demo.two_records)))
    else None.
Proof.
  apply (stats_by_category Demo.two_records).
  apply NoDup_ListNoDup. apply (bool_decide_unpack _). vm_compute. exact I.
Defined.

Lemma category_cell_round_trip_witness :
  exists l,
    BuildIndex.split_values (Val.Str "dugong") = l
    /\ Spec.strictly_ascending l.
Proof.
  destruct (category_cell_round_trip (fun _ => "")
              (fun _ => "Dugong sightings 2023")
              (fun _ => "") (fun _ => "") (fun _ => "") (fun _ => None)
              Demo.gdb_target "marine_mammals"
              ["dugong"; "dolphin"; "whale"; "manatee"; "porpoise"; "cetacean";
               "bottlenose"; "spinner"; "humpback"; "brydes"; "bryde"; "minke";
               "orca"; "indo-pacific"; "pantropical"; "rissos"; "false killer"]
              "dugong" (or_introl eq_refl) eq_refl eq_refl)
    as (l & Hsplit & Hsorted & _).
  exists l. split; [exact Hsplit|exact Hsorted].
Defined.

Lemma prepared_record_fields_witness :
  exists s,
    Py.dict_get "species" (PrepareIndex.csv_xlsx_record Demo.metadata_row)
    = Some (Val.Str s)
    /\ Py.strip s = s.
Proof.
  refine (proj2 (prepared_record_fields Demo.tables_only
                   (PrepareIndex.csv_xlsx_record Demo.metadata_row) _)
            "species" _).
  - left. reflexivity.
  - right. right. left. reflexivity.
Defined.

Lemma prepared_filter_options_witness :
  exists options,
    Py.dict_get "species"
      (PrepareIndex.filters_json unit
         (PrepareIndex.main unit Demo.no_vectors Demo.tables_only))
    = Some options
    /\ Spec.strictly_ascending options.
Proof.
  destruct (prepared_filter_options unit Demo.no_vectors Demo.tables_only "species"
              (or_introl eq_refl))
    as (options & Hget & Hsorted & _).
  exists options. split; [exact Hget|exact Hsorted].
Defined.

Lemma offered_option_finds_record_witness :
  exists row,
    In row [Demo.scan_row "success"]
    /\ forall idx i,
         Service.item "places" (Service.record_at idx i)
         = Val.str (Val.get "places" row) ->
         Service.passes_category idx "places" "reef" i = true.
Proof.
  assert (In "places" BuildIndex.CATEGORIES) as Hcat.
  { vm_compute. do 7 right. left. reflexivity. }
  assert (Py.dict_get "places"
            (BuildIndex.filters unit
               (BuildIndex.main unit Demo.no_vectors [Demo.scan_row "success"]))
          = Some ["NEOM"; "reef"]) as Hget by (vm_compute; reflexivity).
  destruct (offered_option_finds_record unit Demo.no_vectors
              [Demo.scan_row "success"] "places" ["NEOM"; "reef"] "reef"
              Hcat Hget (or_intror (or_introl eq_refl)))
    as (row & Hrow & _ & Hpass).
  exists row. split; [exact Hrow|exact Hpass].
Defined.


Lemma matches_ignore_text_case_witness :
  exists text,
    Spec.latin1_text [206; 108; 101; 32; 68; 85; 71; 79; 78; 71]%N = Some text
    /\ Scan.find_matches_in_text (Py.lower text) = Scan.find_matches_in_text text.
Proof.
  eexists. split; [reflexivity|].
  exact (matches_ignore_text_case [206; 108; 101; 32; 68; 85; 71; 79; 78; 71]%N
           _ eq_refl).
Defined.
